(** * pfp.fields: the field classes of the Pfp DOM

    A shallow embedding of [pfp/fields.py] (Python 2): the [Field] base
    class, [Struct], the [NumberBase] family, [Array], [String] and
    [WString], together with the part of the Python run time they lean
    on (attribute lookup through instance, class and [__getattr__],
    [struct.pack] and [struct.unpack], the UTF-16LE codec, list
    indexing, augmented assignment).

    Field objects live in a store and are referred to by location, so
    that the ordered child list of a [Struct] and its name index can
    alias the same object.  Methods are state transformers over the
    store and the streams; they return a value, raise an exception,
    or stop for a reason that is not a Python outcome (see [stuck]).
    What an exception leaves behind in the store stays there.

    Integers are unbounded, as Python's are; a [str] is a string of
    bytes; a [float] is an IEEE 754 binary64 number in the
    representation of the Standard Library's [SpecFloat]. *)

From Stdlib Require Import ZArith Lia Ascii String.
From Stdlib Require Import Floats.SpecFloat.
From stdpp Require Import base gmap strings list fin_maps pretty.

(** ** Classes *)

(** The classes defined in [fields.py]. *)
Inductive Cls :=
  | C_Field | C_Void | C_Struct | C_Dom
  | C_NumberBase
  | C_Char | C_UChar | C_Short | C_UShort
  | C_Int | C_UInt | C_Int64 | C_UInt64
  | C_Float | C_Double
  | C_Array | C_String | C_WString.

Global Instance Cls_eq_dec : EqDecision Cls.
Proof. solve_decision. Defined.

(** The direct base class ([class UChar(Char)], ...); [None] for
    [Field], whose base is [object]. *)
Definition base (c : Cls) : option Cls :=
  match c with
  | C_Field => None
  | C_Void | C_Struct | C_NumberBase | C_Array | C_String => Some C_Field
  | C_Dom => Some C_Struct
  | C_Char | C_Short | C_Int | C_Int64 | C_Float | C_Double => Some C_NumberBase
  | C_UChar => Some C_Char
  | C_UShort => Some C_Short
  | C_UInt => Some C_Int
  | C_UInt64 => Some C_Int64
  | C_WString => Some C_String
  end.

Fixpoint mro_from (depth : nat) (c : Cls) : list Cls :=
  c :: match depth, base c with
       | S d, Some b => mro_from d b
       | _, _ => []
       end.

(** Method resolution order; the hierarchy is single-inheritance and
    at most four classes deep. *)
Definition mro (c : Cls) : list Cls := mro_from 3 c.

Definition issubclass (c b : Cls) : bool := bool_decide (b ∈ mro c).

(** ** Values *)

Abbreviation loc := nat (only parsing).

(** Python values that reach the field classes.  [VStr] is a Python 2
    [str] (a byte string), [VUni] a [unicode] object given by its code
    points, [VFloat] a Python [float] (IEEE binary64), [VField] a
    reference to a field object, [VStream] a reference to an I/O stream
    and [VClass] a class object. *)
Inductive PyVal :=
  | VNone
  | VInt (z : Z)
  | VFloat (f : spec_float)
  | VStr (s : string)
  | VUni (u : list Z)
  | VField (l : loc)
  | VStream (sid : nat)
  | VClass (c : Cls).

(** [isinstance(v, Field)]: every object in the store is an instance
    of a subclass of [Field]. *)
Definition isinstance_Field (v : PyVal) : bool :=
  match v with VField _ => true | _ => false end.

(** Modelled from the spec: [errors.PrematureEOF], the exception of
    the module [errors] that a parse method raises when the stream
    yields fewer bytes than it needs (PrematureEndOfInput), is the
    constructor [PrematureEOF].  The other constructors are built-in
    exceptions of Python and [struct.error]. *)
Inductive exn :=
  | PrematureEOF | AttributeError | NameError | TypeError | IndexError
  | StructError | ZeroDivisionError | ValueError | OverflowError
  | UnicodeError.

(** Ways a run of the model can stop that are not Python exceptions:
    the recursion budget is exhausted, the run leaves the modelled
    fragment of Python, or a reference points outside the store. *)
Inductive stuck := OutOfFuel | NotModelled | BadRef.

Inductive res (A : Type) :=
  | Ok (a : A)
  | Raise (e : exn)
  | Stuck (r : stuck).
Arguments Ok {A} a.
Arguments Raise {A} e.
Arguments Stuck {A} r.

(** ** Objects, streams and the store *)

(** A field object: its class, its instance [__dict__] restricted to
    scalar-valued attributes ([_pfp__name], [_pfp__value],
    [_pfp__data], [endian], [width], [field_cls], ...), and the three
    containers the classes keep: [_pfp__children] and
    [_pfp__children_map] of a [Struct], [items] of an [Array]. *)
Record obj := mkObj {
  o_cls : Cls;
  o_dict : gmap string PyVal;
  o_children : list loc;
  o_children_map : gmap string loc;
  o_items : list loc
}.

(** A stream: the bytes not yet read and the bytes written so far. *)
Record stream := mkStream {
  s_unread : string;
  s_written : string
}.

Record state := mkState {
  heap : list obj;
  streams : list stream
}.

(** ** The state-and-exception monad *)

Definition M (A : Type) : Type := state → res A * state.

Definition ret {A} (a : A) : M A := λ st, (Ok a, st).
Definition raise {A} (e : exn) : M A := λ st, (Raise e, st).
Definition stop {A} (r : stuck) : M A := λ st, (Stuck r, st).

Definition bind {A B} (m : M A) (k : A → M B) : M B :=
  λ st, match m st with
        | (Ok a, st') => k a st'
        | (Raise e, st') => (Raise e, st')
        | (Stuck r, st') => (Stuck r, st')
        end.

Notation "'let*' x ':=' m 'in' k" := (bind m (λ x, k))
  (at level 10, x name, m at level 100, k at level 200).
Notation "m ';;' k" := (bind m (λ _, k))
  (at level 100, k at level 200, right associativity).

Definition lift_res {A} (r : res A) : M A := λ st, (r, st).

Definition get_obj (l : loc) : M obj :=
  λ st, match heap st !! l with
        | Some o => (Ok o, st)
        | None => (Stuck BadRef, st)
        end.

Definition set_obj (l : loc) (o : obj) : M unit :=
  λ st, (Ok tt, mkState (<[l := o]> (heap st)) (streams st)).

Definition modify_obj (l : loc) (f : obj → obj) : M unit :=
  let* o := get_obj l in set_obj l (f o).

(** A new object goes at the end of the store. *)
Definition alloc (o : obj) : M loc :=
  λ st, (Ok (length (heap st)), mkState (heap st ++ [o]) (streams st)).

Definition new_obj (c : Cls) : obj := mkObj c ∅ [] ∅ [].

Definition set_dict (d : gmap string PyVal) (o : obj) : obj :=
  mkObj (o_cls o) d (o_children o) (o_children_map o) (o_items o).
Definition set_children (cs : list loc) (o : obj) : obj :=
  mkObj (o_cls o) (o_dict o) cs (o_children_map o) (o_items o).
Definition set_children_map (m : gmap string loc) (o : obj) : obj :=
  mkObj (o_cls o) (o_dict o) (o_children o) m (o_items o).
Definition set_items (its : list loc) (o : obj) : obj :=
  mkObj (o_cls o) (o_dict o) (o_children o) (o_children_map o) its.

(** ** Byte strings *)

Fixpoint str_take (n : nat) (s : string) : string :=
  match n, s with
  | S k, String a r => String a (str_take k r)
  | _, _ => ""
  end.

Fixpoint str_drop (n : nat) (s : string) : string :=
  match n, s with
  | S k, String _ r => str_drop k r
  | _, _ => s
  end.

Definition ascii_of_Z (z : Z) : ascii := ascii_of_N (Z.to_N z).
Definition Z_of_ascii (a : ascii) : Z := Z.of_N (N_of_ascii a).

(** ** Class attributes *)

Definition BIG_ENDIAN : string := ">".
Definition LITTLE_ENDIAN : string := "<".

(** The data attributes each class body assigns. *)
Definition own_attrs (c : Cls) : list (string * PyVal) :=
  match c with
  | C_NumberBase =>
      [("endian", VStr BIG_ENDIAN); ("width", VInt 4);
       ("format", VStr "i"); ("_pfp__value", VInt 0)]
  | C_Char => [("width", VInt 1); ("format", VStr "b")]
  | C_UChar => [("format", VStr "B")]
  | C_Short => [("width", VInt 2); ("format", VStr "h")]
  | C_UShort => [("format", VStr "H")]
  | C_Int => [("width", VInt 4); ("format", VStr "i")]
  | C_UInt => [("format", VStr "I")]
  | C_Int64 => [("width", VInt 8); ("format", VStr "q")]
  | C_UInt64 => [("format", VStr "Q")]
  | C_Float => [("width", VInt 4); ("format", VStr "f")]
  | C_Double => [("width", VInt 8); ("format", VStr "d")]
  | C_Array => [("width", VInt (-1))]
  | C_String =>
      [("width", VInt (-1)); ("read_size", VInt 1);
       ("terminator", VStr (String "000" ""))]
  | C_WString =>
      [("width", VInt (-1)); ("read_size", VInt 2);
       ("terminator", VStr (String "000" (String "000" "")))]
  | C_Field | C_Void | C_Struct | C_Dom => []
  end.

(** The methods each class body defines. *)
Definition own_methods (c : Cls) : list string :=
  match c with
  | C_Field =>
      ["__init__"; "_pfp__get_root_value"; "_pfp__set_value";
       "_pfp__build"; "_pfp__parse"; "__repr__"]
  | C_Struct =>
      ["__init__"; "_pfp__add_child"; "_pfp__parse"; "_pfp__build";
       "__getattr__"; "__setattr__"; "__repr__"]
  | C_NumberBase =>
      ["_pfp__parse"; "_pfp__build"; "__cmp__"; "__iadd__"; "__isub__";
       "__imul__"; "__idiv__"; "__iand__"; "__ixor__"; "__ifloordiv__";
       "__imod__"; "__ipow__"; "__ilshift__"; "__irshift__";
       "__invert__"; "__getattr__"]
  | C_Array =>
      ["__init__"; "_pfp__parse"; "_pfp__build"; "__getitem__";
       "__setitem__"]
  | C_String => ["_pfp__parse"; "_pfp__build"; "__cmp__"]
  | C_WString => ["_pfp__parse"; "_pfp__build"]
  | _ => []
  end.

Fixpoint assoc {A} (name : string) (l : list (string * A)) : option A :=
  match l with
  | [] => None
  | (k, v) :: r => if String.eqb k name then Some v else assoc name r
  end.

Fixpoint lookup_mro (cs : list Cls) (name : string) : option PyVal :=
  match cs with
  | [] => None
  | c :: r =>
      match assoc name (own_attrs c) with
      | Some v => Some v
      | None => lookup_mro r name
      end
  end.

(** A data attribute found on the class or one of its bases. *)
Definition class_attr (c : Cls) (name : string) : option PyVal :=
  lookup_mro (mro c) name.

(** Which class's definition of a method an instance of [c] runs. *)
Definition defining_class (c : Cls) (method : string) : option Cls :=
  list_find (λ k, bool_decide (method ∈ own_methods k)) (mro c) ≫= λ p, Some p.2.

(** Attribute names whose values are not scalars of the model: bound
    methods, the attributes every object inherits from [object], and
    the list and dict attributes kept in the container slots. *)
Definition beyond_scalars (c : Cls) (name : string) : bool :=
  match defining_class c name with Some _ => true | None => false end
  || String.prefix "__" name
  || bool_decide (name ∈ ["_pfp__children"; "_pfp__children_map"; "items"]).

(** ** Attribute access *)

(** [object.__getattribute__(self, name)]: the instance dictionary,
    then the class and its bases; no [__getattr__] hook. *)
Definition object___getattribute__ (self : loc) (name : string) : M PyVal :=
  let* o := get_obj self in
  match o_dict o !! name with
  | Some v => ret v
  | None =>
      match class_attr (o_cls o) name with
      | Some v => ret v
      | None =>
          if beyond_scalars (o_cls o) name then stop NotModelled
          else raise AttributeError
      end
  end.

(** [object.__setattr__(self, name, value)]. *)
Definition object___setattr__ (self : loc) (name : string) (value : PyVal)
  : M unit :=
  if bool_decide (name ∈ ["_pfp__children"; "_pfp__children_map"; "items"])
  then stop NotModelled
  else modify_obj self (λ o, set_dict (<[name := value]> (o_dict o)) o).

(** Run [handler] when [m] raises [AttributeError]. *)
Definition except_AttributeError {A} (m : M A) (handler : M A) : M A :=
  λ st, match m st with
        | (Raise AttributeError, st') => handler st'
        | r => r
        end.

(** [Struct.__getattr__] *)
Definition Struct___getattr__ (self : loc) (name : string) : M PyVal :=
  let* o := get_obj self in
  let children_map := o_children_map o in
  match children_map !! name with
  | Some child => ret (VField child)
  | None =>
      (* default getattr instead *)
      object___getattribute__ self name
  end.

(** [Struct.__setattr__]; [setattr] is the attribute assignment
    statement, which the bare-value branch runs on the child. *)
Definition Struct___setattr__ (setattr : loc → string → PyVal → M unit)
    (self : loc) (name : string) (value : PyVal) : M PyVal :=
  let* o := get_obj self in
  let children_map := o_children_map o in
  match children_map !! name with
  | Some child =>
      match value with
      | VField new =>
          modify_obj self (set_children_map (<[name := new]> children_map)) ;;
          ret (VField new)
      | _ =>
          setattr child "_pfp__value" value ;;
          ret (VField child)
      end
  | None =>
      (* default getattr instead *)
      object___setattr__ self name value ;;
      ret VNone
  end.

(** [NumberBase.__getattr__]: the second conjunct names [attr], which
    is bound nowhere. *)
Definition NumberBase___getattr__ (self : loc) (val : string) : M PyVal :=
  if String.prefix "__" val then raise NameError
  else raise AttributeError.

(** The expression [obj.name]. *)
Definition py_getattr (self : loc) (name : string) : M PyVal :=
  let* o := get_obj self in
  except_AttributeError (object___getattribute__ self name)
    (match defining_class (o_cls o) "__getattr__" with
     | Some C_Struct => Struct___getattr__ self name
     | Some C_NumberBase => NumberBase___getattr__ self name
     | _ => raise AttributeError
     end).

(** The statement [obj.name = value].  A [Struct] assigning a bare
    value assigns in turn to an attribute of the child, which may be a
    [Struct] again; [fuel] bounds that chain. *)
Fixpoint py_setattr (fuel : nat) (self : loc) (name : string)
    (value : PyVal) : M unit :=
  match fuel with
  | O => stop OutOfFuel
  | S f =>
      let* o := get_obj self in
      match defining_class (o_cls o) "__setattr__" with
      | Some C_Struct =>
          Struct___setattr__ (py_setattr f) self name value ;; ret tt
      | _ => object___setattr__ self name value
      end
  end.

(** [get_value], also bound to [PYVAL]. *)
Definition get_value (field : PyVal) : M PyVal :=
  match field with
  | VField l => py_getattr l "_pfp__value"
  | _ => ret field
  end.
Definition PYVAL := get_value.

(** ** Streams *)

(** The lookup [stream.read] or [stream.write], which fails on a
    value that has no such method. *)
Definition stream_method (s : PyVal) (name : string) : M nat :=
  match s with
  | VStream sid => ret sid
  | VField _ => stop NotModelled
  | _ => raise AttributeError
  end.

(** Modelled from the spec: streams are supplied by the caller; the
    core assumes of them that [read(n)] returns up to [n] bytes, fewer
    only at the end of the input.  A negative [n] reads all that is
    left, as Python streams do. *)
Definition stream_read (sid : nat) (n : PyVal) : M string :=
  match n with
  | VInt z =>
      λ st, match streams st !! sid with
            | Some t =>
                let k := if (z <? 0)%Z then String.length (s_unread t)
                         else Z.to_nat z in
                (Ok (str_take k (s_unread t)),
                 mkState (heap st)
                   (<[sid := mkStream (str_drop k (s_unread t))
                                      (s_written t)]> (streams st)))
            | None => (Stuck BadRef, st)
            end
  | _ => raise TypeError
  end.

(** Modelled from the spec: [write(bytes)] returns the number of
    bytes accepted, which is all of them. *)
Definition stream_write (sid : nat) (data : PyVal) : M PyVal :=
  match data with
  | VStr d =>
      λ st, match streams st !! sid with
            | Some t =>
                (Ok (VInt (Z.of_nat (String.length d))),
                 mkState (heap st)
                   (<[sid := mkStream (s_unread t)
                                      (s_written t +:+ d)]> (streams st)))
            | None => (Stuck BadRef, st)
            end
  | _ => stop NotModelled
  end.

(** The number of unread bytes, used to bound the read loop of
    [String._pfp__parse]. *)
Definition unread_length (s : PyVal) : M nat :=
  λ st, match s with
        | VStream sid =>
            match streams st !! sid with
            | Some t => (Ok (String.length (s_unread t)), st)
            | None => (Ok 0, st)
            end
        | _ => (Ok 0, st)
        end.

(** ** The [struct] module

    [struct.pack] and [struct.unpack] on the two-character formats
    that [NumberBase] builds: a byte-order character followed by one
    format character, in standard size and without alignment. *)
Module struct.
Local Open Scope Z_scope.

Inductive order := BigEndian | LittleEndian.

Inductive code :=
  | IntCode (signed : bool) (size : nat)
  | FloatCode
  | DoubleCode.

Definition order_of (a : ascii) : option order :=
  match a with
  | ">" | "!" => Some BigEndian
  | "<" => Some LittleEndian
  | _ => None
  end%char.

Definition code_of (a : ascii) : option code :=
  match a with
  | "b" => Some (IntCode true 1)
  | "B" => Some (IntCode false 1)
  | "h" => Some (IntCode true 2)
  | "H" => Some (IntCode false 2)
  | "i" => Some (IntCode true 4)
  | "I" => Some (IntCode false 4)
  | "q" => Some (IntCode true 8)
  | "Q" => Some (IntCode false 8)
  | "f" => Some FloatCode
  | "d" => Some DoubleCode
  | _ => None
  end%char.

Definition parse_format (fmt : string) : option (order * code) :=
  match fmt with
  | String o (String c EmptyString) =>
      match order_of o, code_of c with
      | Some o', Some c' => Some (o', c')
      | _, _ => None
      end
  | _ => None
  end.

Definition calcsize (c : code) : nat :=
  match c with
  | IntCode _ n => n
  | FloatCode => 4
  | DoubleCode => 8
  end.

(** *** Integers in a given byte order *)

(** The [n] low bytes of [z], least significant first. *)
Fixpoint le_bytes (n : nat) (z : Z) : string :=
  match n with
  | O => ""
  | S k => String (ascii_of_Z (z mod 256)) (le_bytes k (z / 256))
  end.

(** The [n] low bytes of [z], most significant first. *)
Fixpoint be_bytes (n : nat) (z : Z) : string :=
  match n with
  | O => ""
  | S k =>
      String (ascii_of_Z ((z / 256 ^ Z.of_nat k) mod 256)) (be_bytes k z)
  end.

Fixpoint le_value (s : string) : Z :=
  match s with
  | EmptyString => 0
  | String a r => Z_of_ascii a + 256 * le_value r
  end.

Fixpoint be_value_from (acc : Z) (s : string) : Z :=
  match s with
  | EmptyString => acc
  | String a r => be_value_from (acc * 256 + Z_of_ascii a) r
  end.

Definition to_bytes (o : order) (n : nat) (z : Z) : string :=
  match o with
  | BigEndian => be_bytes n z
  | LittleEndian => le_bytes n z
  end.

Definition of_bytes (o : order) (s : string) : Z :=
  match o with
  | BigEndian => be_value_from 0 s
  | LittleEndian => le_value s
  end.

Definition in_range (signed : bool) (size : nat) (z : Z) : bool :=
  let bits := 8 * Z.of_nat size in
  if signed then (- 2 ^ (bits - 1) <=? z) && (z <? 2 ^ (bits - 1))
  else (0 <=? z) && (z <? 2 ^ bits).

(** Two's complement for the signed codes. *)
Definition pack_int (o : order) (signed : bool) (size : nat) (z : Z)
  : res string :=
  if in_range signed size z then Ok (to_bytes o size z)
  else Raise StructError.

Definition unpack_int (o : order) (signed : bool) (size : nat) (s : string)
  : Z :=
  let bits := 8 * Z.of_nat size in
  let u := of_bytes o s in
  if signed && (2 ^ (bits - 1) <=? u) then u - 2 ^ bits else u.

(** *** IEEE 754 interchange formats *)

Definition digits (m : positive) : Z := Zpos (digits2_pos m).

Section Interchange.
(** Width of the trailing significand field and of the exponent
    field: 23 and 8 for binary32, 52 and 11 for binary64. *)
Variables mw ew : Z.

Definition least_exponent : Z := 3 - 2 ^ (ew - 1) - (mw + 1).

Definition join_bits (s : bool) (e m : Z) : Z :=
  (if s then 2 ^ (mw + ew) else 0) + e * 2 ^ mw + m.

Definition bits_of_float (x : spec_float) : Z :=
  match x with
  | S754_zero s => join_bits s 0 0
  | S754_infinity s => join_bits s (2 ^ ew - 1) 0
  | S754_nan => join_bits false (2 ^ ew - 1) (2 ^ (mw - 1))
  | S754_finite s m e =>
      if Zpos m <? 2 ^ mw then join_bits s 0 (Zpos m)
      else join_bits s (e - least_exponent + 1) (Zpos m - 2 ^ mw)
  end.

Definition float_of_bits (z : Z) : spec_float :=
  let m := z mod 2 ^ mw in
  let e := (z / 2 ^ mw) mod 2 ^ ew in
  let s := Z.odd (z / 2 ^ (mw + ew)) in
  if e =? 0 then
    if m =? 0 then S754_zero s
    else S754_finite s (Z.to_pos m) least_exponent
  else if e =? 2 ^ ew - 1 then
    if m =? 0 then S754_infinity s else S754_nan
  else S754_finite s (Z.to_pos (m + 2 ^ mw)) (e + least_exponent - 1).
End Interchange.

(** The C conversion from [double] to [float]: round to nearest,
    ties to even.  A finite value beyond the binary32 range is the
    overflow that [pack] reports. *)
Definition narrow (x : spec_float) : res spec_float :=
  match x with
  | S754_finite s m e =>
      let e' := Z.max (digits m + e - 24) (-149) in
      let sh := e' - e in
      let q :=
        if sh <=? 0 then Zpos m * 2 ^ (- sh)
        else
          let q0 := Zpos m / 2 ^ sh in
          let r := Zpos m mod 2 ^ sh in
          let half := 2 ^ (sh - 1) in
          if r <? half then q0
          else if r =? half then (if Z.even q0 then q0 else q0 + 1)
          else q0 + 1 in
      let '(m2, e2) := if q =? 2 ^ 24 then (2 ^ 23, e' + 1) else (q, e') in
      if m2 =? 0 then Ok (S754_zero s)
      else if 104 <? e2 then Raise OverflowError
      else Ok (S754_finite s (Z.to_pos m2) e2)
  | _ => Ok x
  end.

(** The conversion from [float] to [double], which is exact. *)
Definition widen (x : spec_float) : spec_float :=
  match x with
  | S754_finite s m e =>
      let k := 53 - digits m in
      S754_finite s (Z.to_pos (Zpos m * 2 ^ k)) (e - k)
  | _ => x
  end.

(** The argument of a float code: a float, or an integer converted
    as [float(z)] does, to the nearest double.  An integer beyond the
    range of a double fails that conversion, and [struct] reports any
    failure of it as [struct.error]. *)
Definition as_double (v : PyVal) : res spec_float :=
  match v with
  | VFloat f => Ok f
  | VInt z =>
      match binary_normalize 53 1024 z 0 false with
      | S754_infinity _ => Raise StructError
      | f => Ok f
      end
  | _ => Raise StructError
  end.

(** [struct.pack(fmt, v)].  A float handed to an integer code, which
    CPython 2.7 truncates under a deprecation warning, is outside the
    model. *)
Definition pack (fmt : string) (v : PyVal) : res string :=
  match parse_format fmt with
  | None => Stuck NotModelled
  | Some (o, IntCode signed size) =>
      match v with
      | VInt z => pack_int o signed size z
      | VFloat _ => Stuck NotModelled
      | _ => Raise StructError
      end
  | Some (o, FloatCode) =>
      match as_double v with
      | Ok f =>
          match narrow f with
          | Ok g => Ok (to_bytes o 4 (bits_of_float 23 8 g))
          | Raise e => Raise e
          | Stuck r => Stuck r
          end
      | Raise e => Raise e
      | Stuck r => Stuck r
      end
  | Some (o, DoubleCode) =>
      match as_double v with
      | Ok f => Ok (to_bytes o 8 (bits_of_float 52 11 f))
      | Raise e => Raise e
      | Stuck r => Stuck r
      end
  end.

(** [struct.unpack(fmt, data)[0]] *)
Definition unpack (fmt : string) (data : string) : res PyVal :=
  match parse_format fmt with
  | None => Stuck NotModelled
  | Some (o, c) =>
      if negb (String.length data =? calcsize c)%nat then Raise StructError
      else
        match c with
        | IntCode signed size => Ok (VInt (unpack_int o signed size data))
        | FloatCode =>
            Ok (VFloat (widen (float_of_bits 23 8 (of_bytes o data))))
        | DoubleCode => Ok (VFloat (float_of_bits 52 11 (of_bytes o data)))
        end
  end.

(** The values a code packs and unpacks without loss: the
    integers of its range; for [f], the doubles that are the exact
    image of a binary32 number; for [d], every double. *)
Definition valid_for (c : code) (v : PyVal) : Prop :=
  match c with
  | IntCode signed size => ∃ z, v = VInt z ∧ in_range signed size z = true
  | FloatCode => ∃ g, v = VFloat (widen g) ∧ valid_binary 24 128 g = true
  | DoubleCode => ∃ f, v = VFloat f ∧ valid_binary 53 1024 f = true
  end.

End struct.

(** ** The UTF-16LE codec *)
Module utf_16_le.
Local Open Scope Z_scope.

Definition is_high_surrogate (u : Z) : bool := (0xD800 <=? u) && (u <=? 0xDBFF).
Definition is_low_surrogate (u : Z) : bool := (0xDC00 <=? u) && (u <=? 0xDFFF).

Definition unit_bytes (u : Z) : string :=
  String (ascii_of_Z (u mod 256)) (String (ascii_of_Z (u / 256)) "").

(** [u.encode("utf-16le")]: one code unit below U+10000 (a surrogate
    code point is written as it stands), a surrogate pair above. *)
Fixpoint encode (u : list Z) : string :=
  match u with
  | [] => ""
  | c :: r =>
      (if c <? 0x10000 then unit_bytes c
       else unit_bytes (0xD800 + (c - 0x10000) / 0x400)
            +:+ unit_bytes (0xDC00 + (c - 0x10000) mod 0x400))
      +:+ encode r
  end.

(** The 16-bit code units of a byte string; [None] when a byte is
    left over. *)
Fixpoint units (s : string) : option (list Z) :=
  match s with
  | EmptyString => Some []
  | String _ EmptyString => None
  | String a (String b r) =>
      match units r with
      | Some us => Some ((Z_of_ascii a + 256 * Z_of_ascii b) :: us)
      | None => None
      end
  end.

Fixpoint combine (us : list Z) : option (list Z) :=
  match us with
  | [] => Some []
  | u :: r =>
      if is_high_surrogate u then
        match r with
        | l :: r' =>
            if is_low_surrogate l then
              match combine r' with
              | Some cs =>
                  Some ((0x10000 + (u - 0xD800) * 0x400 + (l - 0xDC00)) :: cs)
              | None => None
              end
            else None
        | [] => None
        end
      else if is_low_surrogate u then None
      else
        match combine r with
        | Some cs => Some (u :: cs)
        | None => None
        end
  end.

(** [s.decode("utf-16le")] *)
Definition decode (s : string) : res (list Z) :=
  match units s with
  | Some us =>
      match combine us with
      | Some cs => Ok cs
      | None => Raise UnicodeError
      end
  | None => Raise UnicodeError
  end.

(** The implicit ASCII decoding that Python 2 applies to a [str]
    where a [unicode] is expected. *)
Fixpoint ascii_decode (s : string) : option (list Z) :=
  match s with
  | EmptyString => Some []
  | String a r =>
      if Z_of_ascii a <? 128 then
        match ascii_decode r with
        | Some cs => Some (Z_of_ascii a :: cs)
        | None => None
        end
      else None
  end.

End utf_16_le.

(** ** Operators *)

Inductive BinOp :=
  | Add | Sub | Mul | Div | FloorDiv | Mod | Pow
  | And | Xor | LShift | RShift.

(** The binary operators on Python 2 integers.  [/] without
    [from __future__ import division] is floor division. *)
Definition int_binop (op : BinOp) (a b : Z) : res PyVal :=
  match op with
  | Add => Ok (VInt (a + b))
  | Sub => Ok (VInt (a - b))
  | Mul => Ok (VInt (a * b))
  | Div | FloorDiv =>
      if (b =? 0)%Z then Raise ZeroDivisionError else Ok (VInt (a / b))
  | Mod =>
      if (b =? 0)%Z then Raise ZeroDivisionError else Ok (VInt (a mod b))
  | Pow =>
      if (0 <=? b)%Z then Ok (VInt (a ^ b))
      else if (a =? 0)%Z then Raise ZeroDivisionError
      else Stuck NotModelled
  | And => Ok (VInt (Z.land a b))
  | Xor => Ok (VInt (Z.lxor a b))
  | LShift =>
      if (b <? 0)%Z then Raise ValueError else Ok (VInt (Z.shiftl a b))
  | RShift =>
      if (b <? 0)%Z then Raise ValueError else Ok (VInt (Z.shiftr a b))
  end.

(** [x op y] on values.  Integers and byte strings are modelled;
    [None] supports no arithmetic; float and unicode arithmetic and
    the string forms of [*] and [%] are outside the model. *)
Definition py_binop (op : BinOp) (x y : PyVal) : res PyVal :=
  match x, y with
  | VInt a, VInt b => int_binop op a b
  | VStr a, VStr b =>
      match op with
      | Add => Ok (VStr (a +:+ b))
      | Mod => Stuck NotModelled
      | _ => Raise TypeError
      end
  | VInt _, VStr _ | VStr _, VInt _ =>
      match op with
      | Mul | Mod => Stuck NotModelled
      | _ => Raise TypeError
      end
  | VNone, (VNone | VInt _ | VFloat _ | VStr _ | VUni _)
  | (VInt _ | VFloat _ | VStr _ | VUni _), VNone => Raise TypeError
  | _, _ => Stuck NotModelled
  end.

(** [a < b], on integers. *)
Definition py_lt (x y : PyVal) : res bool :=
  match x, y with
  | VInt a, VInt b => Ok (a <? b)%Z
  | _, _ => Stuck NotModelled
  end.

(** [a == b] between a byte string and a value. *)
Definition py_str_eq (a : string) (y : PyVal) : res bool :=
  match y with
  | VStr b => Ok (String.eqb a b)
  | VUni _ | VField _ => Stuck NotModelled
  | _ => Ok false
  end.

(** [str(v)], as [str.format] applies it to a [{}] field. *)
Definition py_str (v : PyVal) : res string :=
  match v with
  | VNone => Ok "None"
  | VInt z => Ok (pretty z)
  | VStr s => Ok s
  | _ => Stuck NotModelled
  end.

(** ["{}{}".format(a, b)] *)
Definition format_pair (a b : PyVal) : res string :=
  match py_str a, py_str b with
  | Ok x, Ok y => Ok (x +:+ y)
  | Ok _, r => r
  | r, _ => r
  end.

(** ["{}[{}]".format(a, b)] *)
Definition format_index (a b : PyVal) : res string :=
  match py_str a, py_str b with
  | Ok x, Ok y => Ok (x +:+ "[" +:+ y +:+ "]")
  | Ok _, r => r
  | r, _ => r
  end.

(** [range(n)], given by its length. *)
Definition py_range (n : PyVal) : res nat :=
  match n with
  | VInt z => Ok (Z.to_nat z)
  | VField _ | VStream _ | VClass _ => Stuck NotModelled
  | _ => Raise TypeError
  end.

(** [items[idx]] on a list: a negative index counts from the end. *)
Definition list_index {A} (items : list A) (idx : PyVal) : res nat :=
  match idx with
  | VInt i =>
      let n := Z.of_nat (length items) in
      if ((0 <=? i) && (i <? n))%Z then Ok (Z.to_nat i)
      else if ((- n <=? i) && (i <? 0))%Z then Ok (Z.to_nat (n + i))
      else Raise IndexError
  | VField _ | VStream _ | VClass _ => Stuck NotModelled
  | _ => Raise TypeError
  end.

(** ** [Field] *)

(** [Field.__init__(self, stream=None)]; [parse] is the method
    [self._pfp__parse]. *)
Definition Field___init__ (fuel : nat) (parse : loc → PyVal → M PyVal)
    (self : loc) (stream : PyVal) : M unit :=
  py_setattr fuel self "_pfp__name" VNone ;;
  match stream with
  | VNone => ret tt
  | _ => parse self stream ;; ret tt
  end.

Definition Field__pfp__get_root_value (self : loc) (val : PyVal) : M PyVal :=
  match val with
  | VField l => py_getattr l "_pfp__value"
  | _ => ret val
  end.

Definition Field__pfp__set_value (fuel : nat) (self : loc) (new_val : PyVal)
  : M unit :=
  let* v := Field__pfp__get_root_value self new_val in
  py_setattr fuel self "_pfp__value" v.

(** [raise NotImplemented(...)]: [NotImplemented] is not callable. *)
Definition Field__pfp__build (self : loc) (output_stream : PyVal) : M PyVal :=
  raise TypeError.

Definition Field__pfp__parse (self : loc) (stream : PyVal) : M PyVal :=
  raise TypeError.

(** ** [Struct] *)

Definition Struct___init__ (fuel : nat) (parse : loc → PyVal → M PyVal)
    (self : loc) (name : PyVal) : M unit :=
  (* ordered list of children *)
  modify_obj self (set_children []) ;;
  (* for quick child access *)
  modify_obj self (set_children_map ∅) ;;
  Field___init__ fuel parse self name.

Definition Struct__pfp__add_child (fuel : nat) (self : loc) (name : string)
    (child : loc) : M unit :=
  modify_obj self (λ o, set_children (o_children o ++ [child]) o) ;;
  py_setattr fuel child "_pfp__name" (VStr name) ;;
  modify_obj self (λ o, set_children_map (<[name := child]> (o_children_map o)) o).

(** The loop [for child in ...: res += child.method(stream)] shared by
    the parse and build methods of the containers. *)
Fixpoint accumulate (method : loc → PyVal → M PyVal) (children : list loc)
    (stream : PyVal) (res : PyVal) : M PyVal :=
  match children with
  | [] => ret res
  | child :: rest =>
      let* r := method child stream in
      let* res' := lift_res (py_binop Add res r) in
      accumulate method rest stream res'
  end.

Definition Struct__pfp__parse (parse : loc → PyVal → M PyVal)
    (self : loc) (stream : PyVal) : M PyVal :=
  let* o := get_obj self in
  accumulate parse (o_children o) stream (VInt 0).

Definition Struct__pfp__build (build : loc → PyVal → M PyVal)
    (self : loc) (stream : PyVal) : M PyVal :=
  (* returns either num bytes written or total data *)
  let res := match stream with VNone => VStr "" | _ => VInt 0 end in
  (* iterate IN ORDER *)
  let* o := get_obj self in
  accumulate build (o_children o) stream res.

(** ** [NumberBase] *)

Definition NumberBase__pfp__parse (self : loc) (stream : PyVal) : M PyVal :=
  let* read := stream_method stream "read" in
  let* width := py_getattr self "width" in
  let* data := stream_read read width in
  let* width' := py_getattr self "width" in
  let* short := lift_res (py_lt (VInt (Z.of_nat (String.length data))) width') in
  if (short : bool) then raise PrematureEOF
  else
    object___setattr__ self "_pfp__data" (VStr data) ;;
    let* endian := py_getattr self "endian" in
    let* format := py_getattr self "format" in
    let* fmt := lift_res (format_pair endian format) in
    let* value := lift_res (struct.unpack fmt data) in
    object___setattr__ self "_pfp__value" value ;;
    py_getattr self "width".

Definition NumberBase__pfp__build (self : loc) (stream : PyVal) : M PyVal :=
  let* endian := py_getattr self "endian" in
  let* format := py_getattr self "format" in
  let* fmt := lift_res (format_pair endian format) in
  let* value := py_getattr self "_pfp__value" in
  let* data := lift_res (struct.pack fmt value) in
  match stream with
  | VNone => ret (VStr data)
  | _ =>
      let* write := stream_method stream "write" in
      stream_write write (VStr data)
  end.

(** The body shared by [__iadd__], [__isub__], ...:
    [self._pfp__value op= other], and no [return]. *)
Definition NumberBase_inplace (op : BinOp) (self : loc) (other : PyVal)
  : M PyVal :=
  let* v := py_getattr self "_pfp__value" in
  let* r := lift_res (py_binop op v other) in
  object___setattr__ self "_pfp__value" r ;;
  ret VNone.

Definition NumberBase___iadd__ := NumberBase_inplace Add.
Definition NumberBase___isub__ := NumberBase_inplace Sub.
Definition NumberBase___imul__ := NumberBase_inplace Mul.
Definition NumberBase___idiv__ := NumberBase_inplace Div.
Definition NumberBase___iand__ := NumberBase_inplace And.
Definition NumberBase___ixor__ := NumberBase_inplace Xor.
Definition NumberBase___ifloordiv__ := NumberBase_inplace FloorDiv.
Definition NumberBase___imod__ := NumberBase_inplace Mod.
Definition NumberBase___ipow__ := NumberBase_inplace Pow.
Definition NumberBase___ilshift__ := NumberBase_inplace LShift.
Definition NumberBase___irshift__ := NumberBase_inplace RShift.

Definition inplace_method (op : BinOp) : string :=
  match op with
  | Add => "__iadd__" | Sub => "__isub__" | Mul => "__imul__"
  | Div => "__idiv__" | FloorDiv => "__ifloordiv__" | Mod => "__imod__"
  | Pow => "__ipow__" | And => "__iand__" | Xor => "__ixor__"
  | LShift => "__ilshift__" | RShift => "__irshift__"
  end.

Definition NumberBase_method (op : BinOp) : loc → PyVal → M PyVal :=
  match op with
  | Add => NumberBase___iadd__ | Sub => NumberBase___isub__
  | Mul => NumberBase___imul__ | Div => NumberBase___idiv__
  | FloorDiv => NumberBase___ifloordiv__ | Mod => NumberBase___imod__
  | Pow => NumberBase___ipow__ | And => NumberBase___iand__
  | Xor => NumberBase___ixor__ | LShift => NumberBase___ilshift__
  | RShift => NumberBase___irshift__
  end.

(** The value that the augmented assignment [target op= k] binds to
    its target: what the in-place method returns when the class of
    the target defines it, and [target op k] otherwise. *)
Definition aug_assign (op : BinOp) (target : PyVal) (k : PyVal) : M PyVal :=
  match target with
  | VField l =>
      let* o := get_obj l in
      match defining_class (o_cls o) (inplace_method op) with
      | Some C_NumberBase => NumberBase_method op l k
      | _ => raise TypeError
      end
  | _ => lift_res (py_binop op target k)
  end.

(** The statement [s.name op= k]. *)
Definition aug_assign_attr (fuel : nat) (op : BinOp) (s : loc) (name : string)
    (k : PyVal) : M unit :=
  let* v := py_getattr s name in
  let* r := aug_assign op v k in
  py_setattr fuel s name r.

(** ** [String] and [WString] *)

(** The [while True] loop of [String._pfp__parse]. *)
Fixpoint String_read_loop (fuel : nat) (self : loc) (stream : PyVal)
    (res : string) : M string :=
  match fuel with
  | O => stop OutOfFuel
  | S f =>
      let* read := stream_method stream "read" in
      let* read_size := py_getattr self "read_size" in
      let* byte := stream_read read read_size in
      let* read_size' := py_getattr self "read_size" in
      let* short :=
        lift_res (py_lt (VInt (Z.of_nat (String.length byte))) read_size') in
      if (short : bool) then raise PrematureEOF
      else
        (* note that the null terminator must be added back when
           built again! *)
        let* terminator := py_getattr self "terminator" in
        let* found := lift_res (py_str_eq byte terminator) in
        if (found : bool) then ret res
        else String_read_loop f self stream (res +:+ byte)
  end.

(** Every turn of the loop that does not leave it consumes at least
    one byte when [read_size] is positive, so one turn more than the
    number of unread bytes is enough. *)
Definition String__pfp__parse (self : loc) (stream : PyVal) : M PyVal :=
  let* n := unread_length stream in
  let* res := String_read_loop (S n) self stream "" in
  object___setattr__ self "_pfp__value" (VStr res) ;;
  ret VNone.

Definition NUL : string := String "000" "".

Definition String__pfp__build (self : loc) (stream : PyVal) : M PyVal :=
  match stream with
  | VNone =>
      let* v := py_getattr self "_pfp__value" in
      lift_res (py_binop Add v (VStr NUL))
  | _ =>
      let* write := stream_method stream "write" in
      let* v := py_getattr self "_pfp__value" in
      let* data := lift_res (py_binop Add v (VStr NUL)) in
      stream_write write data
  end.

(** [v.decode("utf-16le")] *)
Definition py_decode_utf_16_le (v : PyVal) : res PyVal :=
  match v with
  | VStr s =>
      match utf_16_le.decode s with
      | Ok u => Ok (VUni u)
      | Raise e => Raise e
      | Stuck r => Stuck r
      end
  | VNone | VInt _ | VFloat _ => Raise AttributeError
  | _ => Stuck NotModelled
  end.

(** [v.encode("utf-16le")]; a [str] is first decoded as ASCII. *)
Definition py_encode_utf_16_le (v : PyVal) : res PyVal :=
  match v with
  | VUni u => Ok (VStr (utf_16_le.encode u))
  | VStr s =>
      match utf_16_le.ascii_decode s with
      | Some u => Ok (VStr (utf_16_le.encode u))
      | None => Raise UnicodeError
      end
  | VNone | VInt _ | VFloat _ => Raise AttributeError
  | _ => Stuck NotModelled
  end.

Definition WString__pfp__parse (self : loc) (stream : PyVal) : M PyVal :=
  String__pfp__parse self stream ;;
  let* v := py_getattr self "_pfp__value" in
  let* u := lift_res (py_decode_utf_16_le v) in
  object___setattr__ self "_pfp__value" u ;;
  ret VNone.

Definition WString__pfp__build (self : loc) (stream : PyVal) : M PyVal :=
  match stream with
  | VNone =>
      let* v := py_getattr self "_pfp__value" in
      let* e := lift_res (py_encode_utf_16_le v) in
      lift_res (py_binop Add e (VStr (NUL +:+ NUL)))
  | _ =>
      let* write := stream_method stream "write" in
      let* v := py_getattr self "_pfp__value" in
      let* e := lift_res (py_encode_utf_16_le v) in
      let* data := lift_res (py_binop Add e (VStr (NUL +:+ NUL))) in
      stream_write write data
  end.

(** ** Comparison and complement *)

Definition sign_of (c : comparison) : Z :=
  match c with Lt => -1 | Eq => 0 | Gt => 1 end.

(** [cmp(x, y)] of Python 2 on two integers and on two byte strings,
    which are ordered byte by byte, a proper prefix first.  The order
    Python 2 gives to values of different types is outside the
    model. *)
Definition py_cmp (x y : PyVal) : res PyVal :=
  match x, y with
  | VInt a, VInt b => Ok (VInt (sign_of (a ?= b)%Z))
  | VStr a, VStr b => Ok (VInt (sign_of (String.compare a b)))
  | _, _ => Stuck NotModelled
  end.

(** [~v] *)
Definition py_invert (v : PyVal) : res PyVal :=
  match v with
  | VInt z => Ok (VInt (Z.lnot z))
  | VNone | VFloat _ | VStr _ | VUni _ => Raise TypeError
  | _ => Stuck NotModelled
  end.

(** [NumberBase.__cmp__]: an operand that is a numeric field is
    replaced by its value, any other operand is compared as it is. *)
Definition NumberBase___cmp__ (self : loc) (other : PyVal) : M PyVal :=
  let* other' :=
    match other with
    | VField l =>
        let* o := get_obj l in
        if issubclass (o_cls o) C_NumberBase then py_getattr l "_pfp__value"
        else ret other
    | _ => ret other
    end in
  let* v := py_getattr self "_pfp__value" in
  lift_res (py_cmp v other').

(** [NumberBase.__invert__], which returns the complement of the value
    and assigns nothing. *)
Definition NumberBase___invert__ (self : loc) : M PyVal :=
  let* v := py_getattr self "_pfp__value" in
  lift_res (py_invert v).

(** [String.__cmp__]: an operand that is a field, of any class, is
    replaced by its value. *)
Definition String___cmp__ (self : loc) (other : PyVal) : M PyVal :=
  match other with
  | VField l =>
      let* v := py_getattr self "_pfp__value" in
      let* w := py_getattr l "_pfp__value" in
      lift_res (py_cmp v w)
  | _ =>
      let* v := py_getattr self "_pfp__value" in
      lift_res (py_cmp v other)
  end.

(** ** Construction *)

(** A call of the class with the arguments [args]: a new object,
    then the [__init__] that the class inherits.  [init_array] is [Array.__init__], defined below. *)
Definition construct (fuel : nat) (parse : loc → PyVal → M PyVal)
    (init_array : loc → PyVal → PyVal → PyVal → M unit)
    (c : Cls) (args : list PyVal) : M loc :=
  let* self := alloc (new_obj c) in
  match defining_class c "__init__" with
  | Some C_Array =>
      match args with
      | [width; field_cls] => init_array self width field_cls VNone
      | [width; field_cls; stream] => init_array self width field_cls stream
      | _ => raise TypeError
      end
  | Some C_Struct =>
      match args with
      | [] => Struct___init__ fuel parse self VNone
      | [name] => Struct___init__ fuel parse self name
      | _ => raise TypeError
      end
  | _ =>
      match args with
      | [] => Field___init__ fuel parse self VNone
      | [stream] => Field___init__ fuel parse self stream
      | _ => raise TypeError
      end
  end ;;
  ret self.

(** The call [f()] of a value. *)
Definition call0 (fuel : nat) (parse : loc → PyVal → M PyVal)
    (init_array : loc → PyVal → PyVal → PyVal → M unit) (f : PyVal) : M loc :=
  match f with
  | VClass c => construct fuel parse init_array c []
  | VStream _ => stop NotModelled
  | _ => raise TypeError
  end.

(** ** [Array] *)

Definition Array___init__ (parse : loc → PyVal → M PyVal)
    (self : loc) (width field_cls stream : PyVal) : M unit :=
  object___setattr__ self "width" width ;;
  object___setattr__ self "field_cls" field_cls ;;
  modify_obj self (set_items []) ;;
  match stream with
  | VNone => ret tt
  | _ => parse self stream ;; ret tt
  end.

(** The body of [for x in range(n)], run for [x], [x + 1], ... *)
Fixpoint Array_parse_loop (fuel : nat) (parse : loc → PyVal → M PyVal)
    (count : nat) (x : Z) (self : loc) (stream : PyVal) : M unit :=
  match count with
  | O => ret tt
  | S count' =>
      let* field_cls := py_getattr self "field_cls" in
      let* field := call0 fuel parse (Array___init__ parse) field_cls in
      let* name := py_getattr self "_pfp__name" in
      let* s := lift_res (format_index name (VInt x)) in
      py_setattr fuel field "_pfp__name" (VStr s) ;;
      parse field stream ;;
      modify_obj self (λ o, set_items (o_items o ++ [field]) o) ;;
      Array_parse_loop fuel parse count' (x + 1)%Z self stream
  end.

Definition Array__pfp__parse (fuel : nat) (parse : loc → PyVal → M PyVal)
    (self : loc) (stream : PyVal) : M PyVal :=
  (* optimizations... should reuse existing fields?? *)
  modify_obj self (set_items []) ;;
  let* width := py_getattr self "width" in
  let* n := PYVAL width in
  let* count := lift_res (py_range n) in
  Array_parse_loop fuel parse count 0%Z self stream ;;
  ret VNone.

Definition Array__pfp__build (build : loc → PyVal → M PyVal)
    (self : loc) (stream : PyVal) : M PyVal :=
  let res := match stream with VNone => VStr "" | _ => VInt 0 end in
  let* o := get_obj self in
  accumulate build (o_items o) stream res.

Definition Array___getitem__ (self : loc) (idx : PyVal) : M PyVal :=
  let* o := get_obj self in
  let* i := lift_res (list_index (o_items o) idx) in
  match o_items o !! i with
  | Some item => ret (VField item)
  | None => stop BadRef
  end.

Definition Array___setitem__ (fuel : nat) (self : loc) (idx value : PyVal)
  : M unit :=
  match value with
  | VField new =>
      let* o := get_obj self in
      let* i := lift_res (list_index (o_items o) idx) in
      modify_obj self (λ o, set_items (<[i := new]> (o_items o)) o)
  | _ =>
      let* o := get_obj self in
      let* i := lift_res (list_index (o_items o) idx) in
      match o_items o !! i with
      | Some item => Field__pfp__set_value fuel item value
      | None => stop BadRef
      end
  end.

(** ** Method dispatch *)

(** The call [self._pfp__parse(stream)].  A container parses its
    children, which may be containers again; [fuel] bounds the depth
    of that recursion.  The method run is the one the class of [self]
    defines or inherits: the module assigns no instance attribute
    under the name of a method, and an instance attribute of that
    name, which would be called in its place, is not considered. *)
Fixpoint _pfp__parse (fuel : nat) (self : loc) (stream : PyVal) : M PyVal :=
  match fuel with
  | O => stop OutOfFuel
  | S f =>
      let* o := get_obj self in
      match defining_class (o_cls o) "_pfp__parse" with
      | Some C_Struct => Struct__pfp__parse (_pfp__parse f) self stream
      | Some C_NumberBase => NumberBase__pfp__parse self stream
      | Some C_Array => Array__pfp__parse f (_pfp__parse f) self stream
      | Some C_String => String__pfp__parse self stream
      | Some C_WString => WString__pfp__parse self stream
      | _ => Field__pfp__parse self stream
      end
  end.

(** The call [self._pfp__build(stream)], dispatched by the class of
    [self] like [_pfp__parse]. *)
Fixpoint _pfp__build (fuel : nat) (self : loc) (stream : PyVal) : M PyVal :=
  match fuel with
  | O => stop OutOfFuel
  | S f =>
      let* o := get_obj self in
      match defining_class (o_cls o) "_pfp__build" with
      | Some C_Struct => Struct__pfp__build (_pfp__build f) self stream
      | Some C_NumberBase => NumberBase__pfp__build self stream
      | Some C_Array => Array__pfp__build (_pfp__build f) self stream
      | Some C_String => String__pfp__build self stream
      | Some C_WString => WString__pfp__build self stream
      | _ => Field__pfp__build self stream
      end
  end.

(** The constructor calls [Struct(name)], [Array(width, field_cls,
    stream)] and [cls(stream)] of the other classes. *)
Definition new (fuel : nat) (c : Cls) (args : list PyVal) : M loc :=
  construct fuel (_pfp__parse fuel) (Array___init__ (_pfp__parse fuel)) c args.

(** ** Vocabulary of the statements *)

(** What [obj.name] finds without a [__getattr__] hook: the instance
    attribute, else the class attribute. *)
Definition attr_of (o : obj) (name : string) : option PyVal :=
  match o_dict o !! name with
  | Some v => Some v
  | None => class_attr (o_cls o) name
  end.

(** The instance does not shadow the constants of its class. *)
Definition plain (o : obj) : Prop :=
  o_dict o !! "width" = None ∧ o_dict o !! "format" = None ∧
  o_dict o !! "read_size" = None ∧ o_dict o !! "terminator" = None.

(** The store with the object at [l] replaced. *)
Definition upd_heap (l : loc) (o : obj) (st : state) : state :=
  mkState (<[l := o]> (heap st)) (streams st).

Definition upd_stream (sid : nat) (t : stream) (st : state) : state :=
  mkState (heap st) (<[sid := t]> (streams st)).

(** The object with one instance attribute assigned. *)
Definition with_attr (name : string) (v : PyVal) (o : obj) : obj :=
  set_dict (<[name := v]> (o_dict o)) o.

(** The instance attribute [_pfp__value] of the object at [l]. *)
Definition stored_value (l : loc) (st : state) : option PyVal :=
  heap st !! l ≫= λ o, o_dict o !! "_pfp__value".

Definition is_number (c : Cls) : bool := issubclass c C_NumberBase.
Definition is_struct (c : Cls) : bool := issubclass c C_Struct.

(** The concrete numeric classes and the width each inherits. *)
Definition number_width (c : Cls) : option Z :=
  if is_number c then
    match class_attr c "width" with
    | Some (VInt w) => Some w
    | _ => None
    end
  else None.

(** The attributes kept in the container slots of an object. *)
Definition container_names : list string :=
  ["_pfp__children"; "_pfp__children_map"; "items"].

(** The classes that inherit [Field.__init__] and the default
    [__setattr__]: all but [Struct], [Dom] and [Array]. *)
Definition is_leaf (c : Cls) : bool :=
  bool_decide (defining_class c "__init__" = Some C_Field) && negb (is_struct c).

(** The code of a numeric class, from its [format] attribute. *)
Definition codec_of (c : Cls) : option struct.code :=
  match class_attr c "format" with
  | Some (VStr (String a EmptyString)) => struct.code_of a
  | _ => None
  end.

Fixpoint no_nul (s : string) : bool :=
  match s with
  | EmptyString => true
  | String a r => negb (Ascii.eqb a "000") && no_nul r
  end.

(** A Unicode scalar value other than U+0000. *)
Definition scalar (c : Z) : Prop :=
  (0 < c ≤ 0x10FFFF)%Z ∧ ¬ (0xD800 ≤ c ≤ 0xDFFF)%Z.

(** The domain of each concrete field class: the values of the
    numeric code; for [String], the byte strings without a zero
    byte; for [WString], the texts without U+0000. *)
Definition valid_value (c : Cls) (v : PyVal) : Prop :=
  if is_number c then
    match codec_of c with
    | Some k => struct.valid_for k v
    | None => False
    end
  else
    match c with
    | C_String => ∃ s, v = VStr s ∧ no_nul s = true
    | C_WString => ∃ u, v = VUni u ∧ Forall scalar u
    | _ => False
    end.

(** The byte order of an object is one of the two the module names. *)
Definition endian_of (o : obj) (e : string) : Prop :=
  attr_of o "endian" = Some (VStr e) ∧ (e = BIG_ENDIAN ∨ e = LITTLE_ENDIAN).

(** The units that the read loop of [String._pfp__parse] sees. *)
Fixpoint str_concat (chunks : list string) : string :=
  match chunks with
  | [] => ""
  | c :: r => c +:+ str_concat r
  end.

Fixpoint chars (s : string) : list string :=
  match s with
  | EmptyString => []
  | String a r => String a "" :: chars r
  end.

(** The UTF-16 code units of a text. *)
Fixpoint units_of (u : list Z) : list Z :=
  match u with
  | [] => []
  | c :: r =>
      (if (c <? 0x10000)%Z then [c]
       else [(0xD800 + (c - 0x10000) / 0x400)%Z;
             (0xDC00 + (c - 0x10000) mod 0x400)%Z]) ++ units_of r
  end.

(** Two objects of a numeric class resolve [endian] alike. *)
Definition same_byte_order (o o' : obj) : Prop :=
  is_number (o_cls o) = true → ∃ e, endian_of o e ∧ endian_of o' e.

(** The object at [l] is a numeric field of width [w] that keeps the
    constants and the byte order of its class. *)
Definition numeric_field (st : state) (l : loc) (w : Z) : Prop :=
  ∃ o, heap st !! l = Some o ∧ plain o ∧ o_dict o !! "endian" = None ∧
       number_width (o_cls o) = Some w.

Fixpoint total (ws : list Z) : Z :=
  match ws with
  | [] => 0
  | w :: r => w + total r
  end.

(** A byte string, last byte first. *)
Fixpoint str_rev (s : string) : string :=
  match s with
  | EmptyString => ""
  | String a r => str_rev r +:+ String a ""
  end.

(** The first [n] pieces of [k] bytes of a byte string. *)
Fixpoint pieces (n k : nat) (s : string) : list string :=
  match n with
  | O => []
  | S n' => str_take k s :: pieces n' k (str_drop k s)
  end.

(** Consecutive pieces of the given sizes of a byte string. *)
Fixpoint slices (sizes : list nat) (s : string) : list string :=
  match sizes with
  | [] => []
  | k :: r => str_take k s :: slices r (str_drop k s)
  end.

(** The object at [l] is a field of an integer class of [size] bytes
    that keeps the constants of its class and has one of the two byte
    orders. *)
Definition integer_field (st : state) (l : loc) (size : nat) : Prop :=
  ∃ o e signed,
    heap st !! l = Some o ∧ is_number (o_cls o) = true ∧ plain o ∧
    endian_of o e ∧ codec_of (o_cls o) = Some (struct.IntCode signed size).

(** A computation keeps a relation between the state it starts in
    and the state it ends in, however it ends. *)
Definition keeps (R : state → state → Prop) {A} (m : M A) : Prop :=
  ∀ st, R st (m st).2.

(** What a build may change: nothing in the store and nothing of what
    is still to be read from a stream; without a sink, nothing at
    all. *)
Definition build_frame (stream : PyVal) (st st' : state) : Prop :=
  heap st' = heap st ∧
  (s_unread <$> streams st') = (s_unread <$> streams st) ∧
  (stream = VNone → st' = st).

(** What a parse may change: it removes no object, and it leaves the
    class, the child sequence and the name index of every object as
    they are. *)
Definition layout_frame (st st' : state) : Prop :=
  length (heap st) ≤ length (heap st') ∧
  ∀ l o, heap st !! l = Some o →
    ∃ o', heap st' !! l = Some o' ∧ o_cls o' = o_cls o ∧
          o_children o' = o_children o ∧
          o_children_map o' = o_children_map o.

(** ** Scenarios

    Concrete stores and runs that the statements below refer to. *)

(** A store with no objects and one stream per given input. *)
Definition initial (inputs : list string) : state :=
  mkState [] ((λ d, mkStream d "") <$> inputs).

(** The byte string with the given byte values. *)
Fixpoint bytes (l : list Z) : string :=
  match l with
  | [] => ""
  | z :: r => String (ascii_of_Z z) (bytes r)
  end.

(** An [Int] holding 7 and a stream with two bytes left. *)
Definition short_read_state : state :=
  mkState [with_attr "_pfp__value" (VInt 7) (new_obj C_Int)]
          [mkStream (bytes [1; 2]%Z) ""].

(** [s = String(); s._pfp__parse(stream)] on the input ["hi\x00x"]. *)
Definition parse_String_hi : res PyVal * state :=
  (let* s := new 1 C_String [] in
   _pfp__parse 1 s (VStream 0)) (initial ["hi" +:+ bytes [0]%Z +:+ "x"]).

(** [s = WString(); s._pfp__parse(stream)] on the UTF-16LE bytes of
    ["A"] and the two-byte terminator. *)
Definition parse_WString_A : res PyVal * state :=
  (let* s := new 1 C_WString [] in
   _pfp__parse 1 s (VStream 0)) (initial [bytes [65; 0; 0; 0]%Z]).

(** [d = Struct(); d._pfp__add_child("s", String());
    d._pfp__parse(stream)] on the same input. *)
Definition parse_Struct_of_String : res PyVal * state :=
  (let* d := new 1 C_Struct [] in
   let* s := new 1 C_String [] in
   Struct__pfp__add_child 1 d "s" s ;;
   _pfp__parse 2 d (VStream 0)) (initial ["hi" +:+ bytes [0]%Z +:+ "x"]).

(** [n = UInt(stream0); a = Array(n, Int); a._pfp__parse(stream1)]
    where [stream0] holds the big-endian 3 and [stream1] twelve
    bytes. *)
Definition parse_counted_Array : res PyVal * state :=
  (let* n := new 1 C_UInt [VStream 0] in
   let* a := new 1 C_Array [VField n; VClass C_Int] in
   _pfp__parse 2 a (VStream 1))
  (initial [bytes [0; 0; 0; 3]%Z; "aaaabbbbcccc"]).

(** [x = Int(); x._pfp__value = 5], then the binding of [x] after
    [x += 1]. *)
Definition iadd_on_variable : res PyVal * state :=
  (let* x := new 1 C_Int [] in
   object___setattr__ x "_pfp__value" (VInt 5) ;;
   aug_assign Add (VField x) (VInt 1)) (initial []).

(** [d = Struct(); d._pfp__add_child("x", Int()); d.x = 5;
    d.x += 1] *)
Definition iadd_on_member : res unit * state :=
  (let* d := new 1 C_Struct [] in
   let* x := new 1 C_Int [] in
   Struct__pfp__add_child 1 d "x" x ;;
   py_setattr 2 d "x" (VInt 5) ;;
   aug_assign_attr 2 Add d "x" (VInt 1)) (initial []).

(** [a = Array(1, Int, stream); a[-1]] on four bytes. *)
Definition index_from_the_end : res PyVal * state :=
  (let* a := new 2 C_Array [VInt 1; VClass C_Int] in
   object___setattr__ a "_pfp__name" (VStr "a") ;;
   _pfp__parse 2 a (VStream 0) ;;
   Array___getitem__ a (VInt (-1))) (initial ["abcd"]).

(** [d = Struct(); d._pfp__value] *)
Definition value_of_new_Struct : res PyVal * state :=
  (let* d := new 1 C_Struct [] in get_value (VField d)) (initial []).

(** [s = String(); s._pfp__value] *)
Definition value_of_new_String : res PyVal * state :=
  (let* s := new 1 C_String [] in get_value (VField s)) (initial []).

(** [d = Struct(); a = Int(); b = Int(); d.x = 1;
    d._pfp__add_child("x", a); d.x = b; d.x] *)
Definition lookup_of_shadowed_name : res PyVal * state :=
  (let* d := new 1 C_Struct [] in
   let* a := new 1 C_Int [] in
   let* b := new 1 C_Int [] in
   py_setattr 2 d "x" (VInt 1) ;;
   Struct__pfp__add_child 1 d "x" a ;;
   py_setattr 2 d "x" (VField b) ;;
   py_getattr d "x") (initial []).

(** A struct whose only child, an [Int] holding 5, is attached under
    the name ["x"]; a second [Int], holding 9, is not attached. *)
Definition member_struct : obj :=
  set_children_map {["x" := 1]}
    (set_children [1] (with_attr "_pfp__name" VNone (new_obj C_Struct))).
Definition member_x : obj :=
  with_attr "_pfp__value" (VInt 5)
    (with_attr "_pfp__name" (VStr "x") (new_obj C_Int)).
Definition member_state : state :=
  mkState
    [member_struct; member_x;
     with_attr "_pfp__value" (VInt 9)
       (with_attr "_pfp__name" VNone (new_obj C_Int))]
    [].

(** A [Short] holding -2, a second [Short] to parse into, and a
    stream holding the big-endian bytes of -2 followed by ["x"]. *)
Definition short_holding : obj :=
  with_attr "_pfp__value" (VInt (-2)) (new_obj C_Short).
Definition round_trip_state : state :=
  mkState [short_holding; new_obj C_Short]
          [mkStream (bytes [255; 254]%Z +:+ "x") ""].

(** [f = cls(); f._pfp__value = v; g = cls(StringIO(f._pfp__build()));
    g._pfp__value] *)
Definition round_trip (c : Cls) (v : PyVal) : res PyVal :=
  ((let* f := new 1 c [] in
    object___setattr__ f "_pfp__value" v ;;
    let* data := _pfp__build 1 f VNone in
    match data with
    | VStr d =>
        (λ st, (Ok tt, mkState (heap st) (streams st ++ [mkStream d ""]))) ;;
        let* g := new 1 c [VStream 0] in
        get_value (VField g)
    | _ => stop NotModelled
    end) (initial [])).1.

(** The doubles 0.15625 and 0.1: only the first is a binary32 number. *)
Definition double_0_15625 : spec_float := S754_finite false 5629499534213120 (-55).
Definition double_0_1 : spec_float := S754_finite false 7205759403792794 (-56).

(** The store without the name indexes of its structs. *)
Definition erase_index (st : state) : state :=
  mkState (set_children_map ∅ <$> heap st) (streams st).

(** Two runs agree when they end alike and their stores differ at
    most in name indexes. *)
Definition agree {A} (x y : res A * state) : Prop :=
  x.1 = y.1 ∧ erase_index x.2 = erase_index y.2.

(** What [obj.name] evaluates to on an object that is not a struct,
    where it depends on the object alone. *)
Definition lookup_attr (o : obj) (name : string) : res PyVal :=
  match attr_of o name with
  | Some v => Ok v
  | None =>
      if beyond_scalars (o_cls o) name then Stuck NotModelled
      else
        match defining_class (o_cls o) "__getattr__" with
        | Some C_NumberBase =>
            if String.prefix "__" name then Raise NameError
            else Raise AttributeError
        | _ => Raise AttributeError
        end
  end.

(** What [obj.name] evaluates to, on any object: [lookup_attr]
    extended by the [__getattr__] of structs. *)
Definition attr_value (o : obj) (name : string) : res PyVal :=
  match attr_of o name with
  | Some v => Ok v
  | None =>
      if beyond_scalars (o_cls o) name then Stuck NotModelled
      else
        match defining_class (o_cls o) "__getattr__" with
        | Some C_Struct =>
            match o_children_map o !! name with
            | Some child => Ok (VField child)
            | None => Raise AttributeError
            end
        | Some C_NumberBase =>
            if String.prefix "__" name then Raise NameError
            else Raise AttributeError
        | _ => Raise AttributeError
        end
  end.

(** Two objects at [l] that differ at most in what the name index of
    the struct at [s] holds for [name], which it binds in both or in
    neither. *)
Definition similar (s : loc) (name : string) (l : loc) (o1 o2 : obj) : Prop :=
  o_cls o1 = o_cls o2 ∧ o_dict o1 = o_dict o2 ∧
  o_children o1 = o_children o2 ∧ o_items o1 = o_items o2 ∧
  (∀ k, l ≠ s ∨ k ≠ name → o_children_map o1 !! k = o_children_map o2 !! k) ∧
  (is_Some (o_children_map o1 !! name) ↔ is_Some (o_children_map o2 !! name)).

(** Two states that differ at most in that binding. *)
Definition alike (s : loc) (name : string) (st1 st2 : state) : Prop :=
  streams st1 = streams st2 ∧
  length (heap st1) = length (heap st2) ∧
  (∃ o, heap st1 !! s = Some o ∧ is_struct (o_cls o) = true) ∧
  ∀ l o1, heap st1 !! l = Some o1 →
    ∃ o2, heap st2 !! l = Some o2 ∧ similar s name l o1 o2.

Definition related (s : loc) (name : string) {A} (x y : res A * state) : Prop :=
  x.1 = y.1 ∧ alike s name x.2 y.2.

(** The store of [member_state] and a stream that has received
    ["ab"]. *)
Definition member_state_with_sink : state :=
  mkState (heap member_state) [mkStream "" "ab"].

(** A struct of two [Int] children and a stream of six bytes. *)
Definition two_ints_state : state :=
  mkState
    [set_children_map {["a" := 1; "b" := 2]}
       (set_children [1; 2] (new_obj C_Struct));
     new_obj C_Int; new_obj C_Int]
    [mkStream "abcdef" ""].

(** Two [UChar] fields holding 200 and 300, an [Int] holding 1, two
    [String] fields holding ["ab"] and ["b"], and a stream of five
    bytes. *)
Definition fields_state : state :=
  mkState
    [with_attr "_pfp__value" (VInt 200) (new_obj C_UChar);
     with_attr "_pfp__value" (VInt 1) (new_obj C_Int);
     with_attr "_pfp__value" (VInt 300) (new_obj C_UChar);
     with_attr "_pfp__value" (VStr "ab") (new_obj C_String);
     with_attr "_pfp__value" (VStr "b") (new_obj C_String)]
    [mkStream (bytes [1; 2; 3; 4; 5]%Z) ""].

(** A [WString] that has not been parsed and a stream holding
    [input]. *)
Definition wstring_state (input : string) : state :=
  mkState [new_obj C_WString] [mkStream input ""].

(** An array of two [Short] items that has been given the name
    ["a"], and a stream of five bytes. *)
Definition named_array_state : state :=
  mkState
    [with_attr "_pfp__name" (VStr "a")
       (with_attr "field_cls" (VClass C_Short)
          (with_attr "width" (VInt 2) (new_obj C_Array)))]
    [mkStream "abcde" ""].

(** A struct of two [UChar]s holding 1 and 2, attached as ["a"] and
    ["b"] in that order. *)
Definition pair_struct : obj :=
  set_children_map {["a" := 1; "b" := 2]}
    (set_children [1; 2] (new_obj C_Struct)).
Definition pair_state : state :=
  mkState
    [pair_struct;
     with_attr "_pfp__value" (VInt 1) (new_obj C_UChar);
     with_attr "_pfp__value" (VInt 2) (new_obj C_UChar)]
    [].

(** A struct of a [UChar] and a [Short], not yet parsed. *)
Definition record_struct : obj :=
  set_children_map {["tag" := 1; "len" := 2]}
    (set_children [1; 2] (new_obj C_Struct)).
Definition record_state : state :=
  mkState [record_struct; new_obj C_UChar; new_obj C_Short]
          [mkStream "abcde" ""].

(** * Properties *)

(** Membership of a literal name in a literal list of names. *)
Ltac name_solver := apply (bool_decide_unpack _); vm_compute; exact I.

(** ** The monad *)

Lemma bind_ok {A B} (m : M A) (k : A → M B) st a st' :
  m st = (Ok a, st') → bind m k st = k a st'.
Proof. unfold bind. by intros ->. Qed.

Lemma bind_raise {A B} (m : M A) (k : A → M B) st e st' :
  m st = (Raise e, st') → bind m k st = (Raise e, st').
Proof. unfold bind. by intros ->. Qed.

Lemma bind_stuck {A B} (m : M A) (k : A → M B) st r st' :
  m st = (Stuck r, st') → bind m k st = (Stuck r, st').
Proof. unfold bind. by intros ->. Qed.

Lemma bind_ret {A B} (a : A) (k : A → M B) st : bind (ret a) k st = k a st.
Proof. done. Qed.

Lemma bind_lift_ok {A B} (a : A) (k : A → M B) st :
  bind (lift_res (Ok a)) k st = k a st.
Proof. done. Qed.

Lemma get_obj_ok l o st : heap st !! l = Some o → get_obj l st = (Ok o, st).
Proof. unfold get_obj. by intros ->. Qed.

Lemma modify_obj_ok l f o st :
  heap st !! l = Some o → modify_obj l f st = (Ok tt, upd_heap l (f o) st).
Proof.
  intros H. unfold modify_obj. by rewrite (bind_ok _ _ _ _ _ (get_obj_ok _ _ _ H)).
Qed.

Lemma heap_upd_same l o o' st :
  heap st !! l = Some o → heap (upd_heap l o' st) !! l = Some o'.
Proof.
  intros H. simpl. apply list_lookup_insert_eq. by eapply lookup_lt_Some.
Qed.

Lemma heap_upd_other l l' o' st :
  l ≠ l' → heap (upd_heap l o' st) !! l' = heap st !! l'.
Proof. intros H. simpl. by apply list_lookup_insert_ne. Qed.

Lemma upd_heap_twice l o1 o2 st :
  upd_heap l o2 (upd_heap l o1 st) = upd_heap l o2 st.
Proof. unfold upd_heap. simpl. by rewrite list_insert_insert_eq. Qed.

Lemma object_setattr_ok l name v o st :
  heap st !! l = Some o →
  name ∉ ["_pfp__children"; "_pfp__children_map"; "items"] →
  object___setattr__ l name v st = (Ok tt, upd_heap l (with_attr name v o) st).
Proof.
  intros H Hn. unfold object___setattr__.
  rewrite bool_decide_eq_false_2 by done. by apply modify_obj_ok.
Qed.

(** ** Attribute lookup *)

Lemma object_getattribute_ok l name v o st :
  heap st !! l = Some o → attr_of o name = Some v →
  object___getattribute__ l name st = (Ok v, st).
Proof.
  intros H Ha. unfold object___getattribute__.
  rewrite (bind_ok _ _ _ _ _ (get_obj_ok _ _ _ H)).
  unfold attr_of in Ha. destruct (o_dict o !! name); [by inversion Ha|].
  by rewrite Ha.
Qed.

Lemma py_getattr_ok l name v o st :
  heap st !! l = Some o → attr_of o name = Some v →
  py_getattr l name st = (Ok v, st).
Proof.
  intros H Ha. unfold py_getattr.
  rewrite (bind_ok _ _ _ _ _ (get_obj_ok _ _ _ H)).
  unfold except_AttributeError.
  by rewrite (object_getattribute_ok _ _ _ _ _ H Ha).
Qed.

Lemma attr_of_with_attr_same name v o :
  attr_of (with_attr name v o) name = Some v.
Proof. unfold attr_of, with_attr. simpl. by rewrite lookup_insert_eq. Qed.

Lemma attr_of_with_attr_other name name' v o :
  name ≠ name' → attr_of (with_attr name v o) name' = attr_of o name'.
Proof. intros H. unfold attr_of, with_attr. simpl. by rewrite lookup_insert_ne. Qed.

(** ** One step of the recursive calls *)

Lemma py_setattr_S f self name value :
  py_setattr (S f) self name value =
    (let* o := get_obj self in
     match defining_class (o_cls o) "__setattr__" with
     | Some C_Struct =>
         Struct___setattr__ (py_setattr f) self name value ;; ret tt
     | _ => object___setattr__ self name value
     end).
Proof. done. Qed.

Lemma _pfp__parse_S f self stream :
  _pfp__parse (S f) self stream =
    (let* o := get_obj self in
     match defining_class (o_cls o) "_pfp__parse" with
     | Some C_Struct => Struct__pfp__parse (_pfp__parse f) self stream
     | Some C_NumberBase => NumberBase__pfp__parse self stream
     | Some C_Array => Array__pfp__parse f (_pfp__parse f) self stream
     | Some C_String => String__pfp__parse self stream
     | Some C_WString => WString__pfp__parse self stream
     | _ => Field__pfp__parse self stream
     end).
Proof. done. Qed.

Lemma _pfp__build_S f self stream :
  _pfp__build (S f) self stream =
    (let* o := get_obj self in
     match defining_class (o_cls o) "_pfp__build" with
     | Some C_Struct => Struct__pfp__build (_pfp__build f) self stream
     | Some C_NumberBase => NumberBase__pfp__build self stream
     | Some C_Array => Array__pfp__build (_pfp__build f) self stream
     | Some C_String => String__pfp__build self stream
     | Some C_WString => WString__pfp__build self stream
     | _ => Field__pfp__build self stream
     end).
Proof. done. Qed.

(** ** Attribute assignment *)

Lemma Struct_setattr_default sa s name v o st :
  heap st !! s = Some o → o_children_map o !! name = None →
  name ∉ container_names →
  Struct___setattr__ sa s name v st =
    (Ok VNone, upd_heap s (with_attr name v o) st).
Proof.
  intros H Hm Hn. unfold Struct___setattr__.
  rewrite (bind_ok _ _ _ _ _ (get_obj_ok _ _ _ H)), Hm.
  by rewrite (bind_ok _ _ _ _ _ (object_setattr_ok _ _ _ _ _ H Hn)).
Qed.

Lemma Struct_setattr_rebind sa s name old new o st :
  heap st !! s = Some o → o_children_map o !! name = Some old →
  Struct___setattr__ sa s name (VField new) st =
    (Ok (VField new),
     upd_heap s (set_children_map (<[name := new]> (o_children_map o)) o) st).
Proof.
  intros H Hm. unfold Struct___setattr__.
  rewrite (bind_ok _ _ _ _ _ (get_obj_ok _ _ _ H)), Hm.
  by rewrite (bind_ok _ _ _ _ _ (modify_obj_ok _ _ _ _ H)).
Qed.

Lemma Struct_setattr_value sa s name child v o st st' :
  heap st !! s = Some o → o_children_map o !! name = Some child →
  isinstance_Field v = false →
  sa child "_pfp__value" v st = (Ok tt, st') →
  Struct___setattr__ sa s name v st = (Ok (VField child), st').
Proof.
  intros H Hm Hv Hsa. unfold Struct___setattr__.
  rewrite (bind_ok _ _ _ _ _ (get_obj_ok _ _ _ H)), Hm.
  destruct v; try done; by rewrite (bind_ok _ _ _ _ _ Hsa).
Qed.

Lemma is_struct_setattr c :
  defining_class c "__setattr__" =
    if is_struct c then Some C_Struct else None.
Proof. by destruct c. Qed.

Lemma py_setattr_object f l name v o st :
  heap st !! l = Some o → is_struct (o_cls o) = false →
  name ∉ container_names →
  py_setattr (S f) l name v st = (Ok tt, upd_heap l (with_attr name v o) st).
Proof.
  intros H Hc Hn.
  rewrite py_setattr_S, (bind_ok _ _ _ _ _ (get_obj_ok _ _ _ H)).
  rewrite is_struct_setattr, Hc. by apply object_setattr_ok.
Qed.

Lemma py_setattr_struct f s name v o r st st' :
  heap st !! s = Some o → is_struct (o_cls o) = true →
  Struct___setattr__ (py_setattr f) s name v st = (Ok r, st') →
  py_setattr (S f) s name v st = (Ok tt, st').
Proof.
  intros H Hc Hs.
  rewrite py_setattr_S, (bind_ok _ _ _ _ _ (get_obj_ok _ _ _ H)).
  rewrite is_struct_setattr, Hc. by rewrite (bind_ok _ _ _ _ _ Hs).
Qed.

Lemma py_setattr_unindexed f l name v o st :
  heap st !! l = Some o →
  (is_struct (o_cls o) = true → o_children_map o !! name = None) →
  name ∉ container_names →
  py_setattr (S f) l name v st = (Ok tt, upd_heap l (with_attr name v o) st).
Proof.
  intros H Hm Hn. destruct (is_struct (o_cls o)) eqn:E.
  - eapply py_setattr_struct; [done..|].
    apply Struct_setattr_default; [done|by apply Hm|done].
  - by apply py_setattr_object.
Qed.

(** ** Construction of a [Struct] *)

Lemma alloc_ok o st :
  alloc o st = (Ok (length (heap st)), mkState (heap st ++ [o]) (streams st)).
Proof. done. Qed.

Lemma lookup_new {A} (h : list A) (o : A) : (h ++ [o]) !! length h = Some o.
Proof. by rewrite list_lookup_middle. Qed.

Lemma insert_new {A} (h : list A) (o o' : A) :
  <[length h := o']> (h ++ [o]) = h ++ [o'].
Proof.
  rewrite insert_app_r_alt by lia. by rewrite Nat.sub_diag.
Qed.

Lemma upd_new h ss o o' :
  upd_heap (length h) o' (mkState (h ++ [o]) ss) = mkState (h ++ [o']) ss.
Proof. unfold upd_heap. simpl. by rewrite insert_new. Qed.

(** C10: whatever argument it is given, [Struct(arg)] yields a struct
    whose [_pfp__name] is [None] and whose child list and name index
    are empty; the argument reaches the [stream] parameter of
    [Field.__init__], where the parse over no children reads nothing
    and succeeds. *)
Theorem Struct_init_ignores_name (fuel : nat) (arg : PyVal) (st : state) :
  new (S fuel) C_Struct [arg] st =
    (Ok (length (heap st)),
     mkState (heap st ++ [mkObj C_Struct {["_pfp__name" := VNone]} [] ∅ []])
             (streams st)).
Proof.
  unfold new, construct.
  rewrite (bind_ok _ _ _ _ _ (alloc_ok _ _)).
  change (defining_class C_Struct "__init__") with (Some C_Struct).
  set (l := length (heap st)).
  set (st1 := mkState (heap st ++ [new_obj C_Struct]) (streams st)).
  assert (H1 : heap st1 !! l = Some (new_obj C_Struct)) by apply lookup_new.
  assert (Hfinal : ∀ o, upd_heap l o st1 =
            mkState (heap st ++ [o]) (streams st)).
  { intros o. unfold upd_heap, st1, l. simpl. by rewrite insert_new. }
  assert (Hinit : Struct___init__ (S fuel) (_pfp__parse (S fuel)) l arg st1 =
    (Ok tt, mkState (heap st ++ [mkObj C_Struct {["_pfp__name" := VNone]} [] ∅ []])
                    (streams st))).
  { unfold Struct___init__.
    rewrite (bind_ok _ _ _ _ _ (modify_obj_ok _ _ _ _ H1)).
    rewrite (bind_ok _ _ _ _ _ (modify_obj_ok _ _ _ _ (heap_upd_same _ _ _ _ H1))).
    rewrite upd_heap_twice.
    set (o2 := set_children_map ∅ (set_children [] (new_obj C_Struct))).
    assert (H2 : heap (upd_heap l o2 st1) !! l = Some o2)
      by (by eapply heap_upd_same).
    unfold Field___init__.
    assert (Hset : py_setattr (S fuel) l "_pfp__name" VNone (upd_heap l o2 st1) =
      (Ok tt, upd_heap l (with_attr "_pfp__name" VNone o2) st1)).
    { eapply py_setattr_struct; [done..|].
      erewrite Struct_setattr_default; [|done|done|name_solver].
      by rewrite upd_heap_twice. }
    rewrite (bind_ok _ _ _ _ _ Hset).
    set (o3 := with_attr "_pfp__name" VNone o2).
    assert (H3 : heap (upd_heap l o3 st1) !! l = Some o3)
      by (by eapply heap_upd_same).
    assert (Hparse : _pfp__parse (S fuel) l arg (upd_heap l o3 st1) =
      (Ok (VInt 0), upd_heap l o3 st1)).
    { rewrite _pfp__parse_S, (bind_ok _ _ _ _ _ (get_obj_ok _ _ _ H3)).
      change (defining_class (o_cls o3) "_pfp__parse") with (Some C_Struct).
      unfold Struct__pfp__parse.
      by rewrite (bind_ok _ _ _ _ _ (get_obj_ok _ _ _ H3)). }
    assert (Ho3 : o3 = mkObj C_Struct {["_pfp__name" := VNone]} [] ∅ []) by done.
    destruct arg; try (rewrite (bind_ok _ _ _ _ _ Hparse));
      unfold ret; by rewrite Hfinal, Ho3. }
  by rewrite (bind_ok _ _ _ _ _ Hinit).
Qed.

(** ** Byte strings *)

Lemma str_take_length n s : String.length (str_take n s) = n `min` String.length s.
Proof.
  revert s. induction n as [|n IH]; intros [|a s]; simpl; auto.
Qed.

Lemma str_app_nil_l s : "" +:+ s = s.
Proof. done. Qed.

Lemma str_app_cons a s r : String a s +:+ r = String a (s +:+ r).
Proof. done. Qed.

Lemma str_take_app s r : str_take (String.length s) (s +:+ r) = s.
Proof.
  induction s as [|a s IH]; [by destruct r|].
  rewrite str_app_cons. simpl. by f_equal.
Qed.

Lemma str_drop_app s r : str_drop (String.length s) (s +:+ r) = r.
Proof.
  induction s as [|a s IH]; [by destruct r|]. by rewrite str_app_cons.
Qed.

Lemma str_app_nil_r s : s +:+ "" = s.
Proof.
  induction s as [|a s IH]; [done|]. rewrite str_app_cons. by f_equal.
Qed.

Lemma str_app_assoc s1 s2 s3 : (s1 +:+ s2) +:+ s3 = s1 +:+ (s2 +:+ s3).
Proof.
  induction s1 as [|a s IH]; [done|]. rewrite !str_app_cons. by f_equal.
Qed.

Lemma str_app_length s r :
  String.length (s +:+ r) = String.length s + String.length r.
Proof.
  induction s as [|a s IH]; [done|]. rewrite str_app_cons. simpl. by f_equal.
Qed.

Lemma str_drop_all n s : String.length s ≤ n → str_drop n s = "".
Proof.
  revert s. induction n as [|n IH]; intros [|a s]; simpl; try done; [lia|].
  intros. apply IH. lia.
Qed.

(** ** Reading a number *)

Lemma number_parse_method c :
  is_number c = true → defining_class c "_pfp__parse" = Some C_NumberBase.
Proof. by destruct c. Qed.

Lemma number_build_method c :
  is_number c = true → defining_class c "_pfp__build" = Some C_NumberBase.
Proof. by destruct c. Qed.

Lemma number_width_attr o w :
  number_width (o_cls o) = Some w → plain o →
  attr_of o "width" = Some (VInt w).
Proof.
  unfold number_width, attr_of. intros Hw (-> & _).
  destruct (is_number _); [|done].
  destruct (class_attr _ _) as [[]|]; naive_solver.
Qed.

Lemma number_width_pos c w : number_width c = Some w → (0 < w)%Z.
Proof. destruct c; intros [= <-]; lia. Qed.

Lemma stream_read_ok sid t (w : Z) st :
  streams st !! sid = Some t → (0 ≤ w)%Z →
  stream_read sid (VInt w) st =
    (Ok (str_take (Z.to_nat w) (s_unread t)),
     upd_stream sid (mkStream (str_drop (Z.to_nat w) (s_unread t)) (s_written t)) st).
Proof.
  intros Hs Hw. unfold stream_read. rewrite Hs.
  by destruct (Z.ltb_spec w 0); [lia|].
Qed.

(** Too few bytes: [PrematureEOF], and the store is as it was; only
    the stream has moved. *)
Lemma NumberBase_parse_short l o sid t w st :
  heap st !! l = Some o → number_width (o_cls o) = Some w → plain o →
  streams st !! sid = Some t →
  (Z.of_nat (String.length (s_unread t)) < w)%Z →
  NumberBase__pfp__parse l (VStream sid) st =
    (Raise PrematureEOF,
     upd_stream sid (mkStream "" (s_written t)) st).
Proof.
  intros H Hw Hp Hs Hlen.
  pose proof (number_width_attr _ _ Hw Hp) as Ha.
  unfold NumberBase__pfp__parse, stream_method.
  rewrite bind_ret.
  rewrite (bind_ok _ _ _ _ _ (py_getattr_ok _ _ _ _ _ H Ha)).
  assert (0 ≤ w)%Z as Hw0 by lia.
  rewrite (bind_ok _ _ _ _ _ (stream_read_ok _ _ _ _ Hs Hw0)).
  set (st1 := upd_stream _ _ _).
  assert (H1 : heap st1 !! l = Some o) by done.
  rewrite (bind_ok _ _ _ _ _ (py_getattr_ok _ _ _ _ _ H1 Ha)).
  unfold py_lt. rewrite bind_lift_ok, str_take_length.
  destruct (Z.ltb_spec (Z.of_nat (Z.to_nat w `min` String.length (s_unread t))) w);
    [|lia].
  unfold raise, st1. do 3 f_equal. apply str_drop_all. lia.
Qed.

(** C4: parsing a number from a stream that holds fewer bytes than
    its width (a 4-byte [Int] on 2 bytes, say) raises [PrematureEOF]
    and leaves the store, hence the value of the field, as it was
    before the call. *)
Theorem parse_short_read_keeps_value (fuel : nat) (l : loc) (o : obj)
    (sid : nat) (t : stream) (w : Z) (st : state) :
  heap st !! l = Some o → number_width (o_cls o) = Some w → plain o →
  streams st !! sid = Some t →
  (Z.of_nat (String.length (s_unread t)) < w)%Z →
  ∃ st', _pfp__parse (S fuel) l (VStream sid) st = (Raise PrematureEOF, st') ∧
         heap st' = heap st ∧
         attr_of o "_pfp__value" = (heap st' !! l ≫= λ o', attr_of o' "_pfp__value").
Proof.
  intros H Hw Hp Hs Hlen.
  eexists. rewrite _pfp__parse_S, (bind_ok _ _ _ _ _ (get_obj_ok _ _ _ H)).
  rewrite number_parse_method
    by (unfold number_width in Hw; by destruct (is_number _)).
  rewrite (NumberBase_parse_short _ _ _ _ _ _ H Hw Hp Hs Hlen).
  split; [done|]. split; [done|]. simpl. by rewrite H.
Qed.

Lemma parse_short_read_keeps_value_witness :
  ∃ st', _pfp__parse 1 0 (VStream 0) short_read_state = (Raise PrematureEOF, st') ∧
         heap st' = heap short_read_state ∧
         attr_of (with_attr "_pfp__value" (VInt 7) (new_obj C_Int)) "_pfp__value" =
           (heap st' !! 0 ≫= λ o', attr_of o' "_pfp__value").
Proof.
  apply (parse_short_read_keeps_value 0 0 _ 0 (mkStream (bytes [1; 2]%Z) "") 4);
    [reflexivity|reflexivity|by repeat split|reflexivity|simpl; lia].
Defined.

(** ** Return values of [_pfp__parse] *)

(** C2: [String._pfp__parse] has no [return]: on ["hi\\x00x"] it
    stores ["hi"], consumes three bytes and returns [None], not 3;
    [WString._pfp__parse] likewise returns [None] after four bytes;
    and [Struct._pfp__parse], which adds up what its children
    return, raises [TypeError] on a [String] child, after the child
    has consumed its bytes. *)
Theorem String_parse_returns_None :
  parse_String_hi.1 = Ok VNone ∧
  stored_value 0 parse_String_hi.2 = Some (VStr "hi") ∧
  s_unread <$> streams parse_String_hi.2 = ["x"] ∧
  parse_WString_A.1 = Ok VNone ∧
  stored_value 0 parse_WString_A.2 = Some (VUni [65%Z]) ∧
  s_unread <$> streams parse_WString_A.2 = [""] ∧
  parse_Struct_of_String.1 = Raise TypeError ∧
  s_unread <$> streams parse_Struct_of_String.2 = ["x"].
Proof. by vm_compute. Qed.

(** ** Default values *)

(** A new [Struct] has no [_pfp__value]: reading it raises
    [AttributeError]. *)
Lemma new_Struct_has_no_value : value_of_new_Struct.1 = Raise AttributeError.
Proof. by vm_compute. Qed.

Lemma new_String_has_no_value : value_of_new_String.1 = Raise AttributeError.
Proof. by vm_compute. Qed.

(** ** In-place operators *)

(** C9: [__iadd__] has no [return]: the field object ends up holding
    6, but [x += 1] binds [x] to [None]; through a struct member,
    [d.x += 1] then assigns that [None] to the member, whose value
    becomes [None]. *)
Theorem iadd_rebinds_to_None :
  iadd_on_variable.1 = Ok VNone ∧
  stored_value 0 iadd_on_variable.2 = Some (VInt 6) ∧
  iadd_on_member.1 = Ok tt ∧
  stored_value 1 iadd_on_member.2 = Some VNone.
Proof. by vm_compute. Qed.

(** Every in-place method stores [v op k] in the field object and
    returns [None], which the augmented assignment binds to its
    target. *)
Lemma inplace_returns_None op l o v k r st :
  heap st !! l = Some o → is_number (o_cls o) = true →
  attr_of o "_pfp__value" = Some v → py_binop op v k = Ok r →
  aug_assign op (VField l) k st =
    (Ok VNone, upd_heap l (with_attr "_pfp__value" r o) st).
Proof.
  intros H Hc Hv Hr. unfold aug_assign.
  rewrite (bind_ok _ _ _ _ _ (get_obj_ok _ _ _ H)).
  assert (defining_class (o_cls o) (inplace_method op) = Some C_NumberBase) as ->
    by (by destruct (o_cls o), op).
  assert (NumberBase_method op = NumberBase_inplace op) as -> by (by destruct op).
  unfold NumberBase_inplace.
  rewrite (bind_ok _ _ _ _ _ (py_getattr_ok _ _ _ _ _ H Hv)), Hr, bind_lift_ok.
  erewrite (bind_ok (object___setattr__ _ _ _));
    [done|by apply object_setattr_ok; [done|name_solver]].
Qed.

(** ** Arrays *)

(** C6: [Array.__init__] does not call [Field.__init__], so a newly
    constructed array has no [_pfp__name]; parsing it with a count of
    3 raises [AttributeError] while naming the first element: no
    element is stored and no byte is consumed. *)
Theorem counted_Array_parse_raises :
  parse_counted_Array.1 = Raise AttributeError ∧
  stored_value 0 parse_counted_Array.2 = Some (VInt 3) ∧
  (o_items <$> heap parse_counted_Array.2 !! 1) = Some [] ∧
  s_unread <$> streams parse_counted_Array.2 = [""; "aaaabbbbcccc"].
Proof. by vm_compute. Qed.

(** A negative index in range counts from the end. *)
Lemma negative_index_reads_last : index_from_the_end.1 = Ok (VField 1).
Proof. by vm_compute. Qed.

(** ** Construction of a leaf field *)

Lemma construct_leaf f parse init_array c st :
  is_leaf c = true →
  construct (S f) parse init_array c [] st =
    (Ok (length (heap st)),
     mkState (heap st ++ [with_attr "_pfp__name" VNone (new_obj c)]) (streams st)).
Proof.
  intros [Hi Hs%negb_true_iff]%andb_true_iff. apply bool_decide_eq_true in Hi.
  unfold construct. rewrite (bind_ok _ _ _ _ _ (alloc_ok _ _)), Hi.
  unfold Field___init__.
  erewrite (bind_ok (bind _ _)); [done|].
  erewrite bind_ok; [done|].
  erewrite py_setattr_object; [| apply lookup_new | done | name_solver].
  unfold upd_heap. simpl. by rewrite insert_new.
Qed.

Lemma construct_struct f parse init_array c st :
  is_struct c = true →
  construct (S f) parse init_array c [] st =
    (Ok (length (heap st)),
     mkState (heap st ++ [with_attr "_pfp__name" VNone (new_obj c)]) (streams st)).
Proof.
  intros Hs. unfold construct. rewrite (bind_ok _ _ _ _ _ (alloc_ok _ _)).
  assert (defining_class c "__init__" = Some C_Struct) as -> by (by destruct c).
  cbv beta iota.
  erewrite (bind_ok (Struct___init__ _ _ _ _)); [reflexivity|].
  unfold Struct___init__.
  erewrite (bind_ok (modify_obj _ _)); [|apply modify_obj_ok, lookup_new].
  rewrite upd_new.
  erewrite (bind_ok (modify_obj _ _)); [|apply modify_obj_ok, lookup_new].
  rewrite upd_new. unfold Field___init__.
  erewrite (bind_ok (py_setattr _ _ _ _));
    [|apply py_setattr_unindexed; [apply lookup_new|done|name_solver]].
  by rewrite upd_new.
Qed.

(** A call of a class other than [Array] without arguments makes a
    new object at the end of the store. *)
Lemma construct_no_args f parse init_array c st :
  c ≠ C_Array →
  construct (S f) parse init_array c [] st =
    (Ok (length (heap st)),
     mkState (heap st ++ [with_attr "_pfp__name" VNone (new_obj c)]) (streams st)).
Proof.
  intros Hc. destruct (is_struct c) eqn:Hs; [by apply construct_struct|].
  apply construct_leaf. by destruct c.
Qed.

(** [Array()] lacks the two arguments that [Array.__init__] requires. *)
Lemma construct_Array_no_args f parse init_array st :
  construct f parse init_array C_Array [] st =
    (Raise TypeError, mkState (heap st ++ [new_obj C_Array]) (streams st)).
Proof. unfold construct. by rewrite (bind_ok _ _ _ _ _ (alloc_ok _ _)). Qed.

(** Without fuel the call stops at the first assignment, after the
    object was allocated. *)
Lemma construct_no_fuel parse init_array c st :
  c ≠ C_Array →
  construct 0 parse init_array c [] st =
    (Stuck OutOfFuel, mkState (heap st ++ [new_obj c]) (streams st)).
Proof.
  intros Hc. destruct (is_struct c) eqn:Hs.
  - unfold construct. rewrite (bind_ok _ _ _ _ _ (alloc_ok _ _)).
    assert (defining_class c "__init__" = Some C_Struct) as -> by (by destruct c).
    cbv beta iota. unfold Struct___init__.
    erewrite (bind_stuck (bind _ _)); [done|].
    erewrite (bind_ok (modify_obj _ _)); [|apply modify_obj_ok, lookup_new].
    rewrite upd_new.
    erewrite (bind_ok (modify_obj _ _)); [|apply modify_obj_ok, lookup_new].
    by rewrite upd_new.
  - by destruct c.
Qed.

Lemma number_is_leaf c : is_number c = true → is_leaf c = true.
Proof. by destruct c. Qed.

(** C5, for the numeric classes: a field of a numeric class that has
    been neither parsed nor assigned holds 0, the class attribute of
    [NumberBase], and reading its value does not raise. *)
Theorem unparsed_number_value_is_zero (fuel : nat) (c : Cls) (st : state) :
  is_number c = true →
  ∃ st', new (S fuel) c [] st = (Ok (length (heap st)), st') ∧
         get_value (VField (length (heap st))) st' = (Ok (VInt 0), st').
Proof.
  intros Hc. eexists. split.
  - unfold new. by apply construct_leaf, number_is_leaf.
  - unfold get_value. eapply py_getattr_ok; [apply lookup_new|].
    by destruct c.
Qed.

Lemma unparsed_number_value_is_zero_witness :
  ∃ st', new 1 C_UShort [] (initial []) = (Ok 0, st') ∧
         get_value (VField 0) st' = (Ok (VInt 0), st').
Proof. apply (unparsed_number_value_is_zero 0 C_UShort (initial [])). reflexivity. Defined.

(** ** Indexing an array *)

(** C8, with the index rule of Python lists: on an array of [n]
    items, reading or writing at an integer index [i] with [n ≤ i] or
    [i < - n] raises [IndexError] and changes nothing; an index
    [- n ≤ i < 0] is in range and reads the item at [n + i]. *)
Theorem Array_index_out_of_range (fuel : nat) (a : loc) (o : obj) (i : Z)
    (v : PyVal) (st : state) :
  heap st !! a = Some o →
  let n := Z.of_nat (length (o_items o)) in
  ((n ≤ i)%Z ∨ (i < - n)%Z →
     Array___getitem__ a (VInt i) st = (Raise IndexError, st) ∧
     Array___setitem__ fuel a (VInt i) v st = (Raise IndexError, st)) ∧
  ((- n ≤ i < 0)%Z →
     ∃ item, o_items o !! Z.to_nat (n + i) = Some item ∧
             Array___getitem__ a (VInt i) st = (Ok (VField item), st)).
Proof.
  intros H n. split.
  - intros Hi.
    assert (Hidx : list_index (o_items o) (VInt i) = Raise IndexError).
    { unfold list_index. fold n.
      destruct (Z.leb_spec 0 i), (Z.ltb_spec i n), (Z.leb_spec (- n) i),
        (Z.ltb_spec i 0); simpl; try done; lia. }
    unfold Array___getitem__, Array___setitem__.
    destruct v; rewrite !(bind_ok _ _ _ _ _ (get_obj_ok _ _ _ H)), Hidx; done.
  - intros Hi.
    assert (Hidx : list_index (o_items o) (VInt i) = Ok (Z.to_nat (n + i))).
    { unfold list_index. fold n.
      destruct (Z.leb_spec 0 i), (Z.ltb_spec i n), (Z.leb_spec (- n) i),
        (Z.ltb_spec i 0); simpl; try done; lia. }
    destruct (lookup_lt_is_Some_2 (o_items o) (Z.to_nat (n + i))) as [item Hitem];
      [unfold n in *; lia|].
    exists item. split; [done|].
    unfold Array___getitem__.
    by rewrite (bind_ok _ _ _ _ _ (get_obj_ok _ _ _ H)), Hidx, bind_lift_ok, Hitem.
Qed.

Lemma Array_index_out_of_range_witness :
  let st := mkState [set_items [1; 2] (new_obj C_Array); new_obj C_Int; new_obj C_Int] [] in
  (Array___getitem__ 0 (VInt 2) st = (Raise IndexError, st) ∧
   Array___setitem__ 1 0 (VInt 2) (VInt 9) st = (Raise IndexError, st)) ∧
  (∃ item, [1; 2] !! Z.to_nat (2 + -2) = Some item ∧
           Array___getitem__ 0 (VInt (-2)) st = (Ok (VField item), st)).
Proof.
  intros st.
  pose proof (Array_index_out_of_range 1 0 (set_items [1; 2] (new_obj C_Array))
                2 (VInt 9) st eq_refl) as [H1 _].
  pose proof (Array_index_out_of_range 1 0 (set_items [1; 2] (new_obj C_Array))
                (-2) (VInt 9) st eq_refl) as [_ H2].
  split; [apply H1; simpl; lia | apply H2; simpl; lia].
Defined.

(** ** Assignment through the name index *)

(** C7: assigning a bare value to an indexed name of a struct stores
    it as the [_pfp__value] of the object the name is bound to:
    exactly that object changes, and only in that attribute, so the
    child list and the name index of the struct, and the identity of
    the child, are as before.  (A child that is itself a struct with
    an indexed name [_pfp__value] would pass the value further down;
    that case is set aside.) *)
Theorem scalar_assignment_mutates_child (fuel : nat) (s child : loc)
    (o oc : obj) (name : string) (v : PyVal) (st : state) :
  heap st !! s = Some o → is_struct (o_cls o) = true →
  o_children_map o !! name = Some child →
  heap st !! child = Some oc →
  isinstance_Field v = false →
  (is_struct (o_cls oc) = true → o_children_map oc !! "_pfp__value" = None) →
  let st' := upd_heap child (with_attr "_pfp__value" v oc) st in
  py_setattr (S (S fuel)) s name v st = (Ok tt, st') ∧
  stored_value child st' = Some v ∧
  (o_children <$> heap st' !! s) = Some (o_children o) ∧
  (o_children_map <$> heap st' !! s) = Some (o_children_map o).
Proof.
  intros H Hs Hm Hc Hv Hoc st'.
  assert (Hchild : py_setattr (S fuel) child "_pfp__value" v st = (Ok tt, st')).
  { destruct (is_struct (o_cls oc)) eqn:E.
    - eapply py_setattr_struct; [done..|].
      apply Struct_setattr_default; [done|by apply Hoc|name_solver].
    - apply py_setattr_object; [done..|name_solver]. }
  split; [|split; [|split]].
  - eapply py_setattr_struct; [done..|].
    by eapply Struct_setattr_value.
  - unfold stored_value, st'. erewrite heap_upd_same by done. simpl.
    by rewrite lookup_insert_eq.
  - unfold st'. destruct (decide (child = s)) as [->|Hne].
    + erewrite heap_upd_same by done. naive_solver.
    + rewrite heap_upd_other by done. by rewrite H.
  - unfold st'. destruct (decide (child = s)) as [->|Hne].
    + erewrite heap_upd_same by done. naive_solver.
    + rewrite heap_upd_other by done. by rewrite H.
Qed.

Lemma scalar_assignment_mutates_child_witness :
  let st' := upd_heap 1 (with_attr "_pfp__value" (VInt (5 + 1)) member_x)
               member_state in
  py_setattr 2 0 "x" (VInt (5 + 1)) member_state = (Ok tt, st') ∧
  stored_value 1 st' = Some (VInt (5 + 1)) ∧
  (o_children <$> heap st' !! 0) = Some (o_children member_struct) ∧
  (o_children_map <$> heap st' !! 0) = Some (o_children_map member_struct).
Proof.
  apply (scalar_assignment_mutates_child 0 0 1 member_struct member_x "x"
           (VInt (5 + 1)) member_state);
    [reflexivity | reflexivity | reflexivity | reflexivity | reflexivity
    | discriminate].
Defined.

(** ** Building does not read the name index *)

Lemma bind_pure {A B} (m : M A) (k : A → M B) st r :
  m st = (r, st) →
  bind m k st = match r with
                | Ok a => k a st
                | Raise e => (Raise e, st)
                | Stuck x => (Stuck x, st)
                end.
Proof. unfold bind. intros ->. by destruct r. Qed.

Lemma bind_lift {A B} (r : res A) (k : A → M B) st :
  bind (lift_res r) k st = match r with
                           | Ok a => k a st
                           | Raise e => (Raise e, st)
                           | Stuck x => (Stuck x, st)
                           end.
Proof. by destruct r. Qed.

Lemma py_getattr_lookup_attr l name o st :
  heap st !! l = Some o → is_struct (o_cls o) = false →
  py_getattr l name st = (lookup_attr o name, st).
Proof.
  intros H Hs. unfold py_getattr, lookup_attr, attr_of.
  rewrite (bind_ok _ _ _ _ _ (get_obj_ok _ _ _ H)).
  unfold except_AttributeError, object___getattribute__.
  rewrite (bind_ok _ _ _ _ _ (get_obj_ok _ _ _ H)).
  destruct (o_dict o !! name); [done|].
  destruct (class_attr _ _); [done|].
  destruct (beyond_scalars _ _); [done|].
  unfold raise.
  destruct (o_cls o); try done; unfold NumberBase___getattr__;
    by destruct (String.prefix _ _).
Qed.

Lemma erase_lookup st1 st2 l o1 :
  erase_index st1 = erase_index st2 → heap st1 !! l = Some o1 →
  ∃ o2, heap st2 !! l = Some o2 ∧ o_cls o1 = o_cls o2 ∧
        o_dict o1 = o_dict o2 ∧ o_children o1 = o_children o2 ∧
        o_items o1 = o_items o2.
Proof.
  intros [= He _] H.
  assert (Hl : (set_children_map ∅ <$> heap st2) !! l = Some (set_children_map ∅ o1)).
  { rewrite <- He. by rewrite list_lookup_fmap, H. }
  rewrite list_lookup_fmap in Hl.
  destruct (heap st2 !! l) as [o2|]; [|done].
  exists o2. inversion Hl. by destruct o1, o2; simplify_eq/=.
Qed.

Lemma erase_lookup_None st1 st2 l :
  erase_index st1 = erase_index st2 → heap st1 !! l = None →
  heap st2 !! l = None.
Proof.
  intros [= He _] H.
  assert (Hl : (set_children_map ∅ <$> heap st2) !! l = None).
  { rewrite <- He. by rewrite list_lookup_fmap, H. }
  rewrite list_lookup_fmap in Hl. by destruct (heap st2 !! l).
Qed.

Lemma erase_streams st1 st2 :
  erase_index st1 = erase_index st2 → streams st1 = streams st2.
Proof. by intros [= _ ?]. Qed.

Lemma erase_upd_stream st1 st2 sid t :
  erase_index st1 = erase_index st2 →
  erase_index (upd_stream sid t st1) = erase_index (upd_stream sid t st2).
Proof. intros [= He Hs]. unfold erase_index. simpl. by rewrite He, Hs. Qed.

Lemma lookup_attr_erase o1 o2 name :
  o_cls o1 = o_cls o2 → o_dict o1 = o_dict o2 →
  lookup_attr o1 name = lookup_attr o2 name.
Proof. unfold lookup_attr, attr_of. by intros -> ->. Qed.

Lemma agree_stream_write st1 st2 sid data :
  erase_index st1 = erase_index st2 →
  agree (stream_write sid data st1) (stream_write sid data st2).
Proof.
  intros He. unfold stream_write. destruct data; try done.
  destruct st1 as [h1 ss1], st2 as [h2 ss2].
  injection He as He ->. simpl.
  destruct (ss2 !! sid); [|by split; [|unfold erase_index; simpl; rewrite He]].
  split; [done|]. unfold erase_index. simpl. by rewrite He.
Qed.

(** The tail shared by the build methods of the leaf fields: hand
    the bytes back, or write them. *)
Lemma agree_emit st1 st2 stream (data : PyVal) :
  erase_index st1 = erase_index st2 →
  agree ((let* write := stream_method stream "write" in
          stream_write write data) st1)
        ((let* write := stream_method stream "write" in
          stream_write write data) st2).
Proof.
  intros He. destruct stream; try done. simpl. rewrite !bind_ret.
  by apply agree_stream_write.
Qed.

Lemma NumberBase_build_agree l stream st1 st2 o1 :
  erase_index st1 = erase_index st2 →
  heap st1 !! l = Some o1 → is_struct (o_cls o1) = false →
  agree (NumberBase__pfp__build l stream st1) (NumberBase__pfp__build l stream st2).
Proof.
  intros He H1 Hs.
  destruct (erase_lookup _ _ _ _ He H1) as (o2 & H2 & Hc & Hd & _ & _).
  assert (Hs2 : is_struct (o_cls o2) = false) by (by rewrite <- Hc).
  unfold NumberBase__pfp__build.
  rewrite !(bind_pure _ _ _ _ (py_getattr_lookup_attr _ "endian" _ _ H1 Hs)).
  rewrite !(bind_pure _ _ _ _ (py_getattr_lookup_attr _ "endian" _ _ H2 Hs2)).
  rewrite <- (lookup_attr_erase o1 o2) by done.
  destruct (lookup_attr o1 "endian") as [e| |]; [|done..].
  rewrite !(bind_pure _ _ _ _ (py_getattr_lookup_attr _ "format" _ _ H1 Hs)).
  rewrite !(bind_pure _ _ _ _ (py_getattr_lookup_attr _ "format" _ _ H2 Hs2)).
  rewrite <- (lookup_attr_erase o1 o2) by done.
  destruct (lookup_attr o1 "format") as [f| |]; [|done..].
  rewrite !bind_lift. destruct (format_pair e f) as [fmt| |]; [|done..].
  rewrite !(bind_pure _ _ _ _ (py_getattr_lookup_attr _ "_pfp__value" _ _ H1 Hs)).
  rewrite !(bind_pure _ _ _ _ (py_getattr_lookup_attr _ "_pfp__value" _ _ H2 Hs2)).
  rewrite <- (lookup_attr_erase o1 o2) by done.
  destruct (lookup_attr o1 "_pfp__value") as [v| |]; [|done..].
  rewrite !bind_lift. destruct (struct.pack fmt v) as [data| |]; [|done..].
  destruct stream; try done; by apply agree_emit.
Qed.

Lemma String_build_agree l stream st1 st2 o1 :
  erase_index st1 = erase_index st2 →
  heap st1 !! l = Some o1 → is_struct (o_cls o1) = false →
  agree (String__pfp__build l stream st1) (String__pfp__build l stream st2).
Proof.
  intros He H1 Hs.
  destruct (erase_lookup _ _ _ _ He H1) as (o2 & H2 & Hc & Hd & _ & _).
  assert (Hs2 : is_struct (o_cls o2) = false) by (by rewrite <- Hc).
  assert (Hv : ∀ k : PyVal → M PyVal,
    (∀ v s1 s2, erase_index s1 = erase_index s2 → agree (k v s1) (k v s2)) →
    agree ((let* v := py_getattr l "_pfp__value" in k v) st1)
          ((let* v := py_getattr l "_pfp__value" in k v) st2)).
  { intros k Hk.
    rewrite (bind_pure _ _ _ _ (py_getattr_lookup_attr _ "_pfp__value" _ _ H1 Hs)).
    rewrite (bind_pure _ _ _ _ (py_getattr_lookup_attr _ "_pfp__value" _ _ H2 Hs2)).
    rewrite <- (lookup_attr_erase o1 o2) by done.
    destruct (lookup_attr o1 "_pfp__value"); [by apply Hk|done..]. }
  unfold String__pfp__build.
  destruct stream; try done.
  - apply Hv. intros v s1 s2 Hs12. unfold lift_res. by split.
  - simpl. rewrite !bind_ret. apply Hv. intros v s1 s2 Hs12.
    rewrite !bind_lift. destruct (py_binop _ _ _); [|done..].
    by apply agree_stream_write.
Qed.

Lemma WString_build_agree l stream st1 st2 o1 :
  erase_index st1 = erase_index st2 →
  heap st1 !! l = Some o1 → is_struct (o_cls o1) = false →
  agree (WString__pfp__build l stream st1) (WString__pfp__build l stream st2).
Proof.
  intros He H1 Hs.
  destruct (erase_lookup _ _ _ _ He H1) as (o2 & H2 & Hc & Hd & _ & _).
  assert (Hs2 : is_struct (o_cls o2) = false) by (by rewrite <- Hc).
  assert (Hv : ∀ k : PyVal → M PyVal,
    (∀ v s1 s2, erase_index s1 = erase_index s2 → agree (k v s1) (k v s2)) →
    agree ((let* v := py_getattr l "_pfp__value" in k v) st1)
          ((let* v := py_getattr l "_pfp__value" in k v) st2)).
  { intros k Hk.
    rewrite (bind_pure _ _ _ _ (py_getattr_lookup_attr _ "_pfp__value" _ _ H1 Hs)).
    rewrite (bind_pure _ _ _ _ (py_getattr_lookup_attr _ "_pfp__value" _ _ H2 Hs2)).
    rewrite <- (lookup_attr_erase o1 o2) by done.
    destruct (lookup_attr o1 "_pfp__value"); [by apply Hk|done..]. }
  unfold WString__pfp__build.
  destruct stream; try done.
  - apply Hv. intros v s1 s2 Hs12. rewrite !bind_lift.
    destruct (py_encode_utf_16_le v); [|done..]. unfold lift_res. by split.
  - simpl. rewrite !bind_ret. apply Hv. intros v s1 s2 Hs12.
    rewrite !bind_lift. destruct (py_encode_utf_16_le v); [|done..].
    rewrite !bind_lift. destruct (py_binop _ _ _); [|done..].
    by apply agree_stream_write.
Qed.

Lemma accumulate_agree (method : loc → PyVal → M PyVal) children stream :
  (∀ l st1 st2, erase_index st1 = erase_index st2 →
     agree (method l stream st1) (method l stream st2)) →
  ∀ res st1 st2, erase_index st1 = erase_index st2 →
    agree (accumulate method children stream res st1)
          (accumulate method children stream res st2).
Proof.
  intros Hm. induction children as [|c cs IH]; intros res st1 st2 He; [done|].
  simpl. destruct (Hm c st1 st2 He) as [Hr He'].
  unfold bind at 1 3.
  destruct (method c stream st1) as [r1 s1], (method c stream st2) as [r2 s2].
  simpl in *. subst r2. destruct r1 as [r| |]; [|done..].
  rewrite !bind_lift. destruct (py_binop Add res r); [|done..].
  by apply IH.
Qed.

(** The result of [_pfp__build], and what it writes, do not depend on
    any name index. *)
Lemma build_agree fuel :
  ∀ l stream st1 st2, erase_index st1 = erase_index st2 →
    agree (_pfp__build fuel l stream st1) (_pfp__build fuel l stream st2).
Proof.
  induction fuel as [|f IH]; intros l stream st1 st2 He; [done|].
  rewrite !_pfp__build_S.
  destruct (heap st1 !! l) as [o1|] eqn:H1.
  - destruct (erase_lookup _ _ _ _ He H1) as (o2 & H2 & Hc & Hd & Hch & Hit).
    rewrite (bind_ok _ _ _ _ _ (get_obj_ok _ _ _ H1)).
    rewrite (bind_ok _ _ _ _ _ (get_obj_ok _ _ _ H2)).
    rewrite <- Hc.
    destruct (defining_class (o_cls o1) "_pfp__build") as [k|] eqn:Ek; [|done].
    assert (k ≠ C_Struct → is_struct (o_cls o1) = false) as Hns.
    { clear -Ek. intros Hk. destruct (o_cls o1); try done; vm_compute in Ek; congruence. }
    destruct k; try done.
    + unfold Struct__pfp__build.
      rewrite (bind_ok _ _ _ _ _ (get_obj_ok _ _ _ H1)).
      rewrite (bind_ok _ _ _ _ _ (get_obj_ok _ _ _ H2)).
      rewrite <- Hch. apply accumulate_agree; [|done]. intros. by apply IH.
    + by eapply NumberBase_build_agree; [..|apply Hns].
    + unfold Array__pfp__build.
      rewrite (bind_ok _ _ _ _ _ (get_obj_ok _ _ _ H1)).
      rewrite (bind_ok _ _ _ _ _ (get_obj_ok _ _ _ H2)).
      rewrite <- Hit. apply accumulate_agree; [|done]. intros. by apply IH.
    + by eapply String_build_agree; [..|apply Hns].
    + by eapply WString_build_agree; [..|apply Hns].
  - pose proof (erase_lookup_None _ _ _ He H1) as H2.
    assert (∀ st, heap st !! l = None → get_obj l st = (Stuck BadRef, st)) as Hg.
    { intros st Hst. unfold get_obj. by rewrite Hst. }
    rewrite (bind_stuck _ _ _ _ _ (Hg _ H1)), (bind_stuck _ _ _ _ _ (Hg _ H2)).
    by split.
Qed.

Lemma erase_rebind s o m st :
  heap st !! s = Some o →
  erase_index (upd_heap s (set_children_map m o) st) = erase_index st.
Proof.
  intros H. unfold erase_index, upd_heap. simpl. f_equal.
  rewrite list_fmap_insert. apply list_insert_id.
  by rewrite list_lookup_fmap, H.
Qed.

(** ** Integers and bytes *)

Section IntCodec.
Local Open Scope Z_scope.
Import struct.

Lemma Z_of_ascii_of_Z z : 0 ≤ z < 256 → Z_of_ascii (ascii_of_Z z) = z.
Proof.
  intros Hz. unfold Z_of_ascii, ascii_of_Z.
  rewrite N_ascii_embedding by lia. lia.
Qed.

Lemma Z_of_ascii_range a : 0 ≤ Z_of_ascii a < 256.
Proof.
  unfold Z_of_ascii. pose proof (N_ascii_bounded a). lia.
Qed.

Lemma ascii_of_Z_of_ascii a : ascii_of_Z (Z_of_ascii a) = a.
Proof.
  unfold Z_of_ascii, ascii_of_Z. rewrite N2Z.id. apply ascii_N_embedding.
Qed.

Lemma le_bytes_length n z : String.length (le_bytes n z) = n.
Proof. revert z. induction n as [|n IH]; intros z; simpl; [done|by rewrite IH]. Qed.

Lemma be_bytes_length n z : String.length (be_bytes n z) = n.
Proof. induction n as [|n IH]; simpl; [done|by rewrite IH]. Qed.

Lemma to_bytes_length o n z : String.length (to_bytes o n z) = n.
Proof. destruct o; [apply be_bytes_length|apply le_bytes_length]. Qed.

Lemma le_value_le_bytes n z : le_value (le_bytes n z) = z mod 256 ^ Z.of_nat n.
Proof.
  revert z. induction n as [|n IH]; intros z.
  - simpl. by rewrite Z.mod_1_r.
  - cbn [le_bytes le_value]. rewrite IH.
    rewrite Z_of_ascii_of_Z by (apply Z.mod_pos_bound; lia).
    rewrite Nat2Z.inj_succ, Z.pow_succ_r by lia.
    rewrite Z.rem_mul_r by lia. done.
Qed.

Lemma be_value_be_bytes n z acc :
  be_value_from acc (be_bytes n z) = acc * 256 ^ Z.of_nat n + z mod 256 ^ Z.of_nat n.
Proof.
  revert acc. induction n as [|n IH]; intros acc.
  - simpl. rewrite Z.mod_1_r. lia.
  - cbn [be_bytes be_value_from]. rewrite IH.
    rewrite Z_of_ascii_of_Z by (apply Z.mod_pos_bound; lia).
    rewrite Nat2Z.inj_succ, Z.pow_succ_r by lia.
    rewrite (Z.mul_comm 256 (256 ^ Z.of_nat n)).
    rewrite (Z.rem_mul_r z (256 ^ Z.of_nat n) 256) by lia. lia.
Qed.

Lemma of_bytes_to_bytes o n z :
  of_bytes o (to_bytes o n z) = z mod 2 ^ (8 * Z.of_nat n).
Proof.
  rewrite Z.pow_mul_r by lia. change (2 ^ 8) with 256.
  destruct o; simpl; [rewrite be_value_be_bytes; lia|apply le_value_le_bytes].
Qed.

(** [struct.unpack] inverts [struct.pack] on the integers of the
    code's range. *)
Lemma unpack_pack_int o signed n z :
  in_range signed n z = true →
  unpack_int o signed n (to_bytes o n z) = z.
Proof.
  unfold in_range, unpack_int. rewrite of_bytes_to_bytes.
  set (bits := 8 * Z.of_nat n).
  destruct signed; intros [H1 H2]%andb_true_iff.
  - apply Z.leb_le in H1. apply Z.ltb_lt in H2.
    assert (0 < bits) as Hb.
    { destruct (decide (0 < bits)) as [|Hn]; [done|].
      assert (bits = 0) as Hb0 by (unfold bits in *; lia).
      rewrite Hb0 in H1, H2. simpl in H1, H2.
      change (2 ^ (-1)) with 0 in *. lia. }
    assert (2 ^ bits = 2 * 2 ^ (bits - 1)) as Hp.
    { rewrite <- Z.pow_succ_r by lia. f_equal. lia. }
    assert (0 < 2 ^ (bits - 1)) by (apply Z.pow_pos_nonneg; lia).
    simpl. destruct (Z.leb_spec (2 ^ (bits - 1)) (z mod 2 ^ bits)) as [Hu|Hu].
    + destruct (decide (0 ≤ z)).
      * rewrite Z.mod_small in Hu by lia. lia.
      * rewrite <- (Z.mod_add z 1) by lia. rewrite Z.mod_small by lia. lia.
    + destruct (decide (0 ≤ z)).
      * rewrite Z.mod_small by lia. done.
      * rewrite <- (Z.mod_add z 1) in Hu by lia.
        rewrite Z.mod_small in Hu by lia. lia.
  - apply Z.leb_le in H1. apply Z.ltb_lt in H2. simpl.
    by rewrite Z.mod_small by lia.
Qed.

End IntCodec.

(** ** Floats and bits *)

Section FloatCodec.
Local Open Scope Z_scope.
Import struct.

Lemma digits_bounds m : 2 ^ (digits m - 1) ≤ Zpos m < 2 ^ digits m.
Proof.
  unfold digits. induction m as [m IH|m IH|]; cbn [digits2_pos].
  - rewrite Pos2Z.inj_succ.
    assert (Z.pos m~1 = 2 * Z.pos m + 1) as -> by done.
    replace (Z.succ (Z.pos (digits2_pos m)) - 1)
      with (Z.succ (Z.pos (digits2_pos m) - 1)) by lia.
    rewrite !Z.pow_succ_r by lia. lia.
  - rewrite Pos2Z.inj_succ.
    assert (Z.pos m~0 = 2 * Z.pos m) as -> by done.
    replace (Z.succ (Z.pos (digits2_pos m)) - 1)
      with (Z.succ (Z.pos (digits2_pos m) - 1)) by lia.
    rewrite !Z.pow_succ_r by lia. lia.
  - simpl. lia.
Qed.

Lemma digits_unique m d : 2 ^ (d - 1) ≤ Zpos m < 2 ^ d → digits m = d.
Proof.
  intros [H1 H2]. pose proof (digits_bounds m) as [H3 H4].
  assert (0 < digits m) by (unfold digits; lia).
  assert (0 < d).
  { destruct (decide (0 < d)) as [|Hn]; [done|].
    assert (2 ^ d ≤ 1); [|lia].
    destruct (decide (d = 0)) as [->|]; [done|].
    rewrite Z.pow_neg_r by lia. lia. }
  destruct (Z.lt_trichotomy (digits m) d) as [Hlt|[Heq|Hgt]]; [|done|].
  - assert (2 ^ digits m ≤ 2 ^ (d - 1)) by (apply Z.pow_le_mono_r; lia). lia.
  - assert (2 ^ d ≤ 2 ^ (digits m - 1)) by (apply Z.pow_le_mono_r; lia). lia.
Qed.

Lemma digits_shift m k :
  0 ≤ k → digits (Z.to_pos (Zpos m * 2 ^ k)) = digits m + k.
Proof.
  intros Hk. pose proof (digits_bounds m) as [H1 H2].
  assert (0 < digits m) by (unfold digits; lia).
  assert (0 < 2 ^ k) by (apply Z.pow_pos_nonneg; lia).
  apply digits_unique. rewrite Z2Pos.id by lia.
  replace (digits m + k - 1) with (digits m - 1 + k) by lia.
  rewrite !Z.pow_add_r by lia. nia.
Qed.

Section Interchange.
Variables mw ew : Z.
Hypothesis mw_pos : 0 < mw.
Hypothesis ew_big : 1 < ew.

Let prec := mw + 1.
Let emax := 2 ^ (ew - 1).

Lemma pow_ew : 2 ^ ew = 2 * emax ∧ 2 ≤ emax.
Proof.
  unfold emax. split.
  - rewrite <- Z.pow_succ_r by lia. f_equal. lia.
  - change 2 with (2 ^ 1) at 1. apply Z.pow_le_mono_r; lia.
Qed.

(** The three fields of a bit pattern. *)
Lemma split_bits s e m :
  0 ≤ m < 2 ^ mw → 0 ≤ e < 2 ^ ew →
  join_bits mw ew s e m mod 2 ^ mw = m ∧
  (join_bits mw ew s e m / 2 ^ mw) mod 2 ^ ew = e ∧
  Z.odd (join_bits mw ew s e m / 2 ^ (mw + ew)) = s.
Proof.
  intros Hm He. unfold join_bits.
  assert (0 < 2 ^ mw) by (apply Z.pow_pos_nonneg; lia).
  assert (0 < 2 ^ ew) by (apply Z.pow_pos_nonneg; lia).
  rewrite Z.pow_add_r by lia.
  set (sb := if s then 2 ^ mw * 2 ^ ew else 0).
  set (b := if s then 1 else 0).
  assert (sb = b * 2 ^ ew * 2 ^ mw) as -> by (unfold sb, b; destruct s; lia).
  replace (b * 2 ^ ew * 2 ^ mw + e * 2 ^ mw + m)
    with (m + (b * 2 ^ ew + e) * 2 ^ mw) by lia.
  split; [|split].
  - rewrite Z.mod_add by lia. apply Z.mod_small. lia.
  - rewrite Z.div_add by lia. rewrite (Z.div_small m) by lia.
    rewrite Z.add_0_l.
    rewrite (Z.add_comm (b * 2 ^ ew) e), Z.mod_add by lia.
    apply Z.mod_small. lia.
  - rewrite <- Z.div_div by lia.
    rewrite Z.div_add by lia. rewrite (Z.div_small m) by lia.
    rewrite Z.add_0_l.
    rewrite (Z.add_comm (b * 2 ^ ew) e), Z.div_add by lia.
    rewrite (Z.div_small e) by lia.
    unfold b. by destruct s.
Qed.

Lemma bits_range s e m :
  0 ≤ m < 2 ^ mw → 0 ≤ e < 2 ^ ew →
  0 ≤ join_bits mw ew s e m < 2 ^ (mw + ew + 1).
Proof.
  intros Hm He. unfold join_bits.
  assert (0 < 2 ^ mw) by (apply Z.pow_pos_nonneg; lia).
  assert (0 < 2 ^ ew) by (apply Z.pow_pos_nonneg; lia).
  rewrite !Z.pow_add_r by lia. change (2 ^ 1) with 2.
  destruct s; nia.
Qed.

(** The shape of a valid finite number: subnormal at the least
    exponent, or with a full significand. *)
Lemma bounded_cases m e :
  bounded prec emax m e = true →
  (Zpos m < 2 ^ mw ∧ e = least_exponent mw ew) ∨
  (2 ^ mw ≤ Zpos m < 2 ^ (mw + 1) ∧
   least_exponent mw ew ≤ e ≤ emax - prec).
Proof.
  unfold bounded, canonical_mantissa, fexp, emin.
  intros [Hc Hb]%andb_true_iff.
  apply Z.eqb_eq in Hc. apply Z.leb_le in Hb.
  pose proof (digits_bounds m) as [H1 H2]. unfold digits in *.
  assert (3 - emax - prec = least_exponent mw ew) as Hmin by done.
  rewrite Hmin in Hc.
  destruct (Z.lt_ge_cases (Zpos m) (2 ^ mw)) as [Hs|Hn].
  - left. split; [done|].
    assert (Z.pos (digits2_pos m) - 1 < mw).
    { apply (Z.pow_lt_mono_r_iff 2); lia. }
    unfold prec in *. lia.
  - right.
    assert (mw < Z.pos (digits2_pos m)).
    { apply (Z.pow_lt_mono_r_iff 2); lia. }
    assert (Z.pos (digits2_pos m) = mw + 1) as Hd by (unfold prec in *; lia).
    rewrite Hd in H2. unfold prec in *. lia.
Qed.

Lemma bits_of_float_range x :
  valid_binary prec emax x = true →
  0 ≤ bits_of_float mw ew x < 2 ^ (mw + ew + 1).
Proof.
  intros Hv. pose proof pow_ew as [Hp He].
  assert (0 < 2 ^ mw) by (apply Z.pow_pos_nonneg; lia).
  assert (0 < 2 ^ (mw - 1) < 2 ^ mw).
  { split; [apply Z.pow_pos_nonneg; lia|apply Z.pow_lt_mono_r; lia]. }
  destruct x as [s|s| |s m e]; simpl; try (apply bits_range; lia).
  destruct (bounded_cases _ _ Hv) as [[Hm ->]|[Hm Hb]].
  - destruct (Z.ltb_spec (Zpos m) (2 ^ mw)); [|lia]. apply bits_range; lia.
  - destruct (Z.ltb_spec (Zpos m) (2 ^ mw)); [lia|].
    rewrite Z.pow_add_r in Hm by lia.
    apply bits_range; [lia|]. unfold least_exponent in *.
    fold emax. unfold prec in *. lia.
Qed.

(** Decoding inverts encoding on the valid numbers. *)
Lemma float_of_bits_of_float x :
  valid_binary prec emax x = true →
  float_of_bits mw ew (bits_of_float mw ew x) = x.
Proof.
  intros Hv. pose proof pow_ew as [Hp He].
  assert (0 < 2 ^ mw) by (apply Z.pow_pos_nonneg; lia).
  assert (0 < 2 ^ (mw - 1) < 2 ^ mw).
  { split; [apply Z.pow_pos_nonneg; lia|apply Z.pow_lt_mono_r; lia]. }
  assert (Hdec : ∀ s e m, 0 ≤ m < 2 ^ mw → 0 ≤ e < 2 ^ ew →
    float_of_bits mw ew (join_bits mw ew s e m) =
      if e =? 0 then
        if m =? 0 then S754_zero s
        else S754_finite s (Z.to_pos m) (least_exponent mw ew)
      else if e =? 2 ^ ew - 1 then
        if m =? 0 then S754_infinity s else S754_nan
      else S754_finite s (Z.to_pos (m + 2 ^ mw)) (e + least_exponent mw ew - 1)).
  { intros s e m Hm Hee. unfold float_of_bits.
    destruct (split_bits s e m Hm Hee) as (-> & -> & ->). done. }
  destruct x as [s|s| |s m e]; simpl.
  - by rewrite Hdec by lia.
  - rewrite Hdec by lia.
    destruct (Z.eqb_spec (2 ^ ew - 1) 0); [lia|].
    by rewrite Z.eqb_refl.
  - rewrite Hdec by lia.
    destruct (Z.eqb_spec (2 ^ ew - 1) 0); [lia|].
    rewrite Z.eqb_refl.
    destruct (Z.eqb_spec (2 ^ (mw - 1)) 0); [lia|done].
  - destruct (bounded_cases _ _ Hv) as [[Hm ->]|[Hm Hb]].
    + destruct (Z.ltb_spec (Zpos m) (2 ^ mw)); [|lia].
      rewrite Hdec by lia. simpl. done.
    + destruct (Z.ltb_spec (Zpos m) (2 ^ mw)); [lia|].
      rewrite Z.pow_add_r in Hm by lia. change (2 ^ 1) with 2 in Hm.
      assert (0 ≤ e - least_exponent mw ew + 1 < 2 ^ ew - 1).
      { unfold least_exponent in *. fold emax. unfold prec in *. lia. }
      rewrite Hdec by lia.
      destruct (Z.eqb_spec (e - least_exponent mw ew + 1) 0); [lia|].
      destruct (Z.eqb_spec (e - least_exponent mw ew + 1) (2 ^ ew - 1)); [lia|].
      f_equal; [|lia].
      replace (Z.pos m - 2 ^ mw + 2 ^ mw) with (Zpos m) by lia. done.
Qed.

End Interchange.

(** Conversion to binary32 inverts the exact conversion from it. *)
Lemma narrow_widen g :
  valid_binary 24 128 g = true → narrow (widen g) = Ok g.
Proof.
  destruct g as [s|s| |s m e]; try done. intros Hv. simpl in Hv.
  assert (Hv' := Hv). unfold bounded, canonical_mantissa, fexp, emin in Hv'.
  apply andb_true_iff in Hv' as [Hc Hb].
  apply Z.eqb_eq in Hc. apply Z.leb_le in Hb.
  pose proof (digits_bounds m) as [H1 H2].
  fold (digits m) in Hc.
  assert (0 < digits m) by (unfold digits; lia).
  assert (digits m ≤ 24) as Hd by lia.
  assert (Zpos m < 2 ^ 24).
  { eapply Z.lt_le_trans; [apply H2|]. apply Z.pow_le_mono_r; lia. }
  unfold widen, narrow.
  set (k := 53 - digits m).
  assert (0 < k) by (unfold k; lia).
  assert (0 < 2 ^ k) by (apply Z.pow_pos_nonneg; lia).
  assert (0 < 2 ^ (k - 1)) by (apply Z.pow_pos_nonneg; lia).
  rewrite digits_shift by lia. rewrite Z2Pos.id by lia.
  replace (Z.max (digits m + k + (e - k) - 24) (-149)) with e by lia.
  replace (e - (e - k)) with k by lia.
  destruct (Z.leb_spec k 0); [lia|].
  rewrite Z.div_mul, Z.mod_mul by lia.
  destruct (Z.ltb_spec 0 (2 ^ (k - 1))); [|lia].
  destruct (Z.eqb_spec (Zpos m) (2 ^ 24)); [lia|].
  destruct (Z.eqb_spec (Zpos m) 0); [lia|].
  destruct (Z.ltb_spec 104 e); [lia|]. done.
Qed.

End FloatCodec.

(** ** [struct.unpack] after [struct.pack] *)

Lemma unpack_pack fmt o c v :
  struct.parse_format fmt = Some (o, c) → struct.valid_for c v →
  ∃ data, struct.pack fmt v = Ok data ∧
          String.length data = struct.calcsize c ∧
          struct.unpack fmt data = Ok v.
Proof.
  intros Hf Hv. unfold struct.pack, struct.unpack. rewrite Hf.
  destruct c as [signed size| |]; simpl in Hv.
  - destruct Hv as (z & -> & Hz). unfold struct.pack_int. rewrite Hz.
    eexists. split; [done|]. rewrite to_bytes_length. split; [done|].
    simpl. rewrite Nat.eqb_refl. simpl. by rewrite unpack_pack_int.
  - destruct Hv as (g & -> & Hg). simpl. rewrite narrow_widen by done.
    eexists. split; [done|]. rewrite to_bytes_length. split; [done|].
    simpl. rewrite of_bytes_to_bytes.
    pose proof (bits_of_float_range 23 8 ltac:(lia) ltac:(lia) g Hg) as Hr.
    rewrite Z.mod_small by (simpl in *; lia).
    by rewrite (float_of_bits_of_float 23 8 ltac:(lia) ltac:(lia) g Hg).
  - destruct Hv as (f & -> & Hf'). simpl.
    eexists. split; [done|]. rewrite to_bytes_length. split; [done|].
    simpl. rewrite of_bytes_to_bytes.
    pose proof (bits_of_float_range 52 11 ltac:(lia) ltac:(lia) f Hf') as Hr.
    rewrite Z.mod_small by (simpl in *; lia).
    by rewrite (float_of_bits_of_float 52 11 ltac:(lia) ltac:(lia) f Hf').
Qed.

(** ** Building and parsing a number *)

Lemma NumberBase_build_ok l o e f v data st :
  heap st !! l = Some o →
  attr_of o "endian" = Some (VStr e) → attr_of o "format" = Some (VStr f) →
  attr_of o "_pfp__value" = Some v →
  struct.pack (e +:+ f) v = Ok data →
  NumberBase__pfp__build l VNone st = (Ok (VStr data), st).
Proof.
  intros H He Hf Hv Hp. unfold NumberBase__pfp__build.
  rewrite (bind_ok _ _ _ _ _ (py_getattr_ok _ _ _ _ _ H He)).
  rewrite (bind_ok _ _ _ _ _ (py_getattr_ok _ _ _ _ _ H Hf)).
  change (format_pair (VStr e) (VStr f)) with (@Ok string (e +:+ f)).
  rewrite bind_lift_ok.
  rewrite (bind_ok _ _ _ _ _ (py_getattr_ok _ _ _ _ _ H Hv)).
  by rewrite Hp, bind_lift_ok.
Qed.

Lemma NumberBase_parse_ok l o e f w v sid t st :
  heap st !! l = Some o →
  attr_of o "width" = Some (VInt w) →
  attr_of o "endian" = Some (VStr e) → attr_of o "format" = Some (VStr f) →
  streams st !! sid = Some t →
  (0 ≤ w ≤ Z.of_nat (String.length (s_unread t)))%Z →
  struct.unpack (e +:+ f) (str_take (Z.to_nat w) (s_unread t)) = Ok v →
  NumberBase__pfp__parse l (VStream sid) st =
    (Ok (VInt w),
     upd_heap l
       (with_attr "_pfp__value" v
          (with_attr "_pfp__data" (VStr (str_take (Z.to_nat w) (s_unread t))) o))
       (upd_stream sid
          (mkStream (str_drop (Z.to_nat w) (s_unread t)) (s_written t)) st)).
Proof.
  intros H Hw He Hf Hs Hlen Hu.
  unfold NumberBase__pfp__parse, stream_method. rewrite bind_ret.
  rewrite (bind_ok _ _ _ _ _ (py_getattr_ok _ _ _ _ _ H Hw)).
  assert (0 ≤ w)%Z as Hw0 by lia.
  rewrite (bind_ok _ _ _ _ _ (stream_read_ok _ _ _ _ Hs Hw0)).
  set (data := str_take _ _) in *.
  set (st1 := upd_stream _ _ _).
  assert (H1 : heap st1 !! l = Some o) by done.
  rewrite (bind_ok _ _ _ _ _ (py_getattr_ok _ _ _ _ _ H1 Hw)).
  unfold py_lt. rewrite bind_lift_ok.
  unfold data at 1. rewrite str_take_length.
  destruct (Z.ltb_spec (Z.of_nat (Z.to_nat w `min` String.length (s_unread t))) w);
    [lia|].
  erewrite (bind_ok (object___setattr__ _ _ _));
    [|by apply object_setattr_ok; [done|name_solver]].
  set (o1 := with_attr "_pfp__data" _ o).
  assert (H2 : heap (upd_heap l o1 st1) !! l = Some o1) by (by eapply heap_upd_same).
  assert (He1 : attr_of o1 "endian" = Some (VStr e))
    by (unfold o1; by rewrite attr_of_with_attr_other).
  assert (Hf1 : attr_of o1 "format" = Some (VStr f))
    by (unfold o1; by rewrite attr_of_with_attr_other).
  rewrite (bind_ok _ _ _ _ _ (py_getattr_ok _ _ _ _ _ H2 He1)).
  rewrite (bind_ok _ _ _ _ _ (py_getattr_ok _ _ _ _ _ H2 Hf1)).
  change (format_pair (VStr e) (VStr f)) with (@Ok string (e +:+ f)).
  rewrite bind_lift_ok, Hu, bind_lift_ok.
  erewrite (bind_ok (object___setattr__ _ _ _));
    [|by apply object_setattr_ok; [done|name_solver]].
  rewrite upd_heap_twice.
  eapply py_getattr_ok; [by eapply heap_upd_same|].
  unfold o1. by rewrite !attr_of_with_attr_other.
Qed.

(** ** The read loop of [String._pfp__parse] *)

Lemma upd_stream_twice sid t1 t2 st :
  upd_stream sid t2 (upd_stream sid t1 st) = upd_stream sid t2 st.
Proof. unfold upd_stream. simpl. by rewrite list_insert_insert_eq. Qed.

Lemma streams_upd_same sid t t' st :
  streams st !! sid = Some t → streams (upd_stream sid t' st) !! sid = Some t'.
Proof.
  intros H. simpl. apply list_lookup_insert_eq. by eapply lookup_lt_Some.
Qed.

Lemma str_concat_length k chunks :
  Forall (λ c, String.length c = k) chunks →
  String.length (str_concat chunks) = k * length chunks.
Proof.
  induction 1 as [|c cs Hc _ IH]; simpl; [lia|].
  rewrite str_app_length, IH, Hc. lia.
Qed.

(** On an input made of [chunks], none of them the terminator,
    followed by the terminator, the loop returns the chunks and
    leaves the stream just behind the terminator. *)
Lemma String_read_loop_chunks l o sid k term rest written chunks :
  attr_of o "read_size" = Some (VInt (Z.of_nat k)) →
  attr_of o "terminator" = Some (VStr term) →
  String.length term = k →
  Forall (λ c, String.length c = k ∧ c ≠ term) chunks →
  ∀ acc fuel st,
    heap st !! l = Some o →
    length chunks < fuel →
    streams st !! sid = Some (mkStream (str_concat chunks +:+ term +:+ rest) written) →
    String_read_loop fuel l (VStream sid) acc st =
      (Ok (acc +:+ str_concat chunks), upd_stream sid (mkStream rest written) st).
Proof.
  intros Hrs Hterm Hk Hall.
  assert (Hstep : ∀ c tail acc f st,
    heap st !! l = Some o → String.length c = k →
    streams st !! sid = Some (mkStream (c +:+ tail) written) →
    String_read_loop (S f) l (VStream sid) acc st =
      if String.eqb c term then
        (Ok acc, upd_stream sid (mkStream tail written) st)
      else
        String_read_loop f l (VStream sid) (acc +:+ c)
          (upd_stream sid (mkStream tail written) st)).
  { intros c tail acc f st H Hc Hs. cbn [String_read_loop].
    unfold stream_method. rewrite bind_ret.
    rewrite (bind_ok _ _ _ _ _ (py_getattr_ok _ _ _ _ _ H Hrs)).
    rewrite (bind_ok _ _ _ _ _ (stream_read_ok _ _ _ _ Hs (Nat2Z.is_nonneg k))).
    rewrite Nat2Z.id. simpl s_unread. simpl s_written.
    rewrite <- Hc, str_take_app, str_drop_app.
    set (st1 := upd_stream _ _ _).
    assert (H1 : heap st1 !! l = Some o) by done.
    rewrite (bind_ok _ _ _ _ _ (py_getattr_ok _ _ _ _ _ H1 Hrs)).
    unfold py_lt. rewrite bind_lift_ok, Hc, Z.ltb_irrefl.
    rewrite (bind_ok _ _ _ _ _ (py_getattr_ok _ _ _ _ _ H1 Hterm)).
    unfold py_str_eq. rewrite bind_lift_ok.
    by destruct (String.eqb c term). }
  induction Hall as [|c cs [Hc Hne] _ IH]; intros acc fuel st H Hfuel Hs.
  - destruct fuel as [|f]; [simpl in Hfuel; lia|].
    simpl in Hs. rewrite (Hstep term rest acc f st H Hk Hs).
    rewrite String.eqb_refl. simpl. by rewrite str_app_nil_r.
  - destruct fuel as [|f]; [simpl in Hfuel; lia|].
    simpl in Hs. rewrite str_app_assoc in Hs.
    rewrite (Hstep c _ acc f st H Hc Hs).
    apply String.eqb_neq in Hne. rewrite Hne.
    rewrite IH; [|done|simpl in Hfuel; lia|by eapply streams_upd_same].
    rewrite upd_stream_twice. simpl. by rewrite str_app_assoc.
Qed.

Lemma unread_length_ok sid t st :
  streams st !! sid = Some t →
  unread_length (VStream sid) st = (Ok (String.length (s_unread t)), st).
Proof. unfold unread_length. by intros ->. Qed.

Lemma String_parse_chunks l o sid k term rest written chunks st :
  attr_of o "read_size" = Some (VInt (Z.of_nat k)) →
  attr_of o "terminator" = Some (VStr term) →
  String.length term = k → 0 < k →
  Forall (λ c, String.length c = k ∧ c ≠ term) chunks →
  heap st !! l = Some o →
  streams st !! sid = Some (mkStream (str_concat chunks +:+ term +:+ rest) written) →
  String__pfp__parse l (VStream sid) st =
    (Ok VNone,
     upd_heap l (with_attr "_pfp__value" (VStr (str_concat chunks)) o)
       (upd_stream sid (mkStream rest written) st)).
Proof.
  intros Hrs Hterm Hk Hpos Hall H Hs. unfold String__pfp__parse.
  rewrite (bind_ok _ _ _ _ _ (unread_length_ok _ _ _ Hs)).
  erewrite (bind_ok (String_read_loop _ _ _ _));
    [|eapply String_read_loop_chunks; try done].
  - erewrite (bind_ok (object___setattr__ _ _ _));
      [done|by apply object_setattr_ok; [done|name_solver]].
  - simpl. rewrite !str_app_length.
    rewrite (str_concat_length k) by (eapply Forall_impl; [done|by intros ? [? _]]).
    nia.
Qed.

Lemma str_concat_chars s : str_concat (chars s) = s.
Proof.
  induction s as [|a s IH]; [done|]. simpl.
  rewrite str_app_cons, str_app_nil_l. by f_equal.
Qed.

Lemma chars_no_nul s :
  no_nul s = true →
  Forall (λ c, String.length c = 1 ∧ c ≠ NUL) (chars s).
Proof.
  induction s as [|a s IH]; simpl; [by constructor|].
  intros [Ha Hs]%andb_true_iff. constructor; [|by apply IH].
  split; [done|]. intros [= ->]. by rewrite Ascii.eqb_refl in Ha.
Qed.

(** ** UTF-16LE *)

Section Utf16.
Local Open Scope Z_scope.
Import utf_16_le.

Lemma encode_units u : encode u = str_concat (unit_bytes <$> units_of u).
Proof.
  induction u as [|c r IH]; [done|]. cbn [encode units_of].
  rewrite IH. destruct (c <? 65536); simpl; [done|].
  by rewrite str_app_assoc.
Qed.

Lemma units_of_range u :
  Forall scalar u → Forall (λ x, 0 < x < 65536) (units_of u).
Proof.
  induction 1 as [|c r [Hc Hs] _ IH]; [by constructor|]. cbn [units_of].
  destruct (Z.ltb_spec c 65536).
  - constructor; [lia|done].
  - constructor; [|constructor; [|done]].
    + assert (0 ≤ (c - 65536) / 1024 < 1024); [|lia].
      split; [apply Z.div_pos; lia|apply Z.div_lt_upper_bound; lia].
    + pose proof (Z.mod_pos_bound (c - 65536) 1024). lia.
Qed.

Lemma unit_bytes_chunk x :
  0 < x < 65536 →
  String.length (unit_bytes x) = 2%nat ∧ unit_bytes x ≠ NUL +:+ NUL.
Proof.
  intros Hx. split; [done|]. unfold unit_bytes, NUL. intros [= H1 H2].
  assert (0 ≤ x mod 256 < 256) as Hlo by (apply Z.mod_pos_bound; lia).
  assert (0 ≤ x / 256 < 256) as Hhi.
  { split; [apply Z.div_pos; lia|apply Z.div_lt_upper_bound; lia]. }
  apply (f_equal Z_of_ascii) in H1, H2.
  rewrite Z_of_ascii_of_Z in H1, H2 by done.
  change (Z_of_ascii "000") with 0 in *.
  pose proof (Z.div_mod x 256). lia.
Qed.

Lemma units_unit_bytes us :
  Forall (λ x, 0 < x < 65536) us →
  units (str_concat (unit_bytes <$> us)) = Some us.
Proof.
  induction 1 as [|x r Hx _ IH]; [done|].
  cbn [fmap list_fmap str_concat]. unfold unit_bytes at 1.
  rewrite !str_app_cons, str_app_nil_l. cbn [units]. rewrite IH.
  assert (0 ≤ x mod 256 < 256) as Hlo by (apply Z.mod_pos_bound; lia).
  assert (0 ≤ x / 256 < 256) as Hhi.
  { split; [apply Z.div_pos; lia|apply Z.div_lt_upper_bound; lia]. }
  rewrite !Z_of_ascii_of_Z by done.
  do 2 f_equal. pose proof (Z.div_mod x 256). lia.
Qed.

Lemma combine_units_of u : Forall scalar u → combine (units_of u) = Some u.
Proof.
  induction 1 as [|c r [Hc Hs] _ IH]; [done|]. cbn [units_of].
  destruct (Z.ltb_spec c 65536).
  - cbn [app combine]. rewrite IH.
    unfold is_high_surrogate, is_low_surrogate.
    destruct (Z.leb_spec 0xD800 c), (Z.leb_spec c 0xDBFF),
      (Z.leb_spec 0xDC00 c), (Z.leb_spec c 0xDFFF); simpl; try done; lia.
  - cbn [app combine]. rewrite IH.
    assert (0 ≤ (c - 65536) / 1024 < 1024) as Hq.
    { split; [apply Z.div_pos; lia|apply Z.div_lt_upper_bound; lia]. }
    pose proof (Z.mod_pos_bound (c - 65536) 1024 ltac:(lia)) as Hr.
    pose proof (Z.div_mod (c - 65536) 1024 ltac:(lia)) as Hdm.
    unfold is_high_surrogate, is_low_surrogate.
    destruct (Z.leb_spec 0xD800 (0xD800 + (c - 65536) / 1024)); [|lia].
    destruct (Z.leb_spec (0xD800 + (c - 65536) / 1024) 0xDBFF); [|lia].
    destruct (Z.leb_spec 0xDC00 (0xDC00 + (c - 65536) mod 1024)); [|lia].
    destruct (Z.leb_spec (0xDC00 + (c - 65536) mod 1024) 0xDFFF); [|lia].
    simpl. do 2 f_equal. lia.
Qed.

(** Decoding inverts encoding on the texts of scalar values. *)
Lemma decode_encode u : Forall scalar u → decode (encode u) = Ok u.
Proof.
  intros Hu. unfold decode.
  rewrite encode_units, units_unit_bytes by (by apply units_of_range).
  by rewrite combine_units_of.
Qed.

End Utf16.

(** ** Parsing text *)

Lemma String_parse_ok l o sid s rest written st :
  heap st !! l = Some o →
  attr_of o "read_size" = Some (VInt 1) →
  attr_of o "terminator" = Some (VStr NUL) →
  no_nul s = true →
  streams st !! sid = Some (mkStream ((s +:+ NUL) +:+ rest) written) →
  String__pfp__parse l (VStream sid) st =
    (Ok VNone,
     upd_heap l (with_attr "_pfp__value" (VStr s) o)
       (upd_stream sid (mkStream rest written) st)).
Proof.
  intros H Hrs Hterm Hs Hst.
  rewrite <- (str_concat_chars s) at 1.
  eapply (String_parse_chunks l o sid 1 NUL rest written (chars s));
    [done|done|done|lia|by apply chars_no_nul|done|].
  by rewrite str_concat_chars, <- str_app_assoc.
Qed.

Lemma WString_parse_ok l o sid u rest written st :
  heap st !! l = Some o →
  attr_of o "read_size" = Some (VInt 2) →
  attr_of o "terminator" = Some (VStr (NUL +:+ NUL)) →
  Forall scalar u →
  streams st !! sid =
    Some (mkStream ((utf_16_le.encode u +:+ NUL +:+ NUL) +:+ rest) written) →
  ∃ st2, WString__pfp__parse l (VStream sid) st = (Ok VNone, st2) ∧
         stored_value l st2 = Some (VUni u) ∧
         streams st2 !! sid = Some (mkStream rest written).
Proof.
  intros H Hrs Hterm Hu Hst. unfold WString__pfp__parse.
  set (raw := utf_16_le.encode u) in *.
  assert (Hparse : String__pfp__parse l (VStream sid) st =
    (Ok VNone,
     upd_heap l (with_attr "_pfp__value" (VStr raw) o)
       (upd_stream sid (mkStream rest written) st))).
  { unfold raw. rewrite encode_units.
    eapply (String_parse_chunks l o sid 2 (NUL +:+ NUL) rest written);
      [done|done|done|lia| |done|].
    - apply Forall_fmap. eapply Forall_impl; [by apply units_of_range|].
      intros x Hx. by apply unit_bytes_chunk.
    - rewrite <- encode_units. by rewrite <- str_app_assoc. }
  rewrite (bind_ok _ _ _ _ _ Hparse).
  set (o1 := with_attr "_pfp__value" (VStr raw) o).
  set (st1 := upd_stream _ _ _).
  assert (H1 : heap (upd_heap l o1 st1) !! l = Some o1) by (by eapply heap_upd_same).
  rewrite (bind_ok _ _ _ _ _ (py_getattr_ok _ _ _ _ _ H1 (attr_of_with_attr_same _ _ _))).
  unfold py_decode_utf_16_le, raw. rewrite decode_encode by done.
  rewrite bind_lift_ok.
  erewrite (bind_ok (object___setattr__ _ _ _));
    [|by apply object_setattr_ok; [done|name_solver]].
  rewrite upd_heap_twice. eexists. split; [done|]. split.
  - unfold stored_value. erewrite heap_upd_same by done. simpl.
    by rewrite lookup_insert_eq.
  - simpl. apply list_lookup_insert_eq. by eapply lookup_lt_Some.
Qed.

(** ** Round trip *)

Lemma number_class_code c k :
  is_number c = true → codec_of c = Some k →
  ∃ a, class_attr c "format" = Some (VStr (String a "")) ∧
       struct.code_of a = Some k ∧
       class_attr c "width" = Some (VInt (Z.of_nat (struct.calcsize k))).
Proof.
  intros Hc Hk.
  destruct c; try discriminate Hc; vm_compute in Hk; injection Hk as <-;
    eexists; (split; [reflexivity|split; reflexivity]).
Qed.

Lemma plain_attr o name :
  plain o → name ∈ ["width"; "format"; "read_size"; "terminator"] →
  attr_of o name = class_attr (o_cls o) name.
Proof.
  intros (H1 & H2 & H3 & H4) Hn. unfold attr_of.
  repeat (apply elem_of_cons in Hn as [->|Hn]; [by rewrite ?H1, ?H2, ?H3, ?H4|]).
  by apply elem_of_nil in Hn.
Qed.

Lemma endian_format e a k :
  e = BIG_ENDIAN ∨ e = LITTLE_ENDIAN → struct.code_of a = Some k →
  ∃ ord, struct.parse_format (e +:+ String a "") = Some (ord, k).
Proof.
  intros [-> | ->] Hk; eexists; simpl; by rewrite Hk.
Qed.

(** C1: for a field of a concrete numeric or text class that holds a
    value of the class's domain, [_pfp__build] returns bytes from
    which [_pfp__parse], run on a field of the same class and byte
    order, stores exactly that value again, consuming exactly those
    bytes: the same integer, the same float, the same text without
    its terminator. *)
Theorem build_then_parse_round_trip (fuel : nat) (src dst : loc) (o o' : obj)
    (v : PyVal) (sid : nat) (rest written : string) (st st1 : state) :
  heap st !! src = Some o → plain o →
  attr_of o "_pfp__value" = Some v → valid_value (o_cls o) v →
  heap st1 !! dst = Some o' → o_cls o' = o_cls o → plain o' →
  same_byte_order o o' →
  ∃ data,
    _pfp__build (S fuel) src VNone st = (Ok (VStr data), st) ∧
    (streams st1 !! sid = Some (mkStream (data +:+ rest) written) →
     ∃ r st2,
       _pfp__parse (S fuel) dst (VStream sid) st1 = (Ok r, st2) ∧
       stored_value dst st2 = Some v ∧
       streams st2 !! sid = Some (mkStream rest written)).
Proof.
  intros H Hp Hv Hval H' Hcls Hp' Hbo.
  rewrite _pfp__build_S, (bind_ok _ _ _ _ _ (get_obj_ok _ _ _ H)).
  unfold valid_value in Hval.
  destruct (is_number (o_cls o)) eqn:Hnum.
  - (* numbers *)
    destruct (codec_of (o_cls o)) as [k|] eqn:Hk; [|done].
    destruct (number_class_code _ _ Hnum Hk) as (a & Hfmt & Hcode & Hwidth).
    destruct (Hbo Hnum) as (e & [He Heo] & [He' _]).
    destruct (endian_format e a k Heo Hcode) as (ord & Hpf).
    destruct (unpack_pack _ _ _ _ Hpf Hval) as (data & Hpack & Hlen & Hunpack).
    assert (Hf : attr_of o "format" = Some (VStr (String a "")))
      by (rewrite plain_attr by (done || name_solver); done).
    assert (Hf' : attr_of o' "format" = Some (VStr (String a "")))
      by (rewrite plain_attr by (done || name_solver); by rewrite Hcls).
    assert (Hw' : attr_of o' "width" = Some (VInt (Z.of_nat (struct.calcsize k))))
      by (rewrite plain_attr by (done || name_solver); by rewrite Hcls).
    exists data. split.
    + rewrite number_build_method by done.
      by eapply NumberBase_build_ok.
    + intros Hs.
      rewrite _pfp__parse_S, (bind_ok _ _ _ _ _ (get_obj_ok _ _ _ H')).
      rewrite Hcls, number_parse_method by done.
      erewrite NumberBase_parse_ok; [|done|done|done|done|done| |].
      * do 2 eexists. split; [done|]. split.
        -- unfold stored_value. erewrite heap_upd_same by done. simpl.
           by rewrite lookup_insert_eq.
        -- simpl. rewrite Nat2Z.id, <- Hlen, str_drop_app.
           apply list_lookup_insert_eq. by eapply lookup_lt_Some.
      * simpl. rewrite str_app_length. lia.
      * simpl. by rewrite Nat2Z.id, <- Hlen, str_take_app.
  - (* text *)
    destruct (o_cls o) eqn:Ec; try done.
    + destruct Hval as (s & -> & Hs).
      exists (s +:+ NUL). split.
      * change (defining_class C_String "_pfp__build") with (Some C_String).
        unfold String__pfp__build.
        by rewrite (bind_ok _ _ _ _ _ (py_getattr_ok _ _ _ _ _ H Hv)).
      * intros Hst.
        rewrite _pfp__parse_S, (bind_ok _ _ _ _ _ (get_obj_ok _ _ _ H')), Hcls.
        change (defining_class C_String "_pfp__parse") with (Some C_String).
        cbv beta iota.
        erewrite String_parse_ok; [|done| | |done|done].
        -- do 2 eexists. split; [done|]. split.
           ++ unfold stored_value. erewrite heap_upd_same by done. simpl.
              by rewrite lookup_insert_eq.
           ++ simpl. apply list_lookup_insert_eq. by eapply lookup_lt_Some.
        -- rewrite plain_attr by (done || name_solver). by rewrite Hcls.
        -- rewrite plain_attr by (done || name_solver). by rewrite Hcls.
    + destruct Hval as (u & -> & Hu).
      exists (utf_16_le.encode u +:+ NUL +:+ NUL). split.
      * change (defining_class C_WString "_pfp__build") with (Some C_WString).
        unfold WString__pfp__build.
        by rewrite (bind_ok _ _ _ _ _ (py_getattr_ok _ _ _ _ _ H Hv)).
      * intros Hst.
        rewrite _pfp__parse_S, (bind_ok _ _ _ _ _ (get_obj_ok _ _ _ H')), Hcls.
        change (defining_class C_WString "_pfp__parse") with (Some C_WString).
        cbv beta iota.
        destruct (WString_parse_ok dst o' sid u rest written st1)
          as (st2 & Hparse & Hval & Hstr); [done| | |done|done|].
        -- rewrite plain_attr by (done || name_solver). by rewrite Hcls.
        -- rewrite plain_attr by (done || name_solver). by rewrite Hcls.
        -- by exists VNone, st2.
Qed.

Lemma build_then_parse_round_trip_witness :
  ∃ data,
    _pfp__build 1 0 VNone round_trip_state = (Ok (VStr data), round_trip_state) ∧
    (streams round_trip_state !! 0 = Some (mkStream (data +:+ "x") "") →
     ∃ r st2,
       _pfp__parse 1 1 (VStream 0) round_trip_state = (Ok r, st2) ∧
       stored_value 1 st2 = Some (VInt (-2)) ∧
       streams st2 !! 0 = Some (mkStream "x" "")).
Proof.
  apply (build_then_parse_round_trip 0 0 1 short_holding (new_obj C_Short)
           (VInt (-2)) 0 "x" "" round_trip_state round_trip_state).
  - reflexivity.
  - repeat split.
  - reflexivity.
  - exists (-2)%Z. split; reflexivity.
  - reflexivity.
  - reflexivity.
  - repeat split.
  - intros _. exists BIG_ENDIAN. repeat split; left; reflexivity.
Defined.

(** The round trip on one value of each kind, and on two values
    outside the domains: 0.1 comes back rounded to binary32, and a
    text with an embedded zero byte comes back cut short. *)
Example round_trip_examples :
  round_trip C_Char (VInt (-128)) = Ok (VInt (-128)) ∧
  round_trip C_UInt64 (VInt (2 ^ 64 - 1)) = Ok (VInt (2 ^ 64 - 1)) ∧
  round_trip C_Float (VFloat double_0_15625) = Ok (VFloat double_0_15625) ∧
  round_trip C_Double (VFloat double_0_1) = Ok (VFloat double_0_1) ∧
  round_trip C_String (VStr "hi") = Ok (VStr "hi") ∧
  round_trip C_WString (VUni [65; 0x1F600]%Z) = Ok (VUni [65; 0x1F600]%Z) ∧
  round_trip C_Float (VFloat double_0_1) ≠ Ok (VFloat double_0_1) ∧
  round_trip C_String (VStr ("a" +:+ NUL +:+ "b")) = Ok (VStr "a").
Proof. by vm_compute. Qed.

(** ** Parsing a number, in general *)

Lemma number_class_endian c :
  is_number c = true → class_attr c "endian" = Some (VStr BIG_ENDIAN).
Proof. by destruct c. Qed.

Lemma number_class_format c w :
  number_width c = Some w →
  ∃ a k ord, class_attr c "format" = Some (VStr (String a "")) ∧
             struct.parse_format (BIG_ENDIAN +:+ String a "") = Some (ord, k) ∧
             w = Z.of_nat (struct.calcsize k).
Proof.
  destruct c; intros [= <-]; do 3 eexists; (split; [reflexivity|split; reflexivity]).
Qed.

Lemma unpack_total fmt ord k data :
  struct.parse_format fmt = Some (ord, k) →
  String.length data = struct.calcsize k →
  ∃ v, struct.unpack fmt data = Ok v.
Proof.
  intros Hf Hl. unfold struct.unpack. rewrite Hf, Hl, Nat.eqb_refl. simpl.
  destruct k; by eexists.
Qed.

(** A numeric field that keeps the byte order of its class, on a
    stream with enough bytes: [_pfp__parse] returns the width,
    consumes exactly that many bytes and stores what they unpack to. *)
Lemma number_parse_general f l o w sid t st :
  heap st !! l = Some o → plain o → o_dict o !! "endian" = None →
  number_width (o_cls o) = Some w →
  streams st !! sid = Some t →
  (w ≤ Z.of_nat (String.length (s_unread t)))%Z →
  ∃ v, _pfp__parse (S f) l (VStream sid) st =
    (Ok (VInt w),
     upd_heap l
       (with_attr "_pfp__value" v
          (with_attr "_pfp__data" (VStr (str_take (Z.to_nat w) (s_unread t))) o))
       (upd_stream sid
          (mkStream (str_drop (Z.to_nat w) (s_unread t)) (s_written t)) st)).
Proof.
  intros H Hp He Hw Hs Hlen.
  assert (Hnum : is_number (o_cls o) = true)
    by (unfold number_width in Hw; by destruct (is_number _)).
  pose proof (number_width_pos _ _ Hw) as Hpos.
  destruct (number_class_format _ _ Hw) as (a & k & ord & Hfmt & Hpf & Hwk).
  destruct (unpack_total _ ord k (str_take (Z.to_nat w) (s_unread t)) Hpf) as [v Hv].
  { rewrite str_take_length. lia. }
  exists v.
  rewrite _pfp__parse_S, (bind_ok _ _ _ _ _ (get_obj_ok _ _ _ H)).
  rewrite number_parse_method by done.
  eapply NumberBase_parse_ok; [done| | | |done|lia|done].
  - by apply number_width_attr.
  - unfold attr_of. rewrite He. by apply number_class_endian.
  - rewrite plain_attr by (done || name_solver). done.
Qed.

(** ** Parsing an array that has a name *)

Lemma str_drop_drop n m s : str_drop n (str_drop m s) = str_drop (m + n) s.
Proof.
  revert s. induction m as [|m IH]; intros s; [done|].
  destruct s as [|a s]; simpl; [by destruct n|apply IH].
Qed.

Lemma set_items_same o : set_items (o_items o) o = o.
Proof. by destruct o. Qed.

Lemma Array_parse_loop_ok f c w a sid pre nm :
  number_width c = Some w → py_str nm = Ok pre →
  ∀ count x st o t,
    heap st !! a = Some o →
    attr_of o "field_cls" = Some (VClass c) →
    attr_of o "_pfp__name" = Some nm →
    streams st !! sid = Some t →
    (Z.of_nat count * w ≤ Z.of_nat (String.length (s_unread t)))%Z →
    ∃ st',
      Array_parse_loop (S f) (_pfp__parse (S f)) count x a (VStream sid) st =
        (Ok tt, st') ∧
      length (heap st') = length (heap st) + count ∧
      heap st' !! a =
        Some (set_items (o_items o ++ seq (length (heap st)) count) o) ∧
      streams st' !! sid =
        Some (mkStream (str_drop (count * Z.to_nat w) (s_unread t)) (s_written t)) ∧
      (∀ l, l < length (heap st) → l ≠ a → heap st' !! l = heap st !! l).
Proof.
  intros Hw Hnm.
  assert (Hnum : is_number c = true)
    by (unfold number_width in Hw; by destruct (is_number _)).
  pose proof (number_width_pos _ _ Hw) as Hpos.
  induction count as [|n IH]; intros x st o t H Hfc Hname Hs Hlen.
  - exists st. simpl. rewrite Nat.add_0_r, app_nil_r, set_items_same.
    by destruct t.
  - cbn [Array_parse_loop].
    pose proof (lookup_lt_Some _ _ _ H) as Ha.
    set (L := length (heap st)) in *.
    rewrite (bind_ok _ _ _ _ _ (py_getattr_ok _ _ _ _ _ H Hfc)).
    unfold call0.
    rewrite (bind_ok _ _ _ _ _ (construct_leaf _ _ _ _ _ (number_is_leaf _ Hnum))).
    fold L.
    set (e0 := with_attr "_pfp__name" VNone (new_obj c)).
    set (st1 := mkState (heap st ++ [e0]) (streams st)).
    assert (H1a : heap st1 !! a = Some o) by (simpl; by rewrite lookup_app_l).
    assert (H1L : heap st1 !! L = Some e0) by apply lookup_new.
    rewrite (bind_ok _ _ _ _ _ (py_getattr_ok _ _ _ _ _ H1a Hname)).
    unfold format_index. rewrite Hnm. cbn [py_str]. rewrite bind_lift_ok.
    set (s := pre +:+ "[" +:+ pretty x +:+ "]").
    erewrite (bind_ok (py_setattr _ _ _ _));
      [|by eapply py_setattr_object; [done|by destruct c|name_solver]].
    set (e1 := with_attr "_pfp__name" (VStr s) e0).
    set (st2 := upd_heap L e1 st1).
    assert (H2L : heap st2 !! L = Some e1) by (by eapply heap_upd_same).
    assert (H2s : streams st2 !! sid = Some t) by done.
    destruct (number_parse_general f L e1 w sid t st2 H2L) as [v Hparse];
      [done|done|done|done|lia|].
    rewrite (bind_ok _ _ _ _ _ Hparse).
    set (e2 := with_attr "_pfp__value" v _).
    set (t' := mkStream _ _).
    set (st3 := upd_heap L e2 (upd_stream sid t' st2)).
    assert (H3a : heap st3 !! a = Some o).
    { unfold st3, st2. simpl. rewrite !list_lookup_insert_ne by lia.
      by rewrite lookup_app_l. }
    rewrite (bind_ok _ _ _ _ _ (modify_obj_ok _ _ _ _ H3a)).
    set (o4 := set_items (o_items o ++ [L]) o).
    set (st4 := upd_heap a o4 st3).
    assert (Hlen4 : length (heap st4) = S L).
    { unfold st4, st3, st2, st1. simpl.
      rewrite !length_insert, length_app. simpl. lia. }
    assert (H4s : streams st4 !! sid = Some t').
    { unfold st4, st3. simpl. apply list_lookup_insert_eq.
      by eapply lookup_lt_Some. }
    destruct (IH (x + 1)%Z st4 o4 t') as (st' & Hloop & Hl & Hitems & Hstr & Hframe).
    + by eapply heap_upd_same.
    + done.
    + done.
    + done.
    + unfold t'. simpl.
      assert (String.length (str_drop (Z.to_nat w) (s_unread t)) =
              String.length (s_unread t) - Z.to_nat w) as ->.
      { clear. generalize (Z.to_nat w) as k. intros k. revert k.
        induction (s_unread t) as [|b r IHr]; intros [|k]; simpl; auto. }
      lia.
    + exists st'. split; [done|]. rewrite Hlen4 in *.
      split; [lia|]. split; [|split].
      * rewrite Hitems. unfold o4. simpl. by rewrite <- app_assoc.
      * rewrite Hstr. unfold t'. simpl. by rewrite str_drop_drop.
      * intros l Hl' Hne. rewrite Hframe by lia.
        unfold st4, st3, st2, st1. simpl.
        rewrite !list_lookup_insert_ne by lia. by rewrite lookup_app_l.
Qed.

(** An array that has been given a name (by [_pfp__add_child], say),
    with a width that is a numeric field holding [N] and a numeric
    element class of width [w]: parsing creates [N] new elements in
    order and consumes [N * w] bytes.  It returns [None]. *)
Lemma named_Array_parse_count f a o n on N c w nm pre sid t st :
  heap st !! a = Some o → o_cls o = C_Array →
  attr_of o "width" = Some (VField n) →
  heap st !! n = Some on → is_struct (o_cls on) = false →
  attr_of on "_pfp__value" = Some (VInt N) → (0 ≤ N)%Z →
  attr_of o "field_cls" = Some (VClass c) → number_width c = Some w →
  attr_of o "_pfp__name" = Some nm → py_str nm = Ok pre →
  streams st !! sid = Some t →
  (N * w ≤ Z.of_nat (String.length (s_unread t)))%Z →
  ∃ st',
    _pfp__parse (S (S f)) a (VStream sid) st = (Ok VNone, st') ∧
    (o_items <$> heap st' !! a) = Some (seq (length (heap st)) (Z.to_nat N)) ∧
    length (heap st') = length (heap st) + Z.to_nat N ∧
    streams st' !! sid =
      Some (mkStream (str_drop (Z.to_nat (N * w)) (s_unread t)) (s_written t)).
Proof.
  intros H Hcls Hwidth Hn Hns HN HN0 Hfc Hw Hname Hnm Hs Hlen.
  pose proof (number_width_pos _ _ Hw) as Hpos.
  rewrite _pfp__parse_S, (bind_ok _ _ _ _ _ (get_obj_ok _ _ _ H)), Hcls.
  change (defining_class C_Array "_pfp__parse") with (Some C_Array).
  cbv beta iota. unfold Array__pfp__parse.
  rewrite (bind_ok _ _ _ _ _ (modify_obj_ok _ _ _ _ H)).
  set (o1 := set_items [] o). set (st1 := upd_heap a o1 st).
  assert (H1 : heap st1 !! a = Some o1) by (by eapply heap_upd_same).
  rewrite (bind_ok _ _ _ _ _ (py_getattr_ok _ _ _ _ _ H1 Hwidth)).
  assert (Hval : PYVAL (VField n) st1 = (Ok (VInt N), st1)).
  { unfold PYVAL, get_value. destruct (decide (n = a)) as [->|Hne].
    - eapply py_getattr_ok; [done|]. by simplify_eq.
    - eapply py_getattr_ok; [|done]. unfold st1. by rewrite heap_upd_other. }
  rewrite (bind_ok _ _ _ _ _ Hval). cbn [py_range]. rewrite bind_lift_ok.
  destruct (Array_parse_loop_ok f c w a sid pre nm Hw Hnm (Z.to_nat N) 0%Z st1 o1 t)
    as (st' & Hloop & Hl & Hitems & Hstr & _); [done..| |].
  { rewrite Z2Nat.id by lia. done. }
  rewrite (bind_ok _ _ _ _ _ Hloop).
  exists st'. split; [done|].
  assert (length (heap st1) = length (heap st)) as Hl1
    by (unfold st1; simpl; by rewrite length_insert).
  rewrite Hl1 in *. split; [by rewrite Hitems|]. split; [done|].
  rewrite Hstr. do 3 f_equal. lia.
Qed.

(** ** A struct of numbers *)

Lemma numeric_field_after f l w sid t st l' w' :
  numeric_field st l w → streams st !! sid = Some t →
  (w ≤ Z.of_nat (String.length (s_unread t)))%Z →
  numeric_field st l' w' →
  ∃ st', _pfp__parse (S f) l (VStream sid) st = (Ok (VInt w), st') ∧
         streams st' !! sid =
           Some (mkStream (str_drop (Z.to_nat w) (s_unread t)) (s_written t)) ∧
         numeric_field st' l' w'.
Proof.
  intros (o & H & Hp & He & Hw) Hs Hlen (o' & H' & Hp' & He' & Hw').
  destruct (number_parse_general f l o w sid t st H Hp He Hw Hs Hlen) as [v Hparse].
  eexists. split; [done|]. split.
  - simpl. apply list_lookup_insert_eq. by eapply lookup_lt_Some.
  - destruct (decide (l = l')) as [<-|Hne].
    + eexists. split; [by eapply heap_upd_same|].
      simplify_eq. destruct Hp as (? & ? & ? & ?).
      unfold plain, with_attr. simpl.
      rewrite !lookup_insert_ne by done. done.
    + exists o'. split; [|done]. by rewrite heap_upd_other.
Qed.

(** On children that are numeric fields, the loop of
    [Struct._pfp__parse] returns the sum of their widths (the counts
    their parse calls return) and consumes that many bytes. *)
Lemma accumulate_numbers f sid :
  ∀ children ws acc st t,
    Forall2 (numeric_field st) children ws →
    streams st !! sid = Some t →
    (total ws ≤ Z.of_nat (String.length (s_unread t)))%Z →
    ∃ st',
      accumulate (_pfp__parse (S f)) children (VStream sid) (VInt acc) st =
        (Ok (VInt (acc + total ws)), st') ∧
      streams st' !! sid =
        Some (mkStream (str_drop (Z.to_nat (total ws)) (s_unread t)) (s_written t)).
Proof.
  induction children as [|c cs IH]; intros ws acc st t Hall Hs Hlen.
  - apply Forall2_nil_inv_l in Hall as ->. exists st. simpl.
    rewrite Z.add_0_r. by destruct t.
  - apply Forall2_cons_inv_l in Hall as (w & ws' & Hc & Hcs & ->).
    assert (∀ l w', numeric_field st l w' → (0 < w')%Z) as Hpos.
    { intros l w' (o & _ & _ & _ & Hw). by eapply number_width_pos. }
    assert (0 ≤ total ws')%Z as Htot.
    { clear -Hcs Hpos. induction Hcs as [|l w' ? ? Hl _ IHc]; simpl; [lia|].
      pose proof (Hpos _ _ Hl). lia. }
    pose proof (Hpos _ _ Hc) as Hw0. simpl in Hlen.
    assert (∃ st1,
      _pfp__parse (S f) c (VStream sid) st = (Ok (VInt w), st1) ∧
      streams st1 !! sid =
        Some (mkStream (str_drop (Z.to_nat w) (s_unread t)) (s_written t)) ∧
      Forall2 (numeric_field st1) cs ws') as (st1 & Hparse & Hs1 & Hcs1).
    { destruct (numeric_field_after f c w sid t st c w Hc Hs ltac:(lia) Hc)
        as (st1 & Hparse & Hs1 & _).
      exists st1. split; [done|]. split; [done|].
      eapply Forall2_impl; [done|]. intros l w' Hl.
      destruct (numeric_field_after f c w sid t st l w' Hc Hs ltac:(lia) Hl)
        as (st1' & Hparse' & _ & Hl').
      rewrite Hparse in Hparse'. by simplify_eq. }
    cbn [accumulate]. rewrite (bind_ok _ _ _ _ _ Hparse).
    cbn [py_binop int_binop]. rewrite bind_lift_ok.
    destruct (IH ws' (acc + w)%Z st1 _ Hcs1 Hs1) as (st' & Hacc & Hs').
    { simpl.
      assert (String.length (str_drop (Z.to_nat w) (s_unread t)) =
              String.length (s_unread t) - Z.to_nat w) as ->; [|lia].
      clear. generalize (Z.to_nat w) as k. intros k. revert k.
      induction (s_unread t) as [|b r IHr]; intros [|k]; simpl; auto. }
    exists st'. rewrite Hacc. split; [do 3 f_equal; simpl; lia|].
    rewrite Hs'. simpl. rewrite str_drop_drop. do 3 f_equal. lia.
Qed.

Lemma Struct_parse_sums f s o ws sid t st :
  heap st !! s = Some o → o_cls o = C_Struct →
  Forall2 (numeric_field st) (o_children o) ws →
  streams st !! sid = Some t →
  (total ws ≤ Z.of_nat (String.length (s_unread t)))%Z →
  ∃ st',
    _pfp__parse (S (S f)) s (VStream sid) st = (Ok (VInt (total ws)), st') ∧
    streams st' !! sid =
      Some (mkStream (str_drop (Z.to_nat (total ws)) (s_unread t)) (s_written t)).
Proof.
  intros H Hcls Hall Hs Hlen.
  rewrite _pfp__parse_S, (bind_ok _ _ _ _ _ (get_obj_ok _ _ _ H)), Hcls.
  change (defining_class C_Struct "_pfp__parse") with (Some C_Struct).
  cbv beta iota. unfold Struct__pfp__parse.
  rewrite (bind_ok _ _ _ _ _ (get_obj_ok _ _ _ H)).
  by apply (accumulate_numbers f sid (o_children o) ws 0%Z st t).
Qed.

(** ** Lookup after a rebinding *)

(** The struct classes declare no data attribute. *)
Lemma struct_class_attr c name : is_struct c = true → class_attr c name = None.
Proof. by destruct c. Qed.

(** Through the attribute access [d.name] too, when the struct has no
    attribute of its own under that name. *)
Lemma lookup_after_rebinding s o name new st :
  heap st !! s = Some o → is_struct (o_cls o) = true →
  attr_of o name = None → beyond_scalars (o_cls o) name = false →
  let st' :=
    upd_heap s (set_children_map (<[name := new]> (o_children_map o)) o) st in
  py_getattr s name st' = (Ok (VField new), st').
Proof.
  intros H Hs Ha Hb st'.
  assert (H' : heap st' !! s = Some
            (set_children_map (<[name := new]> (o_children_map o)) o))
    by (by eapply heap_upd_same).
  unfold py_getattr. rewrite (bind_ok _ _ _ _ _ (get_obj_ok _ _ _ H')).
  unfold except_AttributeError, object___getattribute__.
  rewrite (bind_ok _ _ _ _ _ (get_obj_ok _ _ _ H')). simpl.
  unfold attr_of in Ha. destruct (o_dict o !! name); [done|].
  rewrite Ha, Hb. unfold raise.
  assert (defining_class (o_cls o) "__getattr__" = Some C_Struct) as ->
    by (by destruct (o_cls o)).
  unfold Struct___getattr__.
  rewrite (bind_ok _ _ _ _ _ (get_obj_ok _ _ _ H')). simpl.
  by rewrite lookup_insert_eq.
Qed.

(** An instance attribute of that name is found first, before and
    after the rebinding. *)
Lemma lookup_shadowed_after_rebinding s o name new v st :
  heap st !! s = Some o → o_dict o !! name = Some v →
  let st' :=
    upd_heap s (set_children_map (<[name := new]> (o_children_map o)) o) st in
  py_getattr s name st' = (Ok v, st').
Proof.
  intros H Hd st'.
  assert (H' : heap st' !! s = Some
            (set_children_map (<[name := new]> (o_children_map o)) o))
    by (by eapply heap_upd_same).
  unfold py_getattr. rewrite (bind_ok _ _ _ _ _ (get_obj_ok _ _ _ H')).
  unfold except_AttributeError, object___getattribute__.
  rewrite (bind_ok _ _ _ _ _ (get_obj_ok _ _ _ H')). simpl.
  by rewrite Hd.
Qed.

(** ** Parsing does not read a rebound name *)

Lemma py_getattr_attr_value l name o st :
  heap st !! l = Some o → py_getattr l name st = (attr_value o name, st).
Proof.
  intros H. unfold py_getattr, attr_value, attr_of.
  rewrite (bind_ok _ _ _ _ _ (get_obj_ok _ _ _ H)).
  unfold except_AttributeError, object___getattribute__.
  rewrite (bind_ok _ _ _ _ _ (get_obj_ok _ _ _ H)).
  destruct (o_dict o !! name) eqn:Ed; [done|].
  destruct (class_attr _ _) eqn:Ec; [done|].
  destruct (beyond_scalars _ _) eqn:Eb; [done|].
  unfold raise.
  destruct (defining_class (o_cls o) "__getattr__") as [[]|]; try done.
  - unfold Struct___getattr__.
    rewrite (bind_ok _ _ _ _ _ (get_obj_ok _ _ _ H)).
    destruct (o_children_map o !! name); [done|].
    unfold object___getattribute__.
    by rewrite (bind_ok _ _ _ _ _ (get_obj_ok _ _ _ H)), Ed, Ec, Eb.
  - unfold NumberBase___getattr__. by destruct (String.prefix _ _).
Qed.

Lemma get_obj_dangling l st :
  heap st !! l = None → get_obj l st = (Stuck BadRef, st).
Proof. unfold get_obj. by intros ->. Qed.

Section Rebinding.
Variables (s : loc) (name : string).

Local Abbreviation alike := (alike s name).
Local Abbreviation related := (related s name).
Local Abbreviation similar := (similar s name).

Lemma alike_lookup st1 st2 l o1 :
  alike st1 st2 → heap st1 !! l = Some o1 →
  ∃ o2, heap st2 !! l = Some o2 ∧ similar l o1 o2.
Proof. intros (_ & _ & _ & H) Hl. by apply H. Qed.

Lemma alike_lookup_None st1 st2 l :
  alike st1 st2 → heap st1 !! l = None → heap st2 !! l = None.
Proof.
  intros (_ & Hlen & _ & _) Hl. apply lookup_ge_None in Hl.
  apply lookup_ge_None. lia.
Qed.

Lemma alike_not_struct st1 st2 l o1 :
  alike st1 st2 → heap st1 !! l = Some o1 → is_struct (o_cls o1) = false →
  l ≠ s.
Proof. intros (_ & _ & (o & Ho & Hs) & _) Hl Hc ->. congruence. Qed.

Lemma alike_upd_stream st1 st2 sid t :
  alike st1 st2 → alike (upd_stream sid t st1) (upd_stream sid t st2).
Proof.
  intros (Hs & Hlen & Hst & H). repeat split; simpl; try done. by rewrite Hs.
Qed.

Lemma alike_upd_heap st1 st2 l o1 o1' o2' :
  alike st1 st2 → heap st1 !! l = Some o1 → o_cls o1' = o_cls o1 →
  similar l o1' o2' →
  alike (upd_heap l o1' st1) (upd_heap l o2' st2).
Proof.
  intros (Hs & Hlen & (o & Ho & Hst) & H) Hl Hc Hsim.
  pose proof (lookup_lt_Some _ _ _ Hl) as Hlt.
  repeat split; simpl; try done.
  - by rewrite !length_insert.
  - destruct (decide (l = s)) as [->|Hne].
    + exists o1'. rewrite list_lookup_insert_eq by done.
      split; [done|]. rewrite Hc. congruence.
    + exists o. by rewrite list_lookup_insert_ne.
  - intros l' o' Hl'. destruct (decide (l = l')) as [<-|Hne].
    + rewrite list_lookup_insert_eq in Hl' by done. injection Hl' as <-.
      exists o2'. split; [|done]. apply list_lookup_insert_eq. lia.
    + rewrite list_lookup_insert_ne in Hl' by done.
      rewrite list_lookup_insert_ne by done. by apply H.
Qed.

Lemma alike_alloc st1 st2 o :
  alike st1 st2 →
  alike (mkState (heap st1 ++ [o]) (streams st1))
        (mkState (heap st2 ++ [o]) (streams st2)).
Proof.
  intros (Hs & Hlen & (o' & Ho & Hst) & H). repeat split; simpl; try done.
  - rewrite !length_app. simpl. lia.
  - exists o'. split; [|done]. rewrite lookup_app_l; [done|].
    by eapply lookup_lt_Some.
  - intros l o1 Hl.
    destruct (decide (l < length (heap st1))) as [Hlt|Hge].
    + rewrite lookup_app_l in Hl by done. rewrite lookup_app_l by lia.
      by apply H.
    + rewrite lookup_app_r in Hl by lia. rewrite lookup_app_r by lia.
      rewrite <- Hlen. exists o1. split; [done|].
      by repeat split.
Qed.

Lemma related_result {A} (r : res A) st1 st2 :
  alike st1 st2 → related (r, st1) (r, st2).
Proof. by split. Qed.

Lemma related_bind {A B} (m1 m2 : M A) (k : A → M B) st1 st2 :
  related (m1 st1) (m2 st2) →
  (∀ a s1 s2, alike s1 s2 → related (k a s1) (k a s2)) →
  related (bind m1 k st1) (bind m2 k st2).
Proof.
  intros [Hr Hal] Hk. unfold bind.
  destruct (m1 st1) as [r1 s1], (m2 st2) as [r2 s2]. simpl in *. subst r2.
  destruct r1; [by apply Hk|by split..].
Qed.

Lemma related_get_obj {B} l (k1 k2 : obj → M B) st1 st2 :
  alike st1 st2 →
  (∀ o1 o2, heap st1 !! l = Some o1 → heap st2 !! l = Some o2 →
            similar l o1 o2 → related (k1 o1 st1) (k2 o2 st2)) →
  related (bind (get_obj l) k1 st1) (bind (get_obj l) k2 st2).
Proof.
  intros Hal Hk. destruct (heap st1 !! l) as [o1|] eqn:H1.
  - destruct (alike_lookup _ _ _ _ Hal H1) as (o2 & H2 & Hsim).
    rewrite (bind_ok _ _ _ _ _ (get_obj_ok _ _ _ H1)).
    rewrite (bind_ok _ _ _ _ _ (get_obj_ok _ _ _ H2)). by apply Hk.
  - pose proof (alike_lookup_None _ _ _ Hal H1) as H2.
    rewrite (bind_stuck _ _ _ _ _ (get_obj_dangling _ _ H1)).
    rewrite (bind_stuck _ _ _ _ _ (get_obj_dangling _ _ H2)). by split.
Qed.

Lemma related_modify_obj l (f1 f2 : obj → obj) st1 st2 :
  alike st1 st2 →
  (∀ o1 o2, similar l o1 o2 →
            o_cls (f1 o1) = o_cls o1 ∧ similar l (f1 o1) (f2 o2)) →
  related (modify_obj l f1 st1) (modify_obj l f2 st2).
Proof.
  intros Hal Hf. unfold modify_obj. apply related_get_obj; [done|].
  intros o1 o2 H1 H2 Hsim. destruct (Hf _ _ Hsim) as [Hc Hsim'].
  split; [done|]. by eapply alike_upd_heap.
Qed.

Lemma similar_same_index l o1 o2 (f : obj → obj) :
  (∀ o, o_cls (f o) = o_cls o ∧ o_children (f o) = o_children o ∧
        o_children_map (f o) = o_children_map o) →
  o_dict (f o1) = o_dict (f o2) → o_items (f o1) = o_items (f o2) →
  similar l o1 o2 → similar l (f o1) (f o2).
Proof.
  intros Hf Hd Hi (Hc & _ & Hch & _ & Hm & Hs).
  destruct (Hf o1) as (Hc1 & Hch1 & Hm1), (Hf o2) as (Hc2 & Hch2 & Hm2).
  split; [congruence|]. split; [done|]. split; [congruence|]. split; [done|].
  rewrite Hm1, Hm2. by split.
Qed.

Lemma related_object_setattr l n v st1 st2 :
  alike st1 st2 →
  related (object___setattr__ l n v st1) (object___setattr__ l n v st2).
Proof.
  intros Hal. unfold object___setattr__.
  destruct (bool_decide _); [by split|].
  apply related_modify_obj; [done|].
  intros o1 o2 Hsim. split; [done|].
  apply (similar_same_index l o1 o2
           (λ o, set_dict (<[n := v]> (o_dict o)) o)); [done| |apply Hsim|done].
  simpl. f_equal. apply Hsim.
Qed.

Lemma attr_value_similar l n o1 o2 :
  similar l o1 o2 → l ≠ s ∨ n ≠ name → attr_value o1 n = attr_value o2 n.
Proof.
  intros (Hc & Hd & _ & _ & Hm & _) Hn. unfold attr_value, attr_of.
  by rewrite Hc, Hd, (Hm n Hn).
Qed.

Lemma py_getattr_dangling l n st :
  heap st !! l = None → py_getattr l n st = (Stuck BadRef, st).
Proof.
  intros H. unfold py_getattr.
  by rewrite (bind_stuck _ _ _ _ _ (get_obj_dangling _ _ H)).
Qed.

Lemma related_py_getattr l n st1 st2 :
  alike st1 st2 → l ≠ s ∨ n ≠ name →
  related (py_getattr l n st1) (py_getattr l n st2).
Proof.
  intros Hal Hn. destruct (heap st1 !! l) as [o1|] eqn:H1.
  - destruct (alike_lookup _ _ _ _ Hal H1) as (o2 & H2 & Hsim).
    rewrite (py_getattr_attr_value _ _ _ _ H1), (py_getattr_attr_value _ _ _ _ H2).
    rewrite (attr_value_similar _ _ _ _ Hsim Hn). by split.
  - pose proof (alike_lookup_None _ _ _ Hal H1) as H2.
    rewrite (py_getattr_dangling _ _ _ H1), (py_getattr_dangling _ _ _ H2).
    by split.
Qed.

(** The attribute read leaves the store as it is, so what follows it
    runs on the same two stores. *)
Lemma related_getattr_bind {B} l n (k : PyVal → M B) st1 st2 :
  alike st1 st2 → l ≠ s ∨ n ≠ name →
  (∀ v, related (k v st1) (k v st2)) →
  related (bind (py_getattr l n) k st1) (bind (py_getattr l n) k st2).
Proof.
  intros Hal Hn Hk. destruct (heap st1 !! l) as [o1|] eqn:H1.
  - destruct (alike_lookup _ _ _ _ Hal H1) as (o2 & H2 & Hsim).
    rewrite (bind_pure _ _ _ _ (py_getattr_attr_value _ n _ _ H1)).
    rewrite (bind_pure _ _ _ _ (py_getattr_attr_value _ n _ _ H2)).
    rewrite (attr_value_similar _ _ _ _ Hsim Hn).
    destruct (attr_value o2 n); [apply Hk|by split..].
  - pose proof (alike_lookup_None _ _ _ Hal H1) as H2.
    rewrite (bind_stuck _ _ _ _ _ (py_getattr_dangling _ n _ H1)).
    rewrite (bind_stuck _ _ _ _ _ (py_getattr_dangling _ n _ H2)). by split.
Qed.

(** An assignment to a name that the index of the object does not
    hold, on an object other than the struct at [s]. *)
Lemma related_py_setattr_unindexed fuel l n v o1 st1 st2 :
  alike st1 st2 → l ≠ s →
  heap st1 !! l = Some o1 → o_children_map o1 !! n = None →
  related (py_setattr fuel l n v st1) (py_setattr fuel l n v st2).
Proof.
  intros Hal Hl H1 Hn. destruct fuel as [|f]; [by split|].
  destruct (alike_lookup _ _ _ _ Hal H1) as (o2 & H2 & Hsim).
  assert (Hc : o_cls o1 = o_cls o2) by apply Hsim.
  assert (Hn2 : o_children_map o2 !! n = None).
  { destruct Hsim as (_ & _ & _ & _ & Hm & _). rewrite <- Hm; auto. }
  rewrite !py_setattr_S.
  rewrite (bind_ok _ _ _ _ _ (get_obj_ok _ _ _ H1)).
  rewrite (bind_ok _ _ _ _ _ (get_obj_ok _ _ _ H2)). rewrite <- Hc.
  destruct (defining_class (o_cls o1) "__setattr__") as [[]|];
    try (by apply related_object_setattr).
  apply related_bind; [|intros; by apply related_result].
  unfold Struct___setattr__.
  rewrite (bind_ok _ _ _ _ _ (get_obj_ok _ _ _ H1)).
  rewrite (bind_ok _ _ _ _ _ (get_obj_ok _ _ _ H2)). rewrite Hn, Hn2.
  apply related_bind; [by apply related_object_setattr|].
  intros; by apply related_result.
Qed.

Lemma related_stream_method stream n st1 st2 :
  alike st1 st2 →
  related (stream_method stream n st1) (stream_method stream n st2).
Proof. intros Hal. destruct stream; by split. Qed.

Lemma related_stream_read sid n st1 st2 :
  alike st1 st2 → related (stream_read sid n st1) (stream_read sid n st2).
Proof.
  intros Hal. unfold stream_read. destruct n; try (by split).
  assert (Hs : streams st1 = streams st2) by apply Hal.
  destruct st1 as [h1 ss1], st2 as [h2 ss2]. simpl in Hs. subst ss2. simpl.
  destruct (ss1 !! sid); [|by split].
  split; [done|]. by apply (alike_upd_stream (mkState h1 ss1) (mkState h2 ss1)).
Qed.

Lemma related_unread_length stream st1 st2 :
  alike st1 st2 → related (unread_length stream st1) (unread_length stream st2).
Proof.
  intros Hal. unfold unread_length.
  assert (Hs : streams st1 = streams st2) by apply Hal. rewrite <- Hs.
  destruct stream; try (by split). by destruct (streams st1 !! sid).
Qed.

Lemma related_NumberBase_parse l stream st1 st2 :
  alike st1 st2 → l ≠ s →
  related (NumberBase__pfp__parse l stream st1) (NumberBase__pfp__parse l stream st2).
Proof.
  intros Hal Hl. unfold NumberBase__pfp__parse.
  apply related_bind; [by apply related_stream_method|]. intros read s1 s2 H1.
  apply related_bind; [apply related_py_getattr; auto|]. intros width s3 s4 H2.
  apply related_bind; [by apply related_stream_read|]. intros data s5 s6 H3.
  apply related_bind; [apply related_py_getattr; auto|]. intros width' s7 s8 H4.
  apply related_bind; [by apply related_result|]. intros short s9 s10 H5.
  destruct short; [by apply related_result|].
  apply related_bind; [by apply related_object_setattr|]. intros _ s11 s12 H6.
  apply related_bind; [apply related_py_getattr; auto|]. intros endian s13 s14 H7.
  apply related_bind; [apply related_py_getattr; auto|]. intros format s15 s16 H8.
  apply related_bind; [by apply related_result|]. intros fmt s17 s18 H9.
  apply related_bind; [by apply related_result|]. intros value s19 s20 H10.
  apply related_bind; [by apply related_object_setattr|]. intros _ s21 s22 H11.
  apply related_py_getattr; auto.
Qed.

Lemma related_String_read_loop l stream fuel :
  l ≠ s → ∀ acc st1 st2, alike st1 st2 →
  related (String_read_loop fuel l stream acc st1)
          (String_read_loop fuel l stream acc st2).
Proof.
  intros Hl. induction fuel as [|f IH]; intros acc st1 st2 Hal; [by split|].
  cbn [String_read_loop].
  apply related_bind; [by apply related_stream_method|]. intros read s1 s2 H1.
  apply related_bind; [apply related_py_getattr; auto|]. intros size s3 s4 H2.
  apply related_bind; [by apply related_stream_read|]. intros byte s5 s6 H3.
  apply related_bind; [apply related_py_getattr; auto|]. intros size' s7 s8 H4.
  apply related_bind; [by apply related_result|]. intros short s9 s10 H5.
  destruct short; [by apply related_result|].
  apply related_bind; [apply related_py_getattr; auto|]. intros term s11 s12 H6.
  apply related_bind; [by apply related_result|]. intros found s13 s14 H7.
  destruct found; [by apply related_result|]. by apply IH.
Qed.

Lemma related_String_parse l stream st1 st2 :
  alike st1 st2 → l ≠ s →
  related (String__pfp__parse l stream st1) (String__pfp__parse l stream st2).
Proof.
  intros Hal Hl. unfold String__pfp__parse.
  apply related_bind; [by apply related_unread_length|]. intros n s1 s2 H1.
  apply related_bind; [by apply related_String_read_loop|]. intros r s3 s4 H2.
  apply related_bind; [by apply related_object_setattr|]. intros _ s5 s6 H3.
  by apply related_result.
Qed.

Lemma related_WString_parse l stream st1 st2 :
  alike st1 st2 → l ≠ s →
  related (WString__pfp__parse l stream st1) (WString__pfp__parse l stream st2).
Proof.
  intros Hal Hl. unfold WString__pfp__parse.
  apply related_bind; [by apply related_String_parse|]. intros _ s1 s2 H1.
  apply related_bind; [apply related_py_getattr; auto|]. intros v s3 s4 H2.
  apply related_bind; [by apply related_result|]. intros u s5 s6 H3.
  apply related_bind; [by apply related_object_setattr|]. intros _ s7 s8 H4.
  by apply related_result.
Qed.

Lemma related_accumulate (method : loc → PyVal → M PyVal) children stream :
  (∀ l st1 st2, alike st1 st2 →
     related (method l stream st1) (method l stream st2)) →
  ∀ res st1 st2, alike st1 st2 →
    related (accumulate method children stream res st1)
            (accumulate method children stream res st2).
Proof.
  intros Hm. induction children as [|c cs IH]; intros res st1 st2 Hal;
    [by apply related_result|].
  cbn [accumulate].
  apply related_bind; [by apply Hm|]. intros r s1 s2 H1.
  apply related_bind; [by apply related_result|]. intros res' s3 s4 H2.
  by apply IH.
Qed.

(** The count of an array, [range(PYVAL(self.width))]: when the width
    is the struct at [s] itself and [name] is [_pfp__value], the two
    stores yield different fields, and [range] takes neither. *)
Lemma related_count {B} width (k : nat → M B) st1 st2 :
  alike st1 st2 →
  (∀ c s1 s2, alike s1 s2 → related (k c s1) (k c s2)) →
  related ((let* n := PYVAL width in
            let* count := lift_res (py_range n) in k count) st1)
          ((let* n := PYVAL width in
            let* count := lift_res (py_range n) in k count) st2).
Proof.
  intros Hal Hk.
  assert (Hrange : ∀ n s1 s2, alike s1 s2 →
            related ((let* count := lift_res (py_range n) in k count) s1)
                    ((let* count := lift_res (py_range n) in k count) s2)).
  { intros n s1 s2 H. apply related_bind; [by apply related_result|].
    intros; by apply Hk. }
  unfold PYVAL, get_value.
  destruct width as [| | | | |w| |];
    try (apply related_bind; [by apply related_result|]; intros; by apply Hrange).
  destruct (decide (w = s)) as [->|Hw];
    [|apply related_bind; [apply related_py_getattr; auto|intros; by apply Hrange]].
  destruct (decide ("_pfp__value" = name)) as [Hn|Hn];
    [|apply related_bind; [apply related_py_getattr; auto|intros; by apply Hrange]].
  pose proof Hal as (_ & _ & (o1 & H1 & Hst) & _).
  destruct (alike_lookup _ _ _ _ Hal H1) as (o2 & H2 & Hc & Hd & _ & _ & _ & Hsome).
  rewrite <- Hn in Hsome.
  rewrite (bind_pure _ _ _ _ (py_getattr_attr_value _ "_pfp__value" _ _ H1)).
  rewrite (bind_pure _ _ _ _ (py_getattr_attr_value _ "_pfp__value" _ _ H2)).
  unfold attr_value, attr_of. rewrite <- Hc, <- Hd.
  destruct (o_dict o1 !! "_pfp__value"); [by apply Hrange|].
  destruct (class_attr (o_cls o1) "_pfp__value"); [by apply Hrange|].
  destruct (beyond_scalars (o_cls o1) "_pfp__value"); [by split|].
  assert (defining_class (o_cls o1) "__getattr__" = Some C_Struct) as ->
    by (by destruct (o_cls o1)).
  destruct (o_children_map o1 !! "_pfp__value") as [c1|],
           (o_children_map o2 !! "_pfp__value") as [c2|]; try (by split).
  - destruct Hsome as [Hsome _]. by destruct Hsome.
  - destruct Hsome as [_ Hsome]. by destruct Hsome.
Qed.

Section WithParse.
Variable parse : loc → PyVal → M PyVal.
Hypothesis related_parse :
  ∀ l stream st1 st2, alike st1 st2 →
    related (parse l stream st1) (parse l stream st2).

(** [self.field_cls()] runs alike on the two stores. *)
Lemma related_call0 fuel cls st1 st2 :
  alike st1 st2 →
  related (call0 fuel parse (Array___init__ parse) cls st1)
          (call0 fuel parse (Array___init__ parse) cls st2).
Proof.
  intros Hal. assert (Hlen : length (heap st1) = length (heap st2)) by apply Hal.
  destruct cls as [| | | | | | |c]; try (by apply related_result).
  unfold call0. destruct (decide (c = C_Array)) as [->|Hc].
  - rewrite !construct_Array_no_args. split; [done|by apply alike_alloc].
  - destruct fuel as [|f].
    + rewrite !construct_no_fuel by done. split; [done|by apply alike_alloc].
    + rewrite !construct_no_args by done.
      split; [simpl; by rewrite Hlen|by apply alike_alloc].
Qed.

(** The object it returns is a new one, and its name index is empty. *)
Lemma call0_new fuel cls st1 st2 field :
  alike st1 st2 →
  (call0 fuel parse (Array___init__ parse) cls st1).1 = Ok field →
  field ≠ s ∧
  ∃ o, heap (call0 fuel parse (Array___init__ parse) cls st1).2 !! field = Some o ∧
       o_children_map o = ∅.
Proof.
  intros (_ & _ & (o & Ho & _) & _). apply lookup_lt_Some in Ho.
  destruct cls as [| | | | | | |c]; try done.
  unfold call0. destruct (decide (c = C_Array)) as [->|Hc].
  { by rewrite construct_Array_no_args. }
  destruct fuel as [|f]; [by rewrite construct_no_fuel|].
  rewrite construct_no_args by done. simpl. intros [= <-].
  split; [lia|]. eexists. split; [apply lookup_new|done].
Qed.

Lemma related_bind_with {A B} (P : A → state → Prop) (m1 m2 : M A)
    (k : A → M B) st1 st2 :
  related (m1 st1) (m2 st2) →
  (∀ a, (m1 st1).1 = Ok a → P a (m1 st1).2) →
  (∀ a s1 s2, alike s1 s2 → P a s1 → related (k a s1) (k a s2)) →
  related (bind m1 k st1) (bind m2 k st2).
Proof.
  intros [Hr Hal] HP Hk. unfold bind.
  destruct (m1 st1) as [r1 s1], (m2 st2) as [r2 s2]. simpl in *. subst r2.
  destruct r1; [apply Hk; [done|by apply HP]|by split..].
Qed.

Lemma related_Array_parse_loop fuel a stream count :
  a ≠ s → ∀ x st1 st2, alike st1 st2 →
  related (Array_parse_loop fuel parse count x a stream st1)
          (Array_parse_loop fuel parse count x a stream st2).
Proof.
  intros Ha. induction count as [|n IH]; intros x st1 st2 Hal;
    [by apply related_result|].
  cbn [Array_parse_loop].
  apply related_bind; [apply related_py_getattr; auto|]. intros cls s1 s2 H1.
  apply (related_bind_with
           (λ field st, field ≠ s ∧
              ∃ o, heap st !! field = Some o ∧ o_children_map o = ∅));
    [by apply related_call0|intros field; by apply (call0_new _ _ s1 s2)|].
  intros field s3 s4 H2 (Hf & o & Ho & Hi).
  apply related_getattr_bind; [done|auto|]. intros nm.
  destruct (format_index nm (VInt x)) as [str|e|r]; [|by split..].
  rewrite !bind_lift_ok.
  apply related_bind.
  { eapply related_py_setattr_unindexed; [done..|]. by rewrite Hi. }
  intros _ s9 s10 H5.
  apply related_bind; [by apply related_parse|]. intros _ s11 s12 H6.
  apply related_bind.
  { apply related_modify_obj; [done|].
    intros o1 o2 Hsim. split; [done|].
    apply (similar_same_index a o1 o2
             (λ o, set_items (o_items o ++ [field]) o)); [done|apply Hsim| |done].
    simpl. f_equal. apply Hsim. }
  intros _ s13 s14 H7. by apply IH.
Qed.

Lemma related_Array_parse fuel a stream st1 st2 :
  alike st1 st2 → a ≠ s →
  related (Array__pfp__parse fuel parse a stream st1)
          (Array__pfp__parse fuel parse a stream st2).
Proof.
  intros Hal Ha. unfold Array__pfp__parse.
  apply related_bind.
  { apply related_modify_obj; [done|].
    intros o1 o2 Hsim. split; [done|].
    apply (similar_same_index a o1 o2 (set_items [])); [done|apply Hsim|done|done]. }
  intros _ s1 s2 H1.
  apply related_bind; [apply related_py_getattr; auto|]. intros width s3 s4 H2.
  apply related_count; [done|]. intros count s5 s6 H3.
  apply related_bind; [by apply related_Array_parse_loop|]. intros _ s9 s10 H5.
  by apply related_result.
Qed.

End WithParse.

(** Two states that differ at most in what one struct's name index
    holds for [name] are parsed alike: same result, and states that
    again differ at most in that binding. *)
Lemma related_parse fuel :
  ∀ l stream st1 st2, alike st1 st2 →
    related (_pfp__parse fuel l stream st1) (_pfp__parse fuel l stream st2).
Proof.
  induction fuel as [|f IH]; intros l stream st1 st2 Hal; [by split|].
  rewrite !_pfp__parse_S. apply related_get_obj; [done|].
  intros o1 o2 H1 H2 Hsim.
  assert (Hc : o_cls o1 = o_cls o2) by apply Hsim. rewrite <- Hc.
  destruct (defining_class (o_cls o1) "_pfp__parse") as [k|] eqn:Ek;
    [|by apply related_result].
  assert (k ≠ C_Struct → l ≠ s) as Hns.
  { intros Hk. eapply alike_not_struct; [done..|].
    clear -Ek Hk. destruct (o_cls o1); try done; vm_compute in Ek; congruence. }
  destruct k; try (by apply related_result).
  - unfold Struct__pfp__parse. apply related_get_obj; [done|].
    intros o1' o2' H1' H2' Hsim'. simplify_eq.
    assert (Hch : o_children o1 = o_children o2) by apply Hsim. rewrite <- Hch.
    apply related_accumulate; [|done]. intros. by apply IH.
  - by apply related_NumberBase_parse; [|apply Hns].
  - by apply related_Array_parse; [| |apply Hns].
  - by apply related_String_parse; [|apply Hns].
  - by apply related_WString_parse; [|apply Hns].
Qed.

End Rebinding.

(** ** Rebinding a name to a field *)

Lemma alike_rebind s o name old new st :
  heap st !! s = Some o → is_struct (o_cls o) = true →
  o_children_map o !! name = Some old →
  alike s name
    (upd_heap s (set_children_map (<[name := new]> (o_children_map o)) o) st) st.
Proof.
  intros H Hs Hm. pose proof (lookup_lt_Some _ _ _ H) as Hlt.
  split; [done|]. split; [simpl; by rewrite length_insert|]. split.
  { eexists. split; [by apply list_lookup_insert_eq|done]. }
  intros l o1 Hl. simpl in Hl. destruct (decide (s = l)) as [<-|Hne].
  - rewrite list_lookup_insert_eq in Hl by done. injection Hl as <-.
    exists o. split; [done|]. do 4 (split; [done|]). simpl. split.
    + intros k [?|Hk]; [done|]. by rewrite lookup_insert_ne.
    + rewrite lookup_insert_eq, Hm. by split.
  - rewrite list_lookup_insert_ne in Hl by done.
    exists o1. split; [done|]. by repeat split.
Qed.

Lemma alike_stored_value s name st1 st2 l :
  alike s name st1 st2 → stored_value l st1 = stored_value l st2.
Proof.
  intros Hal. unfold stored_value.
  destruct (heap st1 !! l) as [o1|] eqn:H1.
  - destruct Hal as (_ & _ & _ & H).
    destruct (H _ _ H1) as (o2 & -> & _ & Hd & _). simpl. by rewrite Hd.
  - by rewrite (alike_lookup_None _ _ _ _ _ Hal H1).
Qed.

(** A name assigned before a child is attached under it: after the
    rebinding [d.x = b] the index holds [b] under ["x"] and the child
    list still holds [a] alone, while the expression [d.x] yields the
    attribute 1, not [b]. *)
Lemma shadowed_name_reads_the_attribute :
  lookup_of_shadowed_name.1 = Ok (VInt 1) ∧
  (heap lookup_of_shadowed_name.2 !! 0 ≫= λ d, o_children_map d !! "x") = Some 2 ∧
  (o_children <$> heap lookup_of_shadowed_name.2 !! 0) = Some [1].
Proof. by vm_compute. Qed.

(** C3: assigning a field to an indexed name of a struct replaces
    the binding in the name index and nothing else.  The child list
    is the same, so [_pfp__build] returns and writes what it did
    before the assignment, and [_pfp__parse] runs over the children
    attached originally, with the same result, the same bytes
    consumed and the same values stored, whatever the name.  The
    expression [d.name] then yields the new field when the struct
    has no instance attribute of that name (and the name is not one
    of a method or a container attribute); an instance attribute of
    that name is found before [__getattr__] runs, and [d.name] still
    yields it.  [__getattr__] itself, once reached, yields the new
    field. *)
Theorem field_assignment_rebinds_index_only (fuel : nat) (s old new : loc)
    (o : obj) (name : string) (st : state) :
  heap st !! s = Some o → is_struct (o_cls o) = true →
  o_children_map o !! name = Some old →
  let st' :=
    upd_heap s (set_children_map (<[name := new]> (o_children_map o)) o) st in
  py_setattr (S fuel) s name (VField new) st = (Ok tt, st') ∧
  (o_children <$> heap st' !! s) = Some (o_children o) ∧
  (o_dict o !! name = None → beyond_scalars (o_cls o) name = false →
   py_getattr s name st' = (Ok (VField new), st')) ∧
  (∀ v, o_dict o !! name = Some v → py_getattr s name st' = (Ok v, st')) ∧
  Struct___getattr__ s name st' = (Ok (VField new), st') ∧
  (∀ f stream,
     (_pfp__build f s stream st').1 = (_pfp__build f s stream st).1 ∧
     streams (_pfp__build f s stream st').2 = streams (_pfp__build f s stream st).2) ∧
  (∀ parse stream,
     Struct__pfp__parse parse s stream st' =
       accumulate parse (o_children o) stream (VInt 0) st') ∧
  (∀ f stream,
     (_pfp__parse f s stream st').1 = (_pfp__parse f s stream st).1 ∧
     streams (_pfp__parse f s stream st').2 = streams (_pfp__parse f s stream st).2 ∧
     ∀ l, stored_value l (_pfp__parse f s stream st').2 =
          stored_value l (_pfp__parse f s stream st).2).
Proof.
  intros H Hs Hm st'.
  assert (H' : heap st' !! s = Some
            (set_children_map (<[name := new]> (o_children_map o)) o))
    by (by eapply heap_upd_same).
  split; [|split; [|split; [|split; [|split; [|split; [|split]]]]]].
  - eapply py_setattr_struct; [done..|]. by eapply Struct_setattr_rebind.
  - by rewrite H'.
  - intros Hd Hb. apply lookup_after_rebinding; [done..| |done].
    unfold attr_of. rewrite Hd. by apply struct_class_attr.
  - intros v Hd. by apply lookup_shadowed_after_rebinding.
  - unfold Struct___getattr__.
    rewrite (bind_ok _ _ _ _ _ (get_obj_ok _ _ _ H')). simpl.
    by rewrite lookup_insert_eq.
  - intros f stream.
    destruct (build_agree f s stream st' st (erase_rebind _ _ _ _ H)) as [Hr He].
    split; [done|]. by apply erase_streams.
  - intros parse stream. unfold Struct__pfp__parse.
    by rewrite (bind_ok _ _ _ _ _ (get_obj_ok _ _ _ H')).
  - intros f stream.
    destruct (related_parse s name f s stream st' st
                (alike_rebind _ _ _ _ _ _ H Hs Hm)) as [Hr Hal].
    split; [done|]. split; [apply Hal|].
    intros l. by eapply alike_stored_value.
Qed.

Lemma field_assignment_rebinds_index_only_witness :
  let st' :=
    upd_heap 0 (set_children_map (<["x" := 2]> (o_children_map member_struct))
                  member_struct) member_state in
  py_setattr 1 0 "x" (VField 2) member_state = (Ok tt, st') ∧
  (o_children <$> heap st' !! 0) = Some (o_children member_struct) ∧
  py_getattr 0 "x" st' = (Ok (VField 2), st') ∧
  Struct___getattr__ 0 "x" st' = (Ok (VField 2), st') ∧
  (∀ f stream,
     (_pfp__build f 0 stream st').1 = (_pfp__build f 0 stream member_state).1 ∧
     streams (_pfp__build f 0 stream st').2 =
       streams (_pfp__build f 0 stream member_state).2) ∧
  (∀ parse stream,
     Struct__pfp__parse parse 0 stream st' =
       accumulate parse (o_children member_struct) stream (VInt 0) st') ∧
  (∀ f stream,
     (_pfp__parse f 0 stream st').1 = (_pfp__parse f 0 stream member_state).1 ∧
     streams (_pfp__parse f 0 stream st').2 =
       streams (_pfp__parse f 0 stream member_state).2 ∧
     ∀ l, stored_value l (_pfp__parse f 0 stream st').2 =
          stored_value l (_pfp__parse f 0 stream member_state).2).
Proof.
  intros st'.
  destruct (field_assignment_rebinds_index_only 0 0 1 2 member_struct "x"
              member_state eq_refl eq_refl eq_refl)
    as (H1 & H2 & H3 & _ & H5 & H6 & H7 & H8).
  split; [exact H1|]. split; [exact H2|].
  split; [exact (H3 eq_refl eq_refl)|]. split; [exact H5|].
  split; [exact H6|]. split; [exact H7|]. exact H8.
Defined.

(** After [d.x = y], with [y] holding 9, the struct still builds the
    bytes of the child attached as [x], which holds 5. *)
Example build_after_rebinding :
  (let* _ := py_setattr 1 0 "x" (VField 2) in
   _pfp__build 2 0 VNone) member_state
  = (Ok (VStr (bytes [0; 0; 0; 5]%Z)),
     upd_heap 0 (set_children_map {["x" := 2]} member_struct) member_state).
Proof. by vm_compute. Qed.

(** * Further properties *)

(** ** The loop over the children *)

Lemma accumulate_app (method : loc → PyVal → M PyVal) xs ys stream :
  ∀ acc st,
    accumulate method (xs ++ ys) stream acc st =
      (let* r := accumulate method xs stream acc in
       accumulate method ys stream r) st.
Proof.
  induction xs as [|x xs IH]; intros acc st; [done|].
  simpl. unfold bind, lift_res.
  destruct (method x stream st) as [[r| |] st1]; [|done..].
  destruct (py_binop Add acc r); [|done..].
  by rewrite IH.
Qed.

Lemma accumulate_strings (method : loc → PyVal → M PyVal) cs ds st :
  Forall2 (λ c d, method c VNone st = (Ok (VStr d), st)) cs ds →
  ∀ acc, accumulate method cs VNone (VStr acc) st =
           (Ok (VStr (acc +:+ str_concat ds)), st).
Proof.
  induction 1 as [|c d cs ds Hc _ IH]; intros acc; simpl.
  - by rewrite str_app_nil_r.
  - rewrite (bind_ok _ _ _ _ _ Hc). simpl. rewrite bind_lift_ok, IH.
    by rewrite str_app_assoc.
Qed.

Lemma struct_build_method c :
  is_struct c = true → defining_class c "_pfp__build" = Some C_Struct.
Proof. by destruct c. Qed.

Lemma struct_parse_method c :
  is_struct c = true → defining_class c "_pfp__parse" = Some C_Struct.
Proof. by destruct c. Qed.

(** X1: built without a sink, a struct returns the bytes of its
    children joined in the order of the child sequence. *)
Theorem Struct_build_concatenates (fuel : nat) (s : loc) (o : obj)
    (ds : list string) (st : state) :
  heap st !! s = Some o → is_struct (o_cls o) = true →
  Forall2 (λ c d, _pfp__build fuel c VNone st = (Ok (VStr d), st))
          (o_children o) ds →
  _pfp__build (S fuel) s VNone st = (Ok (VStr (str_concat ds)), st).
Proof.
  intros H Hs Hall. rewrite _pfp__build_S.
  rewrite (bind_ok _ _ _ _ _ (get_obj_ok _ _ _ H)).
  rewrite (struct_build_method _ Hs). unfold Struct__pfp__build.
  rewrite (bind_ok _ _ _ _ _ (get_obj_ok _ _ _ H)).
  by rewrite (accumulate_strings _ _ _ _ Hall), str_app_nil_l.
Qed.

Lemma Struct_build_concatenates_witness :
  _pfp__build 2 0 VNone pair_state =
    (Ok (VStr (str_concat [bytes [1]%Z; bytes [2]%Z])), pair_state).
Proof.
  apply (Struct_build_concatenates 1 0 pair_struct [bytes [1]%Z; bytes [2]%Z]
           pair_state); [reflexivity | reflexivity |].
  repeat constructor.
Defined.

(** X2: built without a sink, an array returns the bytes of its
    items joined in index order. *)
Theorem Array_build_concatenates (fuel : nat) (a : loc) (o : obj)
    (ds : list string) (st : state) :
  heap st !! a = Some o → o_cls o = C_Array →
  Forall2 (λ c d, _pfp__build fuel c VNone st = (Ok (VStr d), st))
          (o_items o) ds →
  _pfp__build (S fuel) a VNone st = (Ok (VStr (str_concat ds)), st).
Proof.
  intros H Hc Hall. rewrite _pfp__build_S.
  rewrite (bind_ok _ _ _ _ _ (get_obj_ok _ _ _ H)), Hc.
  change (defining_class C_Array "_pfp__build") with (Some C_Array).
  cbv beta iota. unfold Array__pfp__build.
  rewrite (bind_ok _ _ _ _ _ (get_obj_ok _ _ _ H)).
  by rewrite (accumulate_strings _ _ _ _ Hall), str_app_nil_l.
Qed.

Lemma Array_build_concatenates_witness :
  let st := mkState [set_items [1; 1] (new_obj C_Array);
                     with_attr "_pfp__value" (VInt 258) (new_obj C_UShort)] [] in
  _pfp__build 2 0 VNone st =
    (Ok (VStr (str_concat [bytes [1; 2]%Z; bytes [1; 2]%Z])), st).
Proof.
  intros st.
  apply (Array_build_concatenates 1 0 (set_items [1; 1] (new_obj C_Array))
           [bytes [1; 2]%Z; bytes [1; 2]%Z] st); [reflexivity | reflexivity |].
  repeat constructor.
Defined.

(** ** Attaching and finding children *)

(** X3: [_pfp__add_child] appends the child to the child sequence,
    stamps it with the name and binds the name to it in the index,
    whatever the name was bound to before; the other objects and the
    streams stay as they are. *)
Theorem add_child_binds_name (fuel : nat) (s child : loc) (o oc : obj)
    (name : string) (st : state) :
  heap st !! s = Some o → is_struct (o_cls o) = true →
  heap st !! child = Some oc →
  (is_struct (o_cls oc) = true → o_children_map oc !! "_pfp__name" = None) →
  ∃ st', Struct__pfp__add_child (S fuel) s name child st = (Ok tt, st') ∧
    (∃ o', heap st' !! s = Some o' ∧ o_cls o' = o_cls o ∧
           o_children o' = o_children o ++ [child] ∧
           o_children_map o' = <[name := child]> (o_children_map o)) ∧
    (heap st' !! child ≫= λ oc', o_dict oc' !! "_pfp__name") = Some (VStr name) ∧
    Struct___getattr__ s name st' = (Ok (VField child), st') ∧
    streams st' = streams st ∧
    (∀ l, l ≠ s → l ≠ child → heap st' !! l = heap st !! l).
Proof.
  intros H Hs Hc Hoc. unfold Struct__pfp__add_child.
  rewrite (bind_ok _ _ _ _ _ (modify_obj_ok _ _ _ _ H)).
  set (o1 := set_children _ o). set (st1 := upd_heap s o1 st).
  assert (H1 : heap st1 !! s = Some o1) by (by eapply heap_upd_same).
  assert (Hget : ∀ st' o', heap st' !! s = Some o' →
            o_children_map o' !! name = Some child →
            Struct___getattr__ s name st' = (Ok (VField child), st')).
  { intros st' o' H' Hm. unfold Struct___getattr__.
    rewrite (bind_ok _ _ _ _ _ (get_obj_ok _ _ _ H')). by rewrite Hm. }
  destruct (decide (child = s)) as [->|Hne].
  - assert (oc = o) as -> by congruence.
    erewrite (bind_ok (py_setattr _ _ _ _));
      [|apply py_setattr_unindexed; [done|done|name_solver]].
    set (o2 := with_attr _ _ o1). set (st2 := upd_heap s o2 st1).
    assert (H2 : heap st2 !! s = Some o2) by (by eapply heap_upd_same).
    rewrite (modify_obj_ok _ _ _ _ H2).
    set (o3 := set_children_map _ o2).
    assert (H3 : heap (upd_heap s o3 st2) !! s = Some o3) by (by eapply heap_upd_same).
    eexists. split; [done|]. split; [exists o3; repeat split; done|]. split.
    { rewrite H3. simpl. by rewrite lookup_insert_eq. }
    split; [eapply Hget; [done|apply lookup_insert_eq]|].
    split; [done|].
    intros l Hl _. unfold st2, st1. by rewrite !heap_upd_other by congruence.
  - assert (H1c : heap st1 !! child = Some oc)
      by (unfold st1; by rewrite heap_upd_other).
    erewrite (bind_ok (py_setattr _ _ _ _));
      [|apply py_setattr_unindexed; [done|done|name_solver]].
    set (oc' := with_attr _ _ oc). set (st2 := upd_heap child oc' st1).
    assert (H2 : heap st2 !! s = Some o1)
      by (unfold st2; by rewrite heap_upd_other).
    rewrite (modify_obj_ok _ _ _ _ H2).
    set (o3 := set_children_map _ o1).
    assert (H3 : heap (upd_heap s o3 st2) !! s = Some o3) by (by eapply heap_upd_same).
    eexists. split; [done|]. split; [exists o3; repeat split; done|]. split.
    { rewrite heap_upd_other by done. unfold st2.
      erewrite heap_upd_same by done. simpl. by rewrite lookup_insert_eq. }
    split; [eapply Hget; [done|apply lookup_insert_eq]|].
    split; [done|].
    intros l Hl Hl'. unfold st2, st1. by rewrite !heap_upd_other by congruence.
Qed.

Lemma add_child_binds_name_witness :
  ∃ st', Struct__pfp__add_child 1 0 "x" 2 member_state = (Ok tt, st') ∧
    (∃ o', heap st' !! 0 = Some o' ∧ o_cls o' = o_cls member_struct ∧
           o_children o' = o_children member_struct ++ [2] ∧
           o_children_map o' = <["x" := 2]> (o_children_map member_struct)) ∧
    (heap st' !! 2 ≫= λ oc', o_dict oc' !! "_pfp__name") = Some (VStr "x") ∧
    Struct___getattr__ 0 "x" st' = (Ok (VField 2), st') ∧
    streams st' = streams member_state ∧
    (∀ l, l ≠ 0 → l ≠ 2 → heap st' !! l = heap member_state !! l).
Proof.
  apply (add_child_binds_name 0 0 2 member_struct
           (with_attr "_pfp__value" (VInt 9)
              (with_attr "_pfp__name" VNone (new_obj C_Int)))
           "x" member_state);
    [reflexivity | reflexivity | reflexivity | discriminate].
Defined.

(** X4: the expression [s.name] on a struct: an instance attribute
    of that name comes first, then the child the index holds under
    the name, and a name that is neither raises [AttributeError]. *)
Theorem Struct_attribute_lookup_order (s : loc) (o : obj) (name : string)
    (st : state) :
  heap st !! s = Some o → is_struct (o_cls o) = true →
  beyond_scalars (o_cls o) name = false →
  py_getattr s name st =
    (match o_dict o !! name with
     | Some v => Ok v
     | None =>
         match o_children_map o !! name with
         | Some child => Ok (VField child)
         | None => Raise AttributeError
         end
     end, st).
Proof.
  intros H Hs Hb. rewrite (py_getattr_attr_value _ _ _ _ H).
  unfold attr_value, attr_of. rewrite (struct_class_attr _ _ Hs), Hb.
  destruct (o_dict o !! name); [done|].
  by destruct (o_cls o).
Qed.

Lemma Struct_attribute_lookup_order_witness :
  py_getattr 0 "x" member_state =
    (match o_dict member_struct !! "x" with
     | Some v => Ok v
     | None =>
         match o_children_map member_struct !! "x" with
         | Some child => Ok (VField child)
         | None => Raise AttributeError
         end
     end, member_state).
Proof.
  apply (Struct_attribute_lookup_order 0 member_struct "x" member_state);
    reflexivity.
Defined.



(** ** What building leaves alone *)

Section Keeps.
Context (R : state → state → Prop) `{!PreOrder R}.

Lemma keeps_pure {A} (m : M A) : (∀ st, (m st).2 = st) → keeps R m.
Proof. intros H st. by rewrite H. Qed.

Lemma keeps_bind {A B} (m : M A) (k : A → M B) :
  keeps R m → (∀ a, keeps R (k a)) → keeps R (bind m k).
Proof.
  intros Hm Hk st. unfold bind. specialize (Hm st).
  destruct (m st) as [[a| |] st1]; [|done..].
  by etrans; [|apply Hk].
Qed.

Lemma py_getattr_pure l n st : (py_getattr l n st).2 = st.
Proof.
  destruct (heap st !! l) eqn:E.
  - by rewrite (py_getattr_attr_value _ _ _ _ E).
  - unfold py_getattr. by rewrite (bind_stuck _ _ _ _ _ (get_obj_dangling _ _ E)).
Qed.

Lemma keeps_getattr l n : keeps R (py_getattr l n).
Proof. apply keeps_pure, py_getattr_pure. Qed.

Lemma keeps_lift {A} (r : res A) : keeps R (lift_res r).
Proof. by apply keeps_pure. Qed.

Lemma keeps_get_obj l : keeps R (get_obj l).
Proof. apply keeps_pure. intros st. unfold get_obj. by destruct (heap st !! l). Qed.

Lemma keeps_stream_method s n : keeps R (stream_method s n).
Proof. apply keeps_pure. intros st. by destruct s. Qed.

Lemma keeps_ret {A} (a : A) : keeps R (ret a).
Proof. by apply keeps_pure. Qed.

Lemma keeps_raise {A} (e : exn) : keeps R (@raise A e).
Proof. by apply keeps_pure. Qed.

Lemma keeps_stop {A} (r : stuck) : keeps R (@stop A r).
Proof. by apply keeps_pure. Qed.

Lemma keeps_accumulate (method : loc → PyVal → M PyVal) cs stream :
  (∀ l, keeps R (method l stream)) →
  ∀ acc, keeps R (accumulate method cs stream acc).
Proof.
  intros Hm. induction cs as [|c cs IH]; intros acc; simpl.
  - by apply keeps_pure.
  - apply keeps_bind; [done|intros r].
    apply keeps_bind; [apply keeps_lift|done].
Qed.
End Keeps.

Global Instance build_frame_preorder stream : PreOrder (build_frame stream).
Proof.
  split.
  - by intros st.
  - intros st1 st2 st3 (H1 & H2 & H3) (H1' & H2' & H3').
    split; [congruence|]. split; [congruence|].
    intros Hs. rewrite H3' by done. by apply H3.
Qed.

(** Steps through a computation that is a chain of [bind]s, leaving
    what is neither a [bind] nor one of the leaves above. *)
Ltac keeps_leaf :=
  first [ apply keeps_getattr | apply keeps_lift | apply keeps_get_obj
        | apply keeps_stream_method | apply keeps_ret | apply keeps_raise
        | apply keeps_stop ];
  try apply _.
Ltac keeps_chain :=
  repeat first [ solve [keeps_leaf]
               | apply keeps_bind; [apply _| |intros ?] ].

Lemma stream_write_keeps stream sid data :
  stream ≠ VNone → keeps (build_frame stream) (stream_write sid data).
Proof.
  intros Hs st. unfold stream_write.
  destruct data; try done.
  destruct (streams st !! sid) as [t|] eqn:E; [|done].
  split; [done|]. split; [|done]. simpl.
  rewrite list_fmap_insert. apply list_insert_id.
  by rewrite list_lookup_fmap, E.
Qed.

Lemma emit_keeps stream (data : PyVal) :
  keeps (build_frame stream)
    (match stream with
     | VNone => ret data
     | _ => let* write := stream_method stream "write" in
            stream_write write data
     end).
Proof. destruct stream; keeps_chain; by apply stream_write_keeps. Qed.

Lemma NumberBase_build_keeps l stream :
  keeps (build_frame stream) (NumberBase__pfp__build l stream).
Proof.
  unfold NumberBase__pfp__build. keeps_chain.
  apply (emit_keeps stream (VStr _)).
Qed.

Lemma String_build_keeps l stream :
  keeps (build_frame stream) (String__pfp__build l stream).
Proof.
  unfold String__pfp__build.
  destruct stream; keeps_chain; by apply stream_write_keeps.
Qed.

Lemma WString_build_keeps l stream :
  keeps (build_frame stream) (WString__pfp__build l stream).
Proof.
  unfold WString__pfp__build.
  destruct stream; keeps_chain; by apply stream_write_keeps.
Qed.

Lemma build_keeps fuel stream :
  ∀ l, keeps (build_frame stream) (_pfp__build fuel l stream).
Proof.
  induction fuel as [|f IH]; intros l; [by apply keeps_stop; apply _|].
  rewrite _pfp__build_S. keeps_chain.
  destruct (defining_class (o_cls a) "_pfp__build") as [[]|];
    try (by apply keeps_raise; apply _).
  - keeps_chain. apply keeps_accumulate; [apply _|done].
  - apply NumberBase_build_keeps.
  - keeps_chain. apply keeps_accumulate; [apply _|done].
  - apply String_build_keeps.
  - apply WString_build_keeps.
Qed.

(** X6: building reads the fields and changes none of them: the
    store is the same after [_pfp__build] as before, whatever it
    returns or raises, no byte is taken from a stream, and without a
    sink nothing changes at all. *)
Theorem build_is_read_only (fuel : nat) (l : loc) (stream : PyVal)
    (st : state) :
  heap (_pfp__build fuel l stream st).2 = heap st ∧
  (s_unread <$> streams (_pfp__build fuel l stream st).2) =
    (s_unread <$> streams st) ∧
  (stream = VNone → (_pfp__build fuel l stream st).2 = st).
Proof. apply build_keeps. Qed.

(** ** Building into a stream *)

Lemma py_getattr_eq l n st : py_getattr l n st = ((py_getattr l n st).1, st).
Proof.
  rewrite <- (py_getattr_pure l n st) at 3. by destruct (py_getattr l n st).
Qed.

Lemma py_getattr_same_heap l n st st' :
  heap st' = heap st → (py_getattr l n st').1 = (py_getattr l n st).1.
Proof.
  intros Hh. destruct (heap st !! l) as [o|] eqn:E.
  - rewrite (py_getattr_attr_value _ _ _ _ E).
    rewrite <- Hh in E. by rewrite (py_getattr_attr_value _ _ _ _ E).
  - unfold py_getattr.
    rewrite (bind_stuck _ _ _ _ _ (get_obj_dangling _ _ E)).
    rewrite <- Hh in E.
    by rewrite (bind_stuck _ _ _ _ _ (get_obj_dangling _ _ E)).
Qed.

(** The same attribute read in a run [H] and in the goal, where the
    two stores are equal by [Hh]. *)
Ltac both_getattr H Hh l n st st' :=
  rewrite (bind_pure _ _ _ _ (py_getattr_eq l n st)) in H;
  rewrite (bind_pure _ _ _ _ (py_getattr_eq l n st'));
  rewrite (py_getattr_same_heap l n _ _ Hh);
  destruct ((py_getattr l n st).1); [|done..].
Ltac both_lift H :=
  rewrite bind_lift in H; rewrite bind_lift;
  match type of H with
  | match ?r with _ => _ end = _ => destruct r; [|done..]
  end.

Lemma emit_ok sid t d st :
  streams st !! sid = Some t →
  (let* write := stream_method (VStream sid) "write" in
   stream_write write (VStr d)) st =
    (Ok (VInt (Z.of_nat (String.length d))),
     upd_stream sid (mkStream (s_unread t) (s_written t +:+ d)) st).
Proof.
  intros Hs. unfold stream_method. rewrite bind_ret.
  unfold stream_write. by rewrite Hs.
Qed.

Lemma NumberBase_build_sink l d sid t st st' :
  NumberBase__pfp__build l VNone st = (Ok (VStr d), st) →
  heap st' = heap st → streams st' !! sid = Some t →
  NumberBase__pfp__build l (VStream sid) st' =
    (Ok (VInt (Z.of_nat (String.length d))),
     upd_stream sid (mkStream (s_unread t) (s_written t +:+ d)) st').
Proof.
  intros H Hh Hs. unfold NumberBase__pfp__build in *.
  both_getattr H Hh l "endian" st st'.
  both_getattr H Hh l "format" st st'.
  both_lift H.
  both_getattr H Hh l "_pfp__value" st st'.
  both_lift H.
  injection H as ->. by apply emit_ok.
Qed.

Lemma String_build_sink l d sid t st st' :
  String__pfp__build l VNone st = (Ok (VStr d), st) →
  heap st' = heap st → streams st' !! sid = Some t →
  String__pfp__build l (VStream sid) st' =
    (Ok (VInt (Z.of_nat (String.length d))),
     upd_stream sid (mkStream (s_unread t) (s_written t +:+ d)) st').
Proof.
  intros H Hh Hs. unfold String__pfp__build in *.
  unfold stream_method. rewrite bind_ret.
  both_getattr H Hh l "_pfp__value" st st'.
  rewrite bind_lift. unfold lift_res in H.
  destruct (py_binop Add a (VStr NUL)); [|done..].
  injection H as ->. unfold stream_write. by rewrite Hs.
Qed.

Lemma WString_build_sink l d sid t st st' :
  WString__pfp__build l VNone st = (Ok (VStr d), st) →
  heap st' = heap st → streams st' !! sid = Some t →
  WString__pfp__build l (VStream sid) st' =
    (Ok (VInt (Z.of_nat (String.length d))),
     upd_stream sid (mkStream (s_unread t) (s_written t +:+ d)) st').
Proof.
  intros H Hh Hs. unfold WString__pfp__build in *.
  unfold stream_method. rewrite bind_ret.
  both_getattr H Hh l "_pfp__value" st st'.
  both_lift H.
  rewrite bind_lift. unfold lift_res in H.
  destruct (py_binop Add a0 (VStr (NUL +:+ NUL))); [|done..].
  injection H as ->. unfold stream_write. by rewrite Hs.
Qed.

Lemma upd_stream_id sid t st :
  streams st !! sid = Some t → upd_stream sid t st = st.
Proof.
  intros H. destruct st as [h ss]. unfold upd_stream. simpl in *.
  by rewrite list_insert_id.
Qed.

Lemma accumulate_sink (build : loc → PyVal → M PyVal) sid :
  (∀ c d t st st', build c VNone st = (Ok (VStr d), st) →
     heap st' = heap st → streams st' !! sid = Some t →
     build c (VStream sid) st' =
       (Ok (VInt (Z.of_nat (String.length d))),
        upd_stream sid (mkStream (s_unread t) (s_written t +:+ d)) st')) →
  (∀ c st, (build c VNone st).2 = st) →
  ∀ cs acc d n t st st',
    accumulate build cs VNone (VStr acc) st = (Ok (VStr d), st) →
    heap st' = heap st → streams st' !! sid = Some t →
    ∃ d', d = acc +:+ d' ∧
      accumulate build cs (VStream sid) (VInt n) st' =
        (Ok (VInt (n + Z.of_nat (String.length d'))),
         upd_stream sid (mkStream (s_unread t) (s_written t +:+ d')) st').
Proof.
  intros Hleaf Hpure. induction cs as [|c cs IH]; intros acc d n t st st' H Hh Hs.
  - simpl in *. injection H as <-. exists "". split; [by rewrite str_app_nil_r|].
    rewrite str_app_nil_r, Z.add_0_r. destruct t. simpl.
    by rewrite (upd_stream_id _ _ _ Hs).
  - simpl in H. unfold bind at 1 in H.
    pose proof (Hpure c st) as Hp.
    destruct (build c VNone st) as [[r| |] st1] eqn:E; [|done..].
    simpl in Hp. subst st1. rewrite bind_lift in H.
    destruct r; try done. simpl in H.
    destruct (IH _ _ (n + Z.of_nat (String.length s))%Z (mkStream (s_unread t) (s_written t +:+ s))
                 st (upd_stream sid (mkStream (s_unread t) (s_written t +:+ s)) st')
                 H Hh (streams_upd_same _ _ _ _ Hs)) as (d' & -> & Hrun).
    exists (s +:+ d'). split; [by rewrite str_app_assoc|].
    simpl. rewrite (bind_ok _ _ _ _ _ (Hleaf _ _ _ _ _ E Hh Hs)).
    simpl. rewrite bind_lift_ok, Hrun. simpl.
    rewrite upd_stream_twice, str_app_assoc, str_app_length.
    do 3 f_equal. lia.
Qed.

Lemma build_sink fuel sid :
  ∀ l d t st st',
    _pfp__build fuel l VNone st = (Ok (VStr d), st) →
    heap st' = heap st → streams st' !! sid = Some t →
    _pfp__build fuel l (VStream sid) st' =
      (Ok (VInt (Z.of_nat (String.length d))),
       upd_stream sid (mkStream (s_unread t) (s_written t +:+ d)) st').
Proof.
  induction fuel as [|f IH]; intros l d t st st' H Hh Hs; [done|].
  rewrite _pfp__build_S in H |- *.
  destruct (heap st !! l) as [o|] eqn:E;
    [|by rewrite (bind_stuck _ _ _ _ _ (get_obj_dangling _ _ E)) in H].
  assert (E' : heap st' !! l = Some o) by (by rewrite Hh).
  rewrite (bind_ok _ _ _ _ _ (get_obj_ok _ _ _ E)) in H.
  rewrite (bind_ok _ _ _ _ _ (get_obj_ok _ _ _ E')).
  assert (Hpure : ∀ c st, (_pfp__build f c VNone st).2 = st)
    by (intros c st0; by apply (build_keeps f VNone c st0)).
  destruct (defining_class (o_cls o) "_pfp__build") as [[]|]; try done.
  - unfold Struct__pfp__build in *.
    rewrite (bind_ok _ _ _ _ _ (get_obj_ok _ _ _ E)) in H.
    rewrite (bind_ok _ _ _ _ _ (get_obj_ok _ _ _ E')).
    destruct (accumulate_sink _ sid (IH) Hpure _ _ _ 0%Z _ _ _ H Hh Hs)
      as (d' & -> & ->).
    by rewrite str_app_nil_l.
  - by eapply NumberBase_build_sink.
  - unfold Array__pfp__build in *.
    rewrite (bind_ok _ _ _ _ _ (get_obj_ok _ _ _ E)) in H.
    rewrite (bind_ok _ _ _ _ _ (get_obj_ok _ _ _ E')).
    destruct (accumulate_sink _ sid (IH) Hpure _ _ _ 0%Z _ _ _ H Hh Hs)
      as (d' & -> & ->).
    by rewrite str_app_nil_l.
  - by eapply String_build_sink.
  - by eapply WString_build_sink.
Qed.

(** X7: whenever building a field without a sink returns a byte
    string, building it into a stream, whose [write] returns the
    number of bytes it accepted, appends exactly that string to what
    the stream has received and returns its length. *)
Theorem build_into_stream_writes_build (fuel : nat) (l : loc) (d : string)
    (sid : nat) (t : stream) (st : state) :
  _pfp__build fuel l VNone st = (Ok (VStr d), st) →
  streams st !! sid = Some t →
  _pfp__build fuel l (VStream sid) st =
    (Ok (VInt (Z.of_nat (String.length d))),
     upd_stream sid (mkStream (s_unread t) (s_written t +:+ d)) st).
Proof. intros H Hs. by eapply build_sink. Qed.

Lemma build_into_stream_writes_build_witness :
  _pfp__build 2 0 (VStream 0) member_state_with_sink =
    (Ok (VInt (Z.of_nat (String.length (bytes [0; 0; 0; 5]%Z)))),
     upd_stream 0 (mkStream "" ("ab" +:+ bytes [0; 0; 0; 5]%Z))
       member_state_with_sink).
Proof.
  apply (build_into_stream_writes_build 2 0 (bytes [0; 0; 0; 5]%Z) 0
           (mkStream "" "ab") member_state_with_sink); reflexivity.
Defined.

(** ** Parsing a struct *)

(** X8: a struct parses its children in order and stops at the first
    one that raises: the exception is the child's, the store and the
    stream are as that child left them, with the children before it
    parsed and nothing undone, and the children after it are not
    reached. *)
Theorem Struct_parse_stops_at_first_failure (fuel : nat) (s : loc) (o : obj)
    (before : list loc) (c : loc) (after : list loc) (stream v : PyVal)
    (e : exn) (st st1 st2 : state) :
  heap st !! s = Some o → is_struct (o_cls o) = true →
  o_children o = before ++ c :: after →
  accumulate (_pfp__parse fuel) before stream (VInt 0) st = (Ok v, st1) →
  _pfp__parse fuel c stream st1 = (Raise e, st2) →
  _pfp__parse (S fuel) s stream st = (Raise e, st2).
Proof.
  intros H Hs Hc Hbefore Hfail.
  rewrite _pfp__parse_S, (bind_ok _ _ _ _ _ (get_obj_ok _ _ _ H)).
  rewrite (struct_parse_method _ Hs). unfold Struct__pfp__parse.
  rewrite (bind_ok _ _ _ _ _ (get_obj_ok _ _ _ H)), Hc.
  rewrite accumulate_app, (bind_ok _ _ _ _ _ Hbefore).
  simpl. by rewrite (bind_raise _ _ _ _ _ Hfail).
Qed.

Lemma Struct_parse_stops_at_first_failure_witness :
  let st1 := (_pfp__parse 1 1 (VStream 0) two_ints_state).2 in
  _pfp__parse 2 0 (VStream 0) two_ints_state =
    (Raise PrematureEOF, upd_stream 0 (mkStream "" "") st1).
Proof.
  intros st1.
  apply (Struct_parse_stops_at_first_failure 1 0
           (set_children_map {["a" := 1; "b" := 2]}
              (set_children [1; 2] (new_obj C_Struct)))
           [1] 2 [] (VStream 0) (VInt 4) PrematureEOF two_ints_state st1);
    reflexivity.
Defined.

Lemma str_drop_length n s :
  String.length (str_drop n s) = String.length s - n.
Proof. revert n. induction s as [|b r IH]; intros [|k]; simpl; auto. Qed.

Lemma number_parse_short f l w sid t st :
  numeric_field st l w → streams st !! sid = Some t →
  (Z.of_nat (String.length (s_unread t)) < w)%Z →
  _pfp__parse (S f) l (VStream sid) st =
    (Raise PrematureEOF, upd_stream sid (mkStream "" (s_written t)) st).
Proof.
  intros (o & H & Hp & _ & Hw) Hs Hlen.
  rewrite _pfp__parse_S, (bind_ok _ _ _ _ _ (get_obj_ok _ _ _ H)).
  rewrite number_parse_method
    by (unfold number_width in Hw; by destruct (is_number _)).
  by eapply NumberBase_parse_short.
Qed.

Lemma numeric_fields_after f c w sid t st cs ws :
  numeric_field st c w → streams st !! sid = Some t →
  (w ≤ Z.of_nat (String.length (s_unread t)))%Z →
  Forall2 (numeric_field st) cs ws →
  ∃ st1,
    _pfp__parse (S f) c (VStream sid) st = (Ok (VInt w), st1) ∧
    streams st1 !! sid =
      Some (mkStream (str_drop (Z.to_nat w) (s_unread t)) (s_written t)) ∧
    Forall2 (numeric_field st1) cs ws.
Proof.
  intros Hc Hs Hlen Hcs.
  destruct (numeric_field_after f c w sid t st c w Hc Hs Hlen Hc)
    as (st1 & Hparse & Hs1 & _).
  exists st1. split; [done|]. split; [done|].
  eapply Forall2_impl; [done|]. intros l w' Hl.
  destruct (numeric_field_after f c w sid t st l w' Hc Hs Hlen Hl)
    as (st1' & Hparse' & _ & Hl').
  rewrite Hparse in Hparse'. by simplify_eq.
Qed.

Lemma accumulate_numbers_short f sid :
  ∀ children ws acc st t,
    Forall2 (numeric_field st) children ws →
    streams st !! sid = Some t →
    (Z.of_nat (String.length (s_unread t)) < total ws)%Z →
    ∃ st',
      accumulate (_pfp__parse (S f)) children (VStream sid) (VInt acc) st =
        (Raise PrematureEOF, st') ∧
      streams st' !! sid = Some (mkStream "" (s_written t)).
Proof.
  induction children as [|c cs IH]; intros ws acc st t Hall Hs Hlen.
  - apply Forall2_nil_inv_l in Hall as ->. simpl in Hlen. lia.
  - apply Forall2_cons_inv_l in Hall as (w & ws' & Hc & Hcs & ->).
    simpl in Hlen. cbn [accumulate].
    destruct (Z.le_gt_cases w (Z.of_nat (String.length (s_unread t)))) as [Hw|Hw].
    + destruct (numeric_fields_after f c w sid t st cs ws' Hc Hs Hw Hcs)
        as (st1 & Hparse & Hs1 & Hcs1).
      rewrite (bind_ok _ _ _ _ _ Hparse).
      cbn [py_binop int_binop]. rewrite bind_lift_ok.
      assert (0 < w)%Z as Hw0.
      { destruct Hc as (o & _ & _ & _ & Hwo). by eapply number_width_pos. }
      destruct (IH ws' (acc + w)%Z st1 _ Hcs1 Hs1) as (st' & Hacc & Hs').
      { simpl. rewrite str_drop_length. lia. }
      by exists st'.
    + rewrite (bind_raise _ _ _ _ _ (number_parse_short f c w sid t st Hc Hs Hw)).
      eexists. split; [done|]. by eapply streams_upd_same.
Qed.

(** X9: a struct whose children are numeric fields, parsed from a
    stream: with enough bytes it returns the sum of the widths and
    consumes exactly that many bytes; with fewer it raises
    [PrematureEOF] and has consumed all that was left. *)
Theorem Struct_parse_numbers (fuel : nat) (s : loc) (o : obj) (ws : list Z)
    (sid : nat) (t : stream) (st : state) :
  heap st !! s = Some o → is_struct (o_cls o) = true →
  Forall2 (numeric_field st) (o_children o) ws →
  streams st !! sid = Some t →
  ((total ws ≤ Z.of_nat (String.length (s_unread t)))%Z →
   ∃ st', _pfp__parse (S (S fuel)) s (VStream sid) st =
            (Ok (VInt (total ws)), st') ∧
          streams st' !! sid =
            Some (mkStream (str_drop (Z.to_nat (total ws)) (s_unread t))
                           (s_written t))) ∧
  ((Z.of_nat (String.length (s_unread t)) < total ws)%Z →
   ∃ st', _pfp__parse (S (S fuel)) s (VStream sid) st =
            (Raise PrematureEOF, st') ∧
          streams st' !! sid = Some (mkStream "" (s_written t))).
Proof.
  intros H Hs Hall Hst.
  rewrite _pfp__parse_S, (bind_ok _ _ _ _ _ (get_obj_ok _ _ _ H)).
  rewrite (struct_parse_method _ Hs). unfold Struct__pfp__parse.
  rewrite (bind_ok _ _ _ _ _ (get_obj_ok _ _ _ H)).
  split; intros Hlen.
  - by apply (accumulate_numbers fuel sid (o_children o) ws 0%Z st t).
  - by apply (accumulate_numbers_short fuel sid (o_children o) ws 0%Z st t).
Qed.

Lemma Struct_parse_numbers_witness :
  ((total [4; 4] ≤ Z.of_nat (String.length "abcdef"))%Z →
   ∃ st', _pfp__parse 2 0 (VStream 0) two_ints_state =
            (Ok (VInt (total [4; 4]%Z)), st') ∧
          streams st' !! 0 =
            Some (mkStream (str_drop (Z.to_nat (total [4; 4]%Z)) "abcdef") "")) ∧
  ((Z.of_nat (String.length "abcdef") < total [4; 4])%Z →
   ∃ st', _pfp__parse 2 0 (VStream 0) two_ints_state =
            (Raise PrematureEOF, st') ∧
          streams st' !! 0 = Some (mkStream "" "")).
Proof.
  apply (Struct_parse_numbers 0 0
           (set_children_map {["a" := 1; "b" := 2]}
              (set_children [1; 2] (new_obj C_Struct)))
           [4; 4]%Z 0 (mkStream "abcdef" "") two_ints_state);
    [reflexivity | reflexivity | | reflexivity].
  repeat constructor; (eexists; split; [reflexivity|]; by repeat split).
Defined.

(** ** Bytes back to integers and back *)

Section IntCodecInverse.
Local Open Scope Z_scope.
Import struct.

Lemma le_value_range s : 0 ≤ le_value s < 256 ^ Z.of_nat (String.length s).
Proof.
  induction s as [|a r IH]; [simpl; lia|].
  cbn [String.length le_value]. rewrite Nat2Z.inj_succ, Z.pow_succ_r by lia.
  pose proof (Z_of_ascii_range a). lia.
Qed.

Lemma le_bytes_le_value s : le_bytes (String.length s) (le_value s) = s.
Proof.
  induction s as [|a r IH]; [done|].
  cbn [String.length le_bytes le_value].
  pose proof (Z_of_ascii_range a).
  rewrite (Z.mul_comm 256), Z.mod_add, Z.div_add by lia.
  rewrite Z.mod_small, Z.div_small by lia.
  by rewrite ascii_of_Z_of_ascii, Z.add_0_l, IH.
Qed.

Lemma be_value_from_acc s :
  ∀ acc, be_value_from acc s =
           acc * 256 ^ Z.of_nat (String.length s) + be_value_from 0 s.
Proof.
  induction s as [|a r IH]; intros acc; cbn [be_value_from String.length].
  - simpl. lia.
  - rewrite (IH (acc * 256 + _)), (IH (0 * 256 + _)).
    rewrite Nat2Z.inj_succ, Z.pow_succ_r by lia. ring.
Qed.

Lemma be_value_range s :
  0 ≤ be_value_from 0 s < 256 ^ Z.of_nat (String.length s).
Proof.
  induction s as [|a r IH]; [simpl; lia|].
  cbn [be_value_from String.length]. rewrite be_value_from_acc.
  rewrite Nat2Z.inj_succ, Z.pow_succ_r by lia.
  pose proof (Z_of_ascii_range a). nia.
Qed.

Lemma be_bytes_shift n :
  ∀ c v, be_bytes n (c * 256 ^ Z.of_nat n + v) = be_bytes n v.
Proof.
  induction n as [|n IH]; intros c v; [done|].
  cbn [be_bytes]. rewrite Nat2Z.inj_succ, Z.pow_succ_r by lia.
  replace (c * (256 * 256 ^ Z.of_nat n) + v)
    with ((c * 256) * 256 ^ Z.of_nat n + v) by ring.
  rewrite IH. do 2 f_equal.
  rewrite Z.div_add_l by (apply Z.pow_nonzero; lia).
  by rewrite Z.add_comm, Z.mod_add by lia.
Qed.

Lemma be_bytes_be_value s : be_bytes (String.length s) (be_value_from 0 s) = s.
Proof.
  induction s as [|a r IH]; [done|].
  cbn [String.length be_bytes be_value_from]. rewrite be_value_from_acc.
  pose proof (Z_of_ascii_range a). pose proof (be_value_range r).
  rewrite be_bytes_shift, IH.
  rewrite Z.div_add_l by (apply Z.pow_nonzero; lia).
  rewrite Z.div_small, Z.add_0_r by lia.
  rewrite Z.mul_0_l, Z.add_0_l.
  by rewrite Z.mod_small, ascii_of_Z_of_ascii by lia.
Qed.

Lemma of_bytes_range o s : 0 ≤ of_bytes o s < 256 ^ Z.of_nat (String.length s).
Proof. destruct o; [apply be_value_range|apply le_value_range]. Qed.

Lemma to_bytes_of_bytes o s : to_bytes o (String.length s) (of_bytes o s) = s.
Proof. destruct o; [apply be_bytes_be_value|apply le_bytes_le_value]. Qed.

(** [struct.pack] inverts [struct.unpack] on the integer codes:
    every string of the code's size is the encoding of the integer it
    decodes to. *)
Lemma pack_unpack_int o signed n s :
  (0 < n)%nat → String.length s = n →
  pack_int o signed n (unpack_int o signed n s) = Ok s.
Proof.
  intros Hn Hl. pose proof (of_bytes_range o s) as Hr. rewrite Hl in Hr.
  pose proof (to_bytes_of_bytes o s) as Hs. rewrite Hl in Hs.
  assert (256 ^ Z.of_nat n = 2 ^ (8 * Z.of_nat n)) as E
    by (by rewrite Z.pow_mul_r by lia).
  assert (2 ^ (8 * Z.of_nat n) = 2 * 2 ^ (8 * Z.of_nat n - 1)) as E2.
  { rewrite <- Z.pow_succ_r by lia. f_equal. lia. }
  rewrite E in Hr. unfold pack_int, unpack_int, in_range.
  set (u := of_bytes o s) in *. set (B := 2 ^ (8 * Z.of_nat n)) in *.
  set (half := 2 ^ (8 * Z.of_nat n - 1)) in *.
  destruct signed; simpl andb.
  - destruct (Z.leb_spec half u) as [Hu|Hu].
    + destruct (Z.leb_spec (- half) (u - B)); [|lia].
      destruct (Z.ltb_spec (u - B) half); [|lia]. simpl. f_equal.
      pose proof (to_bytes_of_bytes o (to_bytes o n (u - B))) as Hs'.
      rewrite to_bytes_length, of_bytes_to_bytes in Hs'. fold B in Hs'.
      rewrite <- (Z.mod_add _ 1), Z.mod_small in Hs' by lia.
      replace (u - B + 1 * B) with u in Hs' by lia. congruence.
    + destruct (Z.leb_spec (- half) u); [|lia].
      destruct (Z.ltb_spec u half); [|lia]. simpl. by f_equal.
  - destruct (Z.leb_spec 0 u); [|lia].
    destruct (Z.ltb_spec u B); [|lia]. simpl. by f_equal.
Qed.

Lemma str_rev_app s r : str_rev (s +:+ r) = str_rev r +:+ str_rev s.
Proof.
  induction s as [|a s IH].
  - by rewrite str_app_nil_l, str_app_nil_r.
  - rewrite str_app_cons. simpl. by rewrite IH, str_app_assoc.
Qed.

Lemma be_bytes_snoc n :
  ∀ z, be_bytes (S n) z =
         be_bytes n (z / 256) +:+ String (ascii_of_Z (z mod 256)) "".
Proof.
  induction n as [|n IH]; intros z.
  - cbn [be_bytes]. by rewrite str_app_nil_l, Z.pow_0_r, Z.div_1_r.
  - change (be_bytes (S (S n)) z) with
      (String (ascii_of_Z ((z / 256 ^ Z.of_nat (S n)) mod 256)) (be_bytes (S n) z)).
    rewrite IH. cbn [be_bytes]. rewrite str_app_cons. do 3 f_equal.
    rewrite Nat2Z.inj_succ, Z.pow_succ_r by lia.
    rewrite Z.div_div by (try apply Z.pow_pos_nonneg; lia). done.
Qed.

Lemma le_bytes_reversed n : ∀ z, le_bytes n z = str_rev (be_bytes n z).
Proof.
  induction n as [|n IH]; intros z; [done|].
  rewrite be_bytes_snoc, str_rev_app. cbn [le_bytes str_rev].
  by rewrite str_app_nil_l, str_app_cons, str_app_nil_l, IH.
Qed.
End IntCodecInverse.

Lemma pack_little_endian f v d :
  struct.pack (BIG_ENDIAN +:+ f) v = Ok d →
  struct.pack (LITTLE_ENDIAN +:+ f) v = Ok (str_rev d).
Proof.
  change (BIG_ENDIAN +:+ f) with (String ">" f).
  change (LITTLE_ENDIAN +:+ f) with (String "<" f).
  unfold struct.pack, struct.parse_format.
  destruct f as [|a [|b r]]; try done.
  change (struct.order_of ">") with (Some struct.BigEndian).
  change (struct.order_of "<") with (Some struct.LittleEndian).
  destruct (struct.code_of a) as [[sg n| |]|]; [| | |done].
  - destruct v; try done. unfold struct.pack_int.
    destruct (struct.in_range _ _ _); [|done].
    intros [= <-]. unfold struct.to_bytes. by rewrite le_bytes_reversed.
  - destruct (struct.as_double v); [|done..].
    destruct (struct.narrow _); [|done..].
    intros [= <-]. unfold struct.to_bytes. by rewrite le_bytes_reversed.
  - destruct (struct.as_double v); [|done..].
    intros [= <-]. unfold struct.to_bytes. by rewrite le_bytes_reversed.
Qed.

(** ** Numbers: from bytes and back, and out of range *)

Lemma integer_code_size c signed size :
  is_number c = true → codec_of c = Some (struct.IntCode signed size) →
  0 < size.
Proof.
  destruct c; intros Hn Hk; try discriminate Hn; vm_compute in Hk;
    try discriminate Hk; injection Hk as <- <-; lia.
Qed.

Lemma integer_format o e signed size :
  is_number (o_cls o) = true → plain o → endian_of o e →
  codec_of (o_cls o) = Some (struct.IntCode signed size) →
  ∃ a ord,
    attr_of o "format" = Some (VStr (String a "")) ∧
    attr_of o "width" = Some (VInt (Z.of_nat size)) ∧
    attr_of o "endian" = Some (VStr e) ∧
    struct.parse_format (e +:+ String a "") = Some (ord, struct.IntCode signed size).
Proof.
  intros Hn Hp [He Hor] Hk.
  destruct (number_class_code _ _ Hn Hk) as (a & Hfmt & Hcode & Hwidth).
  destruct (endian_format e a _ Hor Hcode) as [ord Hpf].
  exists a, ord. rewrite !plain_attr by (done || name_solver). done.
Qed.

(** X10: a field of an integer class parsed from a stream that holds
    enough bytes returns its width, keeps the bytes it consumed in
    [_pfp__data], and builds to exactly those bytes again. *)
Theorem integer_parse_then_build (fuel : nat) (l : loc) (o : obj) (e : string)
    (signed : bool) (size : nat) (sid : nat) (t : stream) (st : state) :
  heap st !! l = Some o → is_number (o_cls o) = true → plain o →
  endian_of o e →
  codec_of (o_cls o) = Some (struct.IntCode signed size) →
  streams st !! sid = Some t → size ≤ String.length (s_unread t) →
  ∃ st',
    _pfp__parse (S fuel) l (VStream sid) st = (Ok (VInt (Z.of_nat size)), st') ∧
    streams st' !! sid =
      Some (mkStream (str_drop size (s_unread t)) (s_written t)) ∧
    (heap st' !! l ≫= λ o', o_dict o' !! "_pfp__data") =
      Some (VStr (str_take size (s_unread t))) ∧
    _pfp__build (S fuel) l VNone st' =
      (Ok (VStr (str_take size (s_unread t))), st').
Proof.
  intros H Hn Hp He Hk Hs Hlen.
  destruct (integer_format _ _ _ _ Hn Hp He Hk) as (a & ord & Hf & Hw & Hend & Hpf).
  pose proof (integer_code_size _ _ _ Hn Hk) as Hsize.
  set (data := str_take size (s_unread t)).
  assert (Hdl : String.length data = size)
    by (unfold data; rewrite str_take_length; lia).
  set (z := struct.unpack_int ord signed size data).
  assert (Hun : struct.unpack (e +:+ String a "")
                  (str_take (Z.to_nat (Z.of_nat size)) (s_unread t)) = Ok (VInt z)).
  { rewrite Nat2Z.id. fold data. unfold struct.unpack. rewrite Hpf.
    simpl struct.calcsize. by rewrite Hdl, Nat.eqb_refl. }
  assert (Hpk : struct.pack (e +:+ String a "") (VInt z) = Ok data).
  { unfold struct.pack. rewrite Hpf. by apply pack_unpack_int. }
  eexists. split.
  { rewrite _pfp__parse_S, (bind_ok _ _ _ _ _ (get_obj_ok _ _ _ H)).
    rewrite number_parse_method by done.
    eapply NumberBase_parse_ok; [done..|lia|done]. }
  rewrite Nat2Z.id. fold data.
  set (o' := with_attr "_pfp__value" _ _).
  set (st1 := upd_stream _ _ _).
  assert (H' : heap (upd_heap l o' st1) !! l = Some o') by (by eapply heap_upd_same).
  split; [by eapply streams_upd_same|]. split.
  { rewrite H'. simpl. rewrite lookup_insert_ne by done.
    by rewrite lookup_insert_eq. }
  rewrite _pfp__build_S, (bind_ok _ _ _ _ _ (get_obj_ok _ _ _ H')).
  change (o_cls o') with (o_cls o). rewrite number_build_method by done.
  eapply NumberBase_build_ok; [done| | | |done]; unfold o'.
  - by rewrite !attr_of_with_attr_other.
  - by rewrite !attr_of_with_attr_other.
  - by rewrite attr_of_with_attr_same.
Qed.

Lemma integer_parse_then_build_witness :
  ∃ st',
    _pfp__parse 1 1 (VStream 0) fields_state = (Ok (VInt (Z.of_nat 4)), st') ∧
    streams st' !! 0 =
      Some (mkStream (str_drop 4 (bytes [1; 2; 3; 4; 5]%Z)) "") ∧
    (heap st' !! 1 ≫= λ o', o_dict o' !! "_pfp__data") =
      Some (VStr (str_take 4 (bytes [1; 2; 3; 4; 5]%Z))) ∧
    _pfp__build 1 1 VNone st' =
      (Ok (VStr (str_take 4 (bytes [1; 2; 3; 4; 5]%Z))), st').
Proof.
  apply (integer_parse_then_build 0 1
           (with_attr "_pfp__value" (VInt 1) (new_obj C_Int)) BIG_ENDIAN
           true 4 0 (mkStream (bytes [1; 2; 3; 4; 5]%Z) "") fields_state);
    [reflexivity | reflexivity | by repeat split
    | split; [reflexivity | by left] | reflexivity | reflexivity
    | vm_compute; lia].
Defined.

Lemma number_build_out_of_range f l o e signed size z stream st :
  heap st !! l = Some o → is_number (o_cls o) = true → plain o →
  endian_of o e →
  codec_of (o_cls o) = Some (struct.IntCode signed size) →
  attr_of o "_pfp__value" = Some (VInt z) →
  struct.in_range signed size z = false →
  _pfp__build (S f) l stream st = (Raise StructError, st).
Proof.
  intros H Hn Hp He Hk Hv Hr.
  destruct (integer_format _ _ _ _ Hn Hp He Hk) as (a & ord & Hf & Hw & Hend & Hpf).
  rewrite _pfp__build_S, (bind_ok _ _ _ _ _ (get_obj_ok _ _ _ H)).
  rewrite number_build_method by done. unfold NumberBase__pfp__build.
  rewrite (bind_ok _ _ _ _ _ (py_getattr_ok _ _ _ _ _ H Hend)).
  rewrite (bind_ok _ _ _ _ _ (py_getattr_ok _ _ _ _ _ H Hf)).
  change (format_pair (VStr e) (VStr (String a ""))) with (@Ok string (e +:+ String a "")).
  rewrite bind_lift_ok.
  rewrite (bind_ok _ _ _ _ _ (py_getattr_ok _ _ _ _ _ H Hv)).
  unfold struct.pack. rewrite Hpf. unfold struct.pack_int. rewrite Hr.
  by rewrite bind_lift.
Qed.

(** X11: a field of an integer class can hold an integer outside the
    range of its code, but cannot be built then: [_pfp__build] raises
    [struct.error], with or without a sink, and writes nothing. *)
Theorem build_out_of_range_raises (fuel : nat) (l : loc) (o : obj)
    (e : string) (signed : bool) (size : nat) (z : Z) (stream : PyVal)
    (st : state) :
  heap st !! l = Some o → is_number (o_cls o) = true → plain o →
  endian_of o e →
  codec_of (o_cls o) = Some (struct.IntCode signed size) →
  attr_of o "_pfp__value" = Some (VInt z) →
  struct.in_range signed size z = false →
  _pfp__build (S fuel) l stream st = (Raise StructError, st).
Proof. apply number_build_out_of_range. Qed.

Lemma build_out_of_range_raises_witness :
  _pfp__build 1 2 (VStream 0) fields_state = (Raise StructError, fields_state).
Proof.
  apply (build_out_of_range_raises 0 2
           (with_attr "_pfp__value" (VInt 300) (new_obj C_UChar)) BIG_ENDIAN
           false 1 300 (VStream 0) fields_state);
    [reflexivity | reflexivity | by repeat split
    | split; [reflexivity | by left] | reflexivity | reflexivity | reflexivity].
Defined.

Lemma attr_value_with_attr_other name name' v o :
  name ≠ name' → attr_value (with_attr name v o) name' = attr_value o name'.
Proof.
  intros Hne. unfold attr_value. by rewrite attr_of_with_attr_other.
Qed.

Lemma number_not_struct c : is_number c = true → is_struct c = false.
Proof. by destruct c. Qed.

(** X12: the byte order is an attribute of the field: after
    [f.endian = "<"] on a numeric field that had the class default,
    [_pfp__build] returns the bytes it returned before in reverse
    order. *)
Theorem little_endian_build_is_reversed (fuel : nat) (l : loc) (o : obj)
    (d : string) (st : state) :
  heap st !! l = Some o → is_number (o_cls o) = true →
  o_dict o !! "endian" = None →
  _pfp__build (S fuel) l VNone st = (Ok (VStr d), st) →
  let st' := upd_heap l (with_attr "endian" (VStr LITTLE_ENDIAN) o) st in
  py_setattr (S fuel) l "endian" (VStr LITTLE_ENDIAN) st = (Ok tt, st') ∧
  _pfp__build (S fuel) l VNone st' = (Ok (VStr (str_rev d)), st').
Proof.
  intros H Hn Hd Hb st'. split.
  { apply py_setattr_object; [done|by apply number_not_struct|name_solver]. }
  set (o' := with_attr "endian" (VStr LITTLE_ENDIAN) o) in *.
  assert (H' : heap st' !! l = Some o') by (by eapply heap_upd_same).
  rewrite _pfp__build_S, (bind_ok _ _ _ _ _ (get_obj_ok _ _ _ H)) in Hb.
  rewrite _pfp__build_S, (bind_ok _ _ _ _ _ (get_obj_ok _ _ _ H')).
  change (o_cls o') with (o_cls o).
  rewrite number_build_method in Hb |- * by done.
  unfold NumberBase__pfp__build in *.
  assert (He : attr_value o "endian" = Ok (VStr BIG_ENDIAN)).
  { unfold attr_value, attr_of. by rewrite Hd, number_class_endian. }
  assert (He' : attr_value o' "endian" = Ok (VStr LITTLE_ENDIAN)).
  { unfold attr_value, o'. by rewrite attr_of_with_attr_same. }
  rewrite (bind_pure _ _ _ _ (py_getattr_attr_value _ "endian" _ _ H)), He in Hb.
  rewrite (bind_pure _ _ _ _ (py_getattr_attr_value _ "endian" _ _ H')), He'.
  rewrite (bind_pure _ _ _ _ (py_getattr_attr_value _ "format" _ _ H)) in Hb.
  rewrite (bind_pure _ _ _ _ (py_getattr_attr_value _ "format" _ _ H')).
  unfold o' at 1. rewrite attr_value_with_attr_other by done.
  destruct (attr_value o "format") as [fv| |]; [|done..].
  rewrite bind_lift in Hb. rewrite bind_lift. unfold format_pair in *.
  simpl py_str in *. destruct (py_str fv) as [f| |]; [|done..].
  rewrite (bind_pure _ _ _ _ (py_getattr_attr_value _ "_pfp__value" _ _ H)) in Hb.
  rewrite (bind_pure _ _ _ _ (py_getattr_attr_value _ "_pfp__value" _ _ H')).
  unfold o' at 1. rewrite attr_value_with_attr_other by done.
  destruct (attr_value o "_pfp__value") as [v| |]; [|done..].
  rewrite bind_lift in Hb. rewrite bind_lift.
  destruct (struct.pack (BIG_ENDIAN +:+ f) v) as [d'| |] eqn:Hpk; [|done..].
  injection Hb as ->.
  by rewrite (pack_little_endian _ _ _ Hpk).
Qed.

Lemma little_endian_build_is_reversed_witness :
  let st' := upd_heap 1 (with_attr "endian" (VStr LITTLE_ENDIAN)
                           (with_attr "_pfp__value" (VInt 1) (new_obj C_Int)))
               fields_state in
  py_setattr 1 1 "endian" (VStr LITTLE_ENDIAN) fields_state = (Ok tt, st') ∧
  _pfp__build 1 1 VNone st' = (Ok (VStr (str_rev (bytes [0; 0; 0; 1]%Z))), st').
Proof.
  apply (little_endian_build_is_reversed 0 1
           (with_attr "_pfp__value" (VInt 1) (new_obj C_Int))
           (bytes [0; 0; 0; 1]%Z) fields_state); reflexivity.
Defined.

(** ** Comparison and complement *)

Lemma sign_of_opp c : sign_of (CompOpp c) = (- sign_of c)%Z.
Proof. by destruct c. Qed.

Lemma sign_of_zero c : sign_of c = 0%Z ↔ c = Eq.
Proof. by destruct c. Qed.

Lemma string_compare_eq a b : String.compare a b = Eq ↔ a = b.
Proof.
  split; [apply String.compare_eq_iff|intros ->].
  pose proof (String.compare_antisym b b) as H.
  by destruct (String.compare b b).
Qed.

Lemma NumberBase_cmp_scalar l o v w st :
  heap st !! l = Some o → attr_of o "_pfp__value" = Some v →
  isinstance_Field w = false →
  NumberBase___cmp__ l w st = (py_cmp v w, st).
Proof.
  intros H Hv Hw. unfold NumberBase___cmp__.
  destruct w; try done; rewrite bind_ret;
    by rewrite (bind_ok _ _ _ _ _ (py_getattr_ok _ _ _ _ _ H Hv)).
Qed.

Lemma NumberBase_cmp_field l g o og v w st :
  heap st !! l = Some o → attr_of o "_pfp__value" = Some v →
  heap st !! g = Some og → is_number (o_cls og) = true →
  attr_of og "_pfp__value" = Some w →
  NumberBase___cmp__ l (VField g) st = (py_cmp v w, st).
Proof.
  intros H Hv Hg Hn Hw. unfold NumberBase___cmp__.
  erewrite (bind_ok (bind _ _)).
  - by rewrite (bind_ok _ _ _ _ _ (py_getattr_ok _ _ _ _ _ H Hv)).
  - rewrite (bind_ok _ _ _ _ _ (get_obj_ok _ _ _ Hg)).
    unfold is_number in Hn. rewrite Hn. by eapply py_getattr_ok.
Qed.

(** X13: [NumberBase.__cmp__] orders a numeric field by the integer
    it holds: against a bare integer and against another numeric
    field holding that integer it gives the same answer, which is 0
    exactly when the two integers are equal and changes sign when the
    operands are exchanged; the store is left as it was. *)
Theorem NumberBase_cmp_orders_by_value (l g : loc) (o og : obj) (a b : Z)
    (st : state) :
  heap st !! l = Some o → is_number (o_cls o) = true →
  attr_of o "_pfp__value" = Some (VInt a) →
  heap st !! g = Some og → is_number (o_cls og) = true →
  attr_of og "_pfp__value" = Some (VInt b) →
  NumberBase___cmp__ l (VInt b) st = (Ok (VInt (sign_of (a ?= b)%Z)), st) ∧
  NumberBase___cmp__ l (VField g) st = (Ok (VInt (sign_of (a ?= b)%Z)), st) ∧
  NumberBase___cmp__ g (VField l) st = (Ok (VInt (- sign_of (a ?= b)%Z)), st) ∧
  (sign_of (a ?= b)%Z = 0%Z ↔ a = b).
Proof.
  intros H Hn Hv Hg Hgn Hw. split; [|split; [|split]].
  - by rewrite (NumberBase_cmp_scalar _ _ _ _ _ H Hv).
  - by rewrite (NumberBase_cmp_field _ _ _ _ _ _ _ H Hv Hg Hgn Hw).
  - rewrite (NumberBase_cmp_field _ _ _ _ _ _ _ Hg Hw H Hn Hv). simpl.
    by rewrite Z.compare_antisym, sign_of_opp.
  - by rewrite sign_of_zero, Z.compare_eq_iff.
Qed.

Lemma NumberBase_cmp_orders_by_value_witness :
  NumberBase___cmp__ 0 (VInt 1) fields_state =
    (Ok (VInt (sign_of (200 ?= 1)%Z)), fields_state) ∧
  NumberBase___cmp__ 0 (VField 1) fields_state =
    (Ok (VInt (sign_of (200 ?= 1)%Z)), fields_state) ∧
  NumberBase___cmp__ 1 (VField 0) fields_state =
    (Ok (VInt (- sign_of (200 ?= 1)%Z)), fields_state) ∧
  (sign_of (200 ?= 1)%Z = 0%Z ↔ 200%Z = 1%Z).
Proof.
  apply (NumberBase_cmp_orders_by_value 0 1
           (with_attr "_pfp__value" (VInt 200) (new_obj C_UChar))
           (with_attr "_pfp__value" (VInt 1) (new_obj C_Int))
           200 1 fields_state); reflexivity.
Defined.

(** X14: [~f] returns the complement [-v - 1] of the integer the
    field holds and leaves the field as it was; the complement of a
    value in the range of the field's code is in that range exactly
    when the code is signed. *)
Theorem complement_in_range_iff_signed (l : loc) (o : obj) (signed : bool)
    (size : nat) (z : Z) (st : state) :
  heap st !! l = Some o → is_number (o_cls o) = true →
  codec_of (o_cls o) = Some (struct.IntCode signed size) →
  attr_of o "_pfp__value" = Some (VInt z) →
  struct.in_range signed size z = true →
  NumberBase___invert__ l st = (Ok (VInt (- z - 1)), st) ∧
  struct.in_range signed size (- z - 1) = signed.
Proof.
  intros H _ _ Hv Hr. split.
  - unfold NumberBase___invert__.
    rewrite (bind_ok _ _ _ _ _ (py_getattr_ok _ _ _ _ _ H Hv)). simpl.
    by rewrite Z.lnot_eq_pred_opp.
  - unfold struct.in_range in *. destruct signed.
    + apply andb_true_iff in Hr as [H1%Z.leb_le H2%Z.ltb_lt].
      apply andb_true_iff. split; [apply Z.leb_le|apply Z.ltb_lt]; lia.
    + apply andb_true_iff in Hr as [H1%Z.leb_le H2%Z.ltb_lt].
      apply andb_false_iff. left. apply Z.leb_gt. lia.
Qed.

Lemma complement_in_range_iff_signed_witness :
  NumberBase___invert__ 0 fields_state = (Ok (VInt (- 200 - 1)), fields_state) ∧
  struct.in_range false 1 (- 200 - 1) = false.
Proof.
  apply (complement_in_range_iff_signed 0
           (with_attr "_pfp__value" (VInt 200) (new_obj C_UChar))
           false 1 200 fields_state); reflexivity.
Defined.

(** X15: [String.__cmp__] orders a string field by the bytes it
    holds, byte by byte: against a bare byte string and against
    another field holding that string it gives the same answer, which
    is 0 exactly when the two strings are equal and changes sign when
    the operands are exchanged; the store is left as it was. *)
Theorem String_cmp_orders_by_value (l g : loc) (o og : obj) (a b : string)
    (st : state) :
  heap st !! l = Some o → attr_of o "_pfp__value" = Some (VStr a) →
  heap st !! g = Some og → attr_of og "_pfp__value" = Some (VStr b) →
  String___cmp__ l (VStr b) st =
    (Ok (VInt (sign_of (String.compare a b))), st) ∧
  String___cmp__ l (VField g) st =
    (Ok (VInt (sign_of (String.compare a b))), st) ∧
  String___cmp__ g (VField l) st =
    (Ok (VInt (- sign_of (String.compare a b))), st) ∧
  (sign_of (String.compare a b) = 0%Z ↔ a = b).
Proof.
  intros H Hv Hg Hw. unfold String___cmp__. split; [|split; [|split]].
  - by rewrite (bind_ok _ _ _ _ _ (py_getattr_ok _ _ _ _ _ H Hv)).
  - rewrite (bind_ok _ _ _ _ _ (py_getattr_ok _ _ _ _ _ H Hv)).
    by rewrite (bind_ok _ _ _ _ _ (py_getattr_ok _ _ _ _ _ Hg Hw)).
  - rewrite (bind_ok _ _ _ _ _ (py_getattr_ok _ _ _ _ _ Hg Hw)).
    rewrite (bind_ok _ _ _ _ _ (py_getattr_ok _ _ _ _ _ H Hv)). simpl.
    by rewrite String.compare_antisym, sign_of_opp.
  - by rewrite sign_of_zero, string_compare_eq.
Qed.

Lemma String_cmp_orders_by_value_witness :
  String___cmp__ 3 (VStr "b") fields_state =
    (Ok (VInt (sign_of (String.compare "ab" "b"))), fields_state) ∧
  String___cmp__ 3 (VField 4) fields_state =
    (Ok (VInt (sign_of (String.compare "ab" "b"))), fields_state) ∧
  String___cmp__ 4 (VField 3) fields_state =
    (Ok (VInt (- sign_of (String.compare "ab" "b"))), fields_state) ∧
  (sign_of (String.compare "ab" "b") = 0%Z ↔ "ab" = "b").
Proof.
  apply (String_cmp_orders_by_value 3 4
           (with_attr "_pfp__value" (VStr "ab") (new_obj C_String))
           (with_attr "_pfp__value" (VStr "b") (new_obj C_String))
           "ab" "b" fields_state); reflexivity.
Defined.

(** ** Text: from bytes and back, and bad input *)

Lemma string_attrs o :
  o_cls o = C_String → plain o →
  attr_of o "read_size" = Some (VInt 1) ∧
  attr_of o "terminator" = Some (VStr NUL).
Proof.
  intros Hc Hp. rewrite !plain_attr by (done || name_solver). by rewrite Hc.
Qed.

Lemma wstring_attrs o :
  o_cls o = C_WString → plain o →
  attr_of o "read_size" = Some (VInt 2) ∧
  attr_of o "terminator" = Some (VStr (NUL +:+ NUL)).
Proof.
  intros Hc Hp. rewrite !plain_attr by (done || name_solver). by rewrite Hc.
Qed.

(** X16: a [String] parsed from a stream that holds a byte string
    without a zero byte, then a zero byte, consumes both and builds to
    exactly the bytes it consumed. *)
Theorem String_parse_then_build (fuel : nat) (l : loc) (o : obj)
    (s rest written : string) (sid : nat) (st : state) :
  heap st !! l = Some o → o_cls o = C_String → plain o →
  no_nul s = true →
  streams st !! sid = Some (mkStream ((s +:+ NUL) +:+ rest) written) →
  ∃ st', _pfp__parse (S fuel) l (VStream sid) st = (Ok VNone, st') ∧
         streams st' !! sid = Some (mkStream rest written) ∧
         _pfp__build (S fuel) l VNone st' = (Ok (VStr (s +:+ NUL)), st').
Proof.
  intros H Hc Hp Hs Hst. destruct (string_attrs _ Hc Hp) as [Hrs Hterm].
  eexists. split.
  { rewrite _pfp__parse_S, (bind_ok _ _ _ _ _ (get_obj_ok _ _ _ H)), Hc.
    change (defining_class C_String "_pfp__parse") with (Some C_String).
    cbv beta iota. by apply String_parse_ok. }
  set (o' := with_attr "_pfp__value" (VStr s) o).
  set (st1 := upd_stream _ _ _).
  assert (H' : heap (upd_heap l o' st1) !! l = Some o') by (by eapply heap_upd_same).
  split; [by eapply streams_upd_same|].
  rewrite _pfp__build_S, (bind_ok _ _ _ _ _ (get_obj_ok _ _ _ H')).
  change (o_cls o') with (o_cls o). rewrite Hc.
  change (defining_class C_String "_pfp__build") with (Some C_String).
  cbv beta iota. unfold String__pfp__build.
  by rewrite (bind_ok _ _ _ _ _ (py_getattr_ok _ _ _ _ _ H' (attr_of_with_attr_same _ _ _))).
Qed.

Lemma String_parse_then_build_witness :
  ∃ st', _pfp__parse 1 3 (VStream 0)
           (upd_stream 0 (mkStream (("hi" +:+ NUL) +:+ "x") "") fields_state) =
           (Ok VNone, st') ∧
         streams st' !! 0 = Some (mkStream "x" "") ∧
         _pfp__build 1 3 VNone st' = (Ok (VStr ("hi" +:+ NUL)), st').
Proof.
  apply (String_parse_then_build 0 3
           (with_attr "_pfp__value" (VStr "ab") (new_obj C_String))
           "hi" "x" "" 0
           (upd_stream 0 (mkStream (("hi" +:+ NUL) +:+ "x") "") fields_state));
    [reflexivity | reflexivity | by repeat split | reflexivity | reflexivity].
Defined.

Section Utf16Inverse.
Local Open Scope Z_scope.
Import utf_16_le.

(** Well-formed UTF-16 is the encoding of the text it decodes to. *)
Lemma units_of_combine n :
  ∀ us cs, (length us ≤ n)%nat → Forall (λ x, 0 < x < 65536) us →
    combine us = Some cs → units_of cs = us.
Proof.
  induction n as [|n IH]; intros us cs Hn Hall Hc.
  - destruct us; [|simpl in Hn; lia]. by injection Hc as <-.
  - destruct us as [|u r]; [by injection Hc as <-|].
    apply Forall_cons in Hall as [Hu Hr]. cbn [combine] in Hc.
    unfold is_high_surrogate, is_low_surrogate in Hc.
    destruct (Z.leb_spec 0xD800 u), (Z.leb_spec u 0xDBFF); simpl in Hc.
    + destruct r as [|lo r']; [done|]. apply Forall_cons in Hr as [Hlo Hr'].
      destruct (Z.leb_spec 0xDC00 lo), (Z.leb_spec lo 0xDFFF);
        simpl in Hc; try done.
      destruct (combine r') as [cs'|] eqn:E; [|done]. injection Hc as <-.
      cbn [units_of]. rewrite (IH r' cs') by (done || simpl in Hn; lia).
      destruct (Z.ltb_spec (65536 + (u - 55296) * 1024 + (lo - 56320)) 65536);
        [lia|].
      simpl. f_equal; [|f_equal].
      * assert ((65536 + (u - 55296) * 1024 + (lo - 56320) - 65536) / 1024
                = u - 55296) as ->; [|lia].
        symmetry. apply Z.div_unique with (lo - 56320); lia.
      * assert ((65536 + (u - 55296) * 1024 + (lo - 56320) - 65536) mod 1024
                = lo - 56320) as ->; [|lia].
        symmetry. apply Z.mod_unique with (u - 55296); lia.
    + destruct (Z.leb_spec 0xDC00 u), (Z.leb_spec u 0xDFFF);
        simpl in Hc; try done; try lia;
        (destruct (combine r) as [cs'|] eqn:E; [|done]; injection Hc as <-;
         cbn [units_of]; rewrite (IH r cs') by (done || simpl in Hn; lia);
         destruct (Z.ltb_spec u 65536); [done|lia]).
    + destruct (Z.leb_spec 0xDC00 u), (Z.leb_spec u 0xDFFF);
        simpl in Hc; try done; try lia;
        (destruct (combine r) as [cs'|] eqn:E; [|done]; injection Hc as <-;
         cbn [units_of]; rewrite (IH r cs') by (done || simpl in Hn; lia);
         destruct (Z.ltb_spec u 65536); [done|lia]).
    + lia.
Qed.
End Utf16Inverse.

Lemma with_attr_twice name v w o :
  with_attr name w (with_attr name v o) = with_attr name w o.
Proof. unfold with_attr, set_dict. simpl. by rewrite insert_insert_eq. Qed.

(** [WString._pfp__parse] on the bytes of the 16-bit units [us], none
    of them zero, followed by the terminator. *)
Lemma WString_parse_units l o sid us rest written st :
  heap st !! l = Some o →
  attr_of o "read_size" = Some (VInt 2) →
  attr_of o "terminator" = Some (VStr (NUL +:+ NUL)) →
  Forall (λ x, 0 < x < 65536)%Z us →
  streams st !! sid =
    Some (mkStream ((str_concat (utf_16_le.unit_bytes <$> us) +:+ NUL +:+ NUL)
                    +:+ rest) written) →
  WString__pfp__parse l (VStream sid) st =
    match utf_16_le.combine us with
    | Some cs =>
        (Ok VNone,
         upd_heap l (with_attr "_pfp__value" (VUni cs) o)
           (upd_stream sid (mkStream rest written) st))
    | None =>
        (Raise UnicodeError,
         upd_heap l
           (with_attr "_pfp__value"
              (VStr (str_concat (utf_16_le.unit_bytes <$> us))) o)
           (upd_stream sid (mkStream rest written) st))
    end.
Proof.
  intros H Hrs Hterm Hu Hst. unfold WString__pfp__parse.
  set (raw := str_concat _) in *.
  assert (Hparse : String__pfp__parse l (VStream sid) st =
    (Ok VNone,
     upd_heap l (with_attr "_pfp__value" (VStr raw) o)
       (upd_stream sid (mkStream rest written) st))).
  { eapply (String_parse_chunks l o sid 2 (NUL +:+ NUL) rest written);
      [done|done|done|lia| |done|].
    - apply Forall_fmap. eapply Forall_impl; [done|].
      intros x Hx. by apply unit_bytes_chunk.
    - by rewrite <- str_app_assoc. }
  rewrite (bind_ok _ _ _ _ _ Hparse).
  set (o1 := with_attr "_pfp__value" (VStr raw) o).
  set (st1 := upd_stream _ _ _).
  assert (H1 : heap (upd_heap l o1 st1) !! l = Some o1) by (by eapply heap_upd_same).
  rewrite (bind_ok _ _ _ _ _ (py_getattr_ok _ _ _ _ _ H1 (attr_of_with_attr_same _ _ _))).
  unfold py_decode_utf_16_le, utf_16_le.decode, raw.
  rewrite units_unit_bytes by done.
  destruct (utf_16_le.combine us) as [cs|]; [|by rewrite bind_lift].
  rewrite bind_lift_ok.
  erewrite (bind_ok (object___setattr__ _ _ _));
    [|by apply object_setattr_ok; [done|name_solver]].
  rewrite upd_heap_twice. unfold o1. by rewrite with_attr_twice.
Qed.

(** X17: a [WString] parsed from a stream that holds well-formed
    UTF-16LE without a zero unit, then the two-byte terminator, holds
    the decoded text and builds to exactly the bytes it consumed. *)
Theorem WString_parse_then_build (fuel : nat) (l : loc) (o : obj)
    (us cs : list Z) (rest written : string) (sid : nat) (st : state) :
  heap st !! l = Some o → o_cls o = C_WString → plain o →
  Forall (λ x, 0 < x < 65536)%Z us → utf_16_le.combine us = Some cs →
  streams st !! sid =
    Some (mkStream ((str_concat (utf_16_le.unit_bytes <$> us) +:+ NUL +:+ NUL)
                    +:+ rest) written) →
  ∃ st', _pfp__parse (S fuel) l (VStream sid) st = (Ok VNone, st') ∧
         stored_value l st' = Some (VUni cs) ∧
         streams st' !! sid = Some (mkStream rest written) ∧
         _pfp__build (S fuel) l VNone st' =
           (Ok (VStr (str_concat (utf_16_le.unit_bytes <$> us) +:+ NUL +:+ NUL)),
            st').
Proof.
  intros H Hc Hp Hu Hcs Hst. destruct (wstring_attrs _ Hc Hp) as [Hrs Hterm].
  eexists. split.
  { rewrite _pfp__parse_S, (bind_ok _ _ _ _ _ (get_obj_ok _ _ _ H)), Hc.
    change (defining_class C_WString "_pfp__parse") with (Some C_WString).
    cbv beta iota.
    by rewrite (WString_parse_units _ _ _ _ _ _ _ H Hrs Hterm Hu Hst), Hcs. }
  set (o' := with_attr "_pfp__value" (VUni cs) o).
  set (st1 := upd_stream _ _ _).
  assert (H' : heap (upd_heap l o' st1) !! l = Some o') by (by eapply heap_upd_same).
  split.
  { unfold stored_value. rewrite H'. simpl. by rewrite lookup_insert_eq. }
  split; [by eapply streams_upd_same|].
  rewrite _pfp__build_S, (bind_ok _ _ _ _ _ (get_obj_ok _ _ _ H')).
  change (o_cls o') with (o_cls o). rewrite Hc.
  change (defining_class C_WString "_pfp__build") with (Some C_WString).
  cbv beta iota. unfold WString__pfp__build.
  rewrite (bind_ok _ _ _ _ _ (py_getattr_ok _ _ _ _ _ H' (attr_of_with_attr_same _ _ _))).
  simpl py_encode_utf_16_le. rewrite bind_lift_ok.
  rewrite encode_units, (units_of_combine (length us) us cs) by done.
  done.
Qed.

(** X18: a [WString] parsed from bytes that are not well-formed
    UTF-16 (a surrogate without its partner) raises the codec's
    [UnicodeError] after the terminator has been consumed, and the
    field is left holding the undecoded bytes. *)
Theorem WString_parse_ill_formed (fuel : nat) (l : loc) (o : obj)
    (us : list Z) (rest written : string) (sid : nat) (st : state) :
  heap st !! l = Some o → o_cls o = C_WString → plain o →
  Forall (λ x, 0 < x < 65536)%Z us → utf_16_le.combine us = None →
  streams st !! sid =
    Some (mkStream ((str_concat (utf_16_le.unit_bytes <$> us) +:+ NUL +:+ NUL)
                    +:+ rest) written) →
  ∃ st', _pfp__parse (S fuel) l (VStream sid) st = (Raise UnicodeError, st') ∧
         stored_value l st' =
           Some (VStr (str_concat (utf_16_le.unit_bytes <$> us))) ∧
         streams st' !! sid = Some (mkStream rest written).
Proof.
  intros H Hc Hp Hu Hcs Hst. destruct (wstring_attrs _ Hc Hp) as [Hrs Hterm].
  eexists. split.
  { rewrite _pfp__parse_S, (bind_ok _ _ _ _ _ (get_obj_ok _ _ _ H)), Hc.
    change (defining_class C_WString "_pfp__parse") with (Some C_WString).
    cbv beta iota.
    by rewrite (WString_parse_units _ _ _ _ _ _ _ H Hrs Hterm Hu Hst), Hcs. }
  split.
  { unfold stored_value. erewrite heap_upd_same by done. simpl.
    by rewrite lookup_insert_eq. }
  by eapply streams_upd_same.
Qed.

Lemma WString_parse_then_build_witness :
  let us := [65; 0xD83D; 0xDE00]%Z in
  let raw := str_concat (utf_16_le.unit_bytes <$> us) in
  ∃ st', _pfp__parse 1 0 (VStream 0)
           (wstring_state ((raw +:+ NUL +:+ NUL) +:+ "x")) = (Ok VNone, st') ∧
         stored_value 0 st' = Some (VUni [65; 0x1F600]%Z) ∧
         streams st' !! 0 = Some (mkStream "x" "") ∧
         _pfp__build 1 0 VNone st' = (Ok (VStr (raw +:+ NUL +:+ NUL)), st').
Proof.
  intros us raw.
  apply (WString_parse_then_build 0 0 (new_obj C_WString) us
           [65; 0x1F600]%Z "x" "" 0
           (wstring_state ((raw +:+ NUL +:+ NUL) +:+ "x")));
    [reflexivity | reflexivity | by repeat split
    | repeat (constructor; [lia|]); constructor | reflexivity | reflexivity].
Defined.

Lemma WString_parse_ill_formed_witness :
  let us := [0xD800; 65]%Z in
  let raw := str_concat (utf_16_le.unit_bytes <$> us) in
  ∃ st', _pfp__parse 1 0 (VStream 0)
           (wstring_state ((raw +:+ NUL +:+ NUL) +:+ "x")) =
           (Raise UnicodeError, st') ∧
         stored_value 0 st' = Some (VStr raw) ∧
         streams st' !! 0 = Some (mkStream "x" "").
Proof.
  intros us raw.
  apply (WString_parse_ill_formed 0 0 (new_obj C_WString) us "x" "" 0
           (wstring_state ((raw +:+ NUL +:+ NUL) +:+ "x")));
    [reflexivity | reflexivity | by repeat split
    | repeat (constructor; [lia|]); constructor | reflexivity | reflexivity].
Defined.

(** One turn of the read loop on a stream that starts with [c]. *)
Lemma String_read_loop_step l o sid k term written c tail acc f st :
  attr_of o "read_size" = Some (VInt (Z.of_nat k)) →
  attr_of o "terminator" = Some (VStr term) →
  heap st !! l = Some o → String.length c = k →
  streams st !! sid = Some (mkStream (c +:+ tail) written) →
  String_read_loop (S f) l (VStream sid) acc st =
    if String.eqb c term then
      (Ok acc, upd_stream sid (mkStream tail written) st)
    else
      String_read_loop f l (VStream sid) (acc +:+ c)
        (upd_stream sid (mkStream tail written) st).
Proof.
  intros Hrs Hterm H Hc Hs. cbn [String_read_loop].
  unfold stream_method. rewrite bind_ret.
  rewrite (bind_ok _ _ _ _ _ (py_getattr_ok _ _ _ _ _ H Hrs)).
  rewrite (bind_ok _ _ _ _ _ (stream_read_ok _ _ _ _ Hs (Nat2Z.is_nonneg k))).
  rewrite Nat2Z.id. simpl s_unread. simpl s_written.
  rewrite <- Hc, str_take_app, str_drop_app.
  set (st1 := upd_stream _ _ _).
  assert (H1 : heap st1 !! l = Some o) by done.
  rewrite (bind_ok _ _ _ _ _ (py_getattr_ok _ _ _ _ _ H1 Hrs)).
  unfold py_lt. rewrite bind_lift_ok, Hc, Z.ltb_irrefl.
  rewrite (bind_ok _ _ _ _ _ (py_getattr_ok _ _ _ _ _ H1 Hterm)).
  unfold py_str_eq. rewrite bind_lift_ok.
  by destruct (String.eqb c term).
Qed.

(** The last turn, on fewer bytes than the loop asks for. *)
Lemma String_read_loop_short l o sid k written tail acc f st :
  attr_of o "read_size" = Some (VInt (Z.of_nat k)) →
  heap st !! l = Some o → String.length tail < k →
  streams st !! sid = Some (mkStream tail written) →
  String_read_loop (S f) l (VStream sid) acc st =
    (Raise PrematureEOF, upd_stream sid (mkStream "" written) st).
Proof.
  intros Hrs H Hc Hs. cbn [String_read_loop].
  unfold stream_method. rewrite bind_ret.
  rewrite (bind_ok _ _ _ _ _ (py_getattr_ok _ _ _ _ _ H Hrs)).
  rewrite (bind_ok _ _ _ _ _ (stream_read_ok _ _ _ _ Hs (Nat2Z.is_nonneg k))).
  rewrite Nat2Z.id. simpl s_unread. simpl s_written.
  rewrite str_drop_all by lia.
  set (st1 := upd_stream _ _ _).
  assert (H1 : heap st1 !! l = Some o) by done.
  rewrite (bind_ok _ _ _ _ _ (py_getattr_ok _ _ _ _ _ H1 Hrs)).
  unfold py_lt. rewrite bind_lift_ok, str_take_length.
  by destruct (Z.ltb_spec (Z.of_nat (k `min` String.length tail)) (Z.of_nat k));
    [|lia].
Qed.

Lemma String_read_loop_unterminated l o sid k term tail written chunks :
  attr_of o "read_size" = Some (VInt (Z.of_nat k)) →
  attr_of o "terminator" = Some (VStr term) →
  Forall (λ c, String.length c = k ∧ c ≠ term) chunks →
  String.length tail < k →
  ∀ acc fuel st,
    heap st !! l = Some o →
    length chunks < fuel →
    streams st !! sid = Some (mkStream (str_concat chunks +:+ tail) written) →
    String_read_loop fuel l (VStream sid) acc st =
      (Raise PrematureEOF, upd_stream sid (mkStream "" written) st).
Proof.
  intros Hrs Hterm Hall Htail.
  induction Hall as [|c cs [Hc Hne] _ IH]; intros acc fuel st H Hfuel Hs.
  - destruct fuel as [|f]; [simpl in Hfuel; lia|].
    simpl in Hs. rewrite str_app_nil_l in Hs.
    by eapply String_read_loop_short.
  - destruct fuel as [|f]; [simpl in Hfuel; lia|].
    simpl in Hs. rewrite str_app_assoc in Hs.
    rewrite (String_read_loop_step _ _ _ _ _ _ _ _ acc f _ Hrs Hterm H Hc Hs).
    apply String.eqb_neq in Hne. rewrite Hne.
    rewrite IH; [|done|simpl in Hfuel; lia|by eapply streams_upd_same].
    by rewrite upd_stream_twice.
Qed.

(** X19: a [String] or [WString] parsed from a stream that ends
    before a terminator is met raises [PrematureEOF]; the stream is
    consumed to its end and the store, hence the value the field
    held, is as it was. *)
Theorem String_parse_unterminated (fuel : nat) (l : loc) (o : obj) (k : nat)
    (term tail written : string) (chunks : list string) (sid : nat)
    (st : state) :
  heap st !! l = Some o → o_cls o = C_String ∨ o_cls o = C_WString →
  attr_of o "read_size" = Some (VInt (Z.of_nat k)) →
  attr_of o "terminator" = Some (VStr term) →
  Forall (λ c, String.length c = k ∧ c ≠ term) chunks →
  String.length tail < k →
  streams st !! sid = Some (mkStream (str_concat chunks +:+ tail) written) →
  _pfp__parse (S fuel) l (VStream sid) st =
    (Raise PrematureEOF, upd_stream sid (mkStream "" written) st).
Proof.
  intros H Hc Hrs Hterm Hall Htail Hs.
  assert (Hparse : String__pfp__parse l (VStream sid) st =
            (Raise PrematureEOF, upd_stream sid (mkStream "" written) st)).
  { unfold String__pfp__parse.
    rewrite (bind_ok _ _ _ _ _ (unread_length_ok _ _ _ Hs)).
    erewrite (bind_raise (String_read_loop _ _ _ _)); [done|].
    eapply String_read_loop_unterminated; try done.
    simpl. rewrite str_app_length.
    rewrite (str_concat_length k) by (eapply Forall_impl; [done|by intros ? [? _]]).
    nia. }
  rewrite _pfp__parse_S, (bind_ok _ _ _ _ _ (get_obj_ok _ _ _ H)).
  destruct Hc as [-> | ->].
  - done.
  - change (defining_class C_WString "_pfp__parse") with (Some C_WString).
    cbv beta iota. unfold WString__pfp__parse.
    by rewrite (bind_raise _ _ _ _ _ Hparse).
Qed.

Lemma String_parse_unterminated_witness :
  _pfp__parse 1 0 (VStream 0) (wstring_state (str_concat ["ab"; "cd"] +:+ "e")) =
    (Raise PrematureEOF,
     upd_stream 0 (mkStream "" "")
       (wstring_state (str_concat ["ab"; "cd"] +:+ "e"))).
Proof.
  apply (String_parse_unterminated 0 0 (new_obj C_WString) 2 (NUL +:+ NUL)
           "e" "" ["ab"; "cd"] 0
           (wstring_state (str_concat ["ab"; "cd"] +:+ "e")));
    [reflexivity | by right | reflexivity | reflexivity
    | repeat (constructor; [by split|]); constructor
    | simpl; lia | reflexivity].
Defined.

(** ** Items of an array *)

Lemma list_index_lt {A} (items : list A) i k :
  list_index items (VInt i) = Ok k → k < length items.
Proof.
  unfold list_index.
  destruct (Z.leb_spec 0 i), (Z.ltb_spec i (Z.of_nat (length items))); simpl;
    try (intros [= <-]; lia);
    destruct (Z.leb_spec (- Z.of_nat (length items)) i), (Z.ltb_spec i 0);
    simpl; try done; intros [= <-]; lia.
Qed.

Lemma list_index_length {A B} (items : list A) (items' : list B) idx :
  length items' = length items → list_index items' idx = list_index items idx.
Proof. intros Hl. unfold list_index. by rewrite Hl. Qed.

(** X20: [a[i] = field] puts the field into the slot that [i]
    denotes, so that [a[i]] returns it afterwards; the other slots
    and the number of items are unchanged, and no other object is
    touched. *)
Theorem Array_setitem_then_getitem (fuel : nat) (a : loc) (o : obj) (i : Z)
    (k : nat) (new : loc) (st : state) :
  heap st !! a = Some o →
  list_index (o_items o) (VInt i) = Ok k →
  let st' := upd_heap a (set_items (<[k := new]> (o_items o)) o) st in
  Array___setitem__ fuel a (VInt i) (VField new) st = (Ok tt, st') ∧
  Array___getitem__ a (VInt i) st' = (Ok (VField new), st') ∧
  (∀ j k', list_index (o_items o) (VInt j) = Ok k' → k' ≠ k →
     (Array___getitem__ a (VInt j) st').1 = (Array___getitem__ a (VInt j) st).1).
Proof.
  intros H Hi st'. pose proof (list_index_lt _ _ _ Hi) as Hk.
  set (o' := set_items (<[k := new]> (o_items o)) o) in *.
  assert (H' : heap st' !! a = Some o') by (by eapply heap_upd_same).
  assert (Hl : length (o_items o') = length (o_items o))
    by (by simpl; rewrite length_insert).
  split; [|split].
  - unfold Array___setitem__.
    rewrite (bind_ok _ _ _ _ _ (get_obj_ok _ _ _ H)), Hi, bind_lift_ok.
    by rewrite (modify_obj_ok _ _ _ _ H).
  - unfold Array___getitem__.
    rewrite (bind_ok _ _ _ _ _ (get_obj_ok _ _ _ H')).
    rewrite (list_index_length _ _ _ Hl), Hi, bind_lift_ok. simpl.
    by rewrite list_lookup_insert_eq.
  - intros j k' Hj Hne. unfold Array___getitem__.
    rewrite (bind_ok _ _ _ _ _ (get_obj_ok _ _ _ H')).
    rewrite (bind_ok _ _ _ _ _ (get_obj_ok _ _ _ H)).
    rewrite (list_index_length _ _ _ Hl), Hj, !bind_lift_ok. simpl.
    rewrite list_lookup_insert_ne by done.
    by destruct (o_items o !! k').
Qed.

Lemma Array_setitem_then_getitem_witness :
  let st := mkState [set_items [1; 2] (new_obj C_Array); new_obj C_Int;
                     new_obj C_Int; new_obj C_Short] [] in
  let st' := upd_heap 0 (set_items (<[1 := 3]> [1; 2])
                           (set_items [1; 2] (new_obj C_Array))) st in
  Array___setitem__ 0 0 (VInt (-1)) (VField 3) st = (Ok tt, st') ∧
  Array___getitem__ 0 (VInt (-1)) st' = (Ok (VField 3), st') ∧
  (∀ j k', list_index [1; 2] (VInt j) = Ok k' → k' ≠ 1 →
     (Array___getitem__ 0 (VInt j) st').1 = (Array___getitem__ 0 (VInt j) st).1).
Proof.
  intros st.
  apply (Array_setitem_then_getitem 0 0 (set_items [1; 2] (new_obj C_Array))
           (-1) 1 3 st); reflexivity.
Defined.

Lemma set_value_scalar f l o v st :
  heap st !! l = Some o →
  (is_struct (o_cls o) = true → o_children_map o !! "_pfp__value" = None) →
  isinstance_Field v = false →
  Field__pfp__set_value (S f) l v st =
    (Ok tt, upd_heap l (with_attr "_pfp__value" v o) st).
Proof.
  intros H Hm Hv. unfold Field__pfp__set_value, Field__pfp__get_root_value.
  destruct v; try done; rewrite bind_ret;
    (apply py_setattr_unindexed; [done|done|name_solver]).
Qed.

(** X21: [a[i] = v] with a bare value [v] keeps the item and assigns
    [v] as its value: [a[i]] is the same field afterwards, now
    holding [v]. *)
Theorem Array_setitem_scalar_sets_value (fuel : nat) (a item : loc)
    (o oi : obj) (i : Z) (k : nat) (v : PyVal) (st : state) :
  heap st !! a = Some o →
  list_index (o_items o) (VInt i) = Ok k → o_items o !! k = Some item →
  heap st !! item = Some oi →
  (is_struct (o_cls oi) = true → o_children_map oi !! "_pfp__value" = None) →
  isinstance_Field v = false →
  let st' := upd_heap item (with_attr "_pfp__value" v oi) st in
  Array___setitem__ (S fuel) a (VInt i) v st = (Ok tt, st') ∧
  Array___getitem__ a (VInt i) st' = (Ok (VField item), st') ∧
  stored_value item st' = Some v.
Proof.
  intros H Hi Hk Hit Hm Hv st'. split; [|split].
  - unfold Array___setitem__.
    destruct v; try done;
      rewrite (bind_ok _ _ _ _ _ (get_obj_ok _ _ _ H)), Hi, bind_lift_ok, Hk;
      by apply set_value_scalar.
  - unfold Array___getitem__.
    assert (∃ o', heap st' !! a = Some o' ∧ o_items o' = o_items o) as (o' & H' & Hl).
    { unfold st'. destruct (decide (item = a)) as [->|Hne].
      - eexists. split; [by eapply heap_upd_same|]. by simplify_eq.
      - exists o. by rewrite heap_upd_other. }
    rewrite (bind_ok _ _ _ _ _ (get_obj_ok _ _ _ H')), Hl, Hi, bind_lift_ok.
    by rewrite Hk.
  - unfold stored_value, st'. erewrite heap_upd_same by done. simpl.
    by rewrite lookup_insert_eq.
Qed.

Lemma Array_setitem_scalar_sets_value_witness :
  let st := mkState [set_items [1; 2] (new_obj C_Array); new_obj C_Int;
                     new_obj C_Int] [] in
  let st' := upd_heap 2 (with_attr "_pfp__value" (VInt 7) (new_obj C_Int)) st in
  Array___setitem__ 1 0 (VInt 1) (VInt 7) st = (Ok tt, st') ∧
  Array___getitem__ 0 (VInt 1) st' = (Ok (VField 2), st') ∧
  stored_value 2 st' = Some (VInt 7).
Proof.
  intros st.
  apply (Array_setitem_scalar_sets_value 0 0 2
           (set_items [1; 2] (new_obj C_Array)) (new_obj C_Int) 1 1 (VInt 7) st);
    [reflexivity | reflexivity | reflexivity | reflexivity | discriminate
    | reflexivity].
Defined.

(** X22: [_pfp__set_value] given a field stores the value that field
    holds at that moment, not the field: the target holds the value
    afterwards and the source is as it was. *)
Theorem set_value_takes_the_value_of_a_field (fuel : nat) (f g : loc)
    (o og : obj) (v : PyVal) (st : state) :
  heap st !! f = Some o →
  (is_struct (o_cls o) = true → o_children_map o !! "_pfp__value" = None) →
  heap st !! g = Some og → attr_of og "_pfp__value" = Some v →
  let st' := upd_heap f (with_attr "_pfp__value" v o) st in
  Field__pfp__set_value (S fuel) f (VField g) st = (Ok tt, st') ∧
  stored_value f st' = Some v ∧
  (g ≠ f → heap st' !! g = Some og).
Proof.
  intros H Hm Hg Hv st'. split; [|split].
  - unfold Field__pfp__set_value, Field__pfp__get_root_value.
    rewrite (bind_ok _ _ _ _ _ (py_getattr_ok _ _ _ _ _ Hg Hv)).
    apply py_setattr_unindexed; [done|done|name_solver].
  - unfold stored_value, st'. erewrite heap_upd_same by done. simpl.
    by rewrite lookup_insert_eq.
  - intros Hne. unfold st'. by rewrite heap_upd_other.
Qed.

Lemma set_value_takes_the_value_of_a_field_witness :
  let st' := upd_heap 1 (with_attr "_pfp__value" (VInt 200)
                           (with_attr "_pfp__value" (VInt 1) (new_obj C_Int)))
               fields_state in
  Field__pfp__set_value 1 1 (VField 0) fields_state = (Ok tt, st') ∧
  stored_value 1 st' = Some (VInt 200) ∧
  (0 ≠ 1 → heap st' !! 0 =
             Some (with_attr "_pfp__value" (VInt 200) (new_obj C_UChar))).
Proof.
  apply (set_value_takes_the_value_of_a_field 0 1 0
           (with_attr "_pfp__value" (VInt 1) (new_obj C_Int))
           (with_attr "_pfp__value" (VInt 200) (new_obj C_UChar))
           (VInt 200) fields_state);
    [reflexivity | discriminate | reflexivity | reflexivity].
Defined.

(** ** Arrays and their names *)

Lemma Array_parse_unnamed f a o N c sid st :
  heap st !! a = Some o → o_cls o = C_Array →
  attr_of o "width" = Some (VInt N) → (0 < N)%Z →
  attr_of o "field_cls" = Some (VClass c) → c ≠ C_Array →
  o_dict o !! "_pfp__name" = None →
  _pfp__parse (S (S f)) a (VStream sid) st =
    (Raise AttributeError,
     mkState (heap (upd_heap a (set_items [] o) st)
                ++ [with_attr "_pfp__name" VNone (new_obj c)])
             (streams st)).
Proof.
  intros H Hcls Hw HN Hfc Hc Hname.
  rewrite _pfp__parse_S, (bind_ok _ _ _ _ _ (get_obj_ok _ _ _ H)), Hcls.
  change (defining_class C_Array "_pfp__parse") with (Some C_Array).
  cbv beta iota. unfold Array__pfp__parse.
  rewrite (bind_ok _ _ _ _ _ (modify_obj_ok _ _ _ _ H)).
  set (o1 := set_items [] o). set (st1 := upd_heap a o1 st).
  assert (H1 : heap st1 !! a = Some o1) by (by eapply heap_upd_same).
  rewrite (bind_ok _ _ _ _ _ (py_getattr_ok _ _ (VInt N) _ _ H1 Hw)).
  unfold PYVAL, get_value. rewrite bind_ret. simpl py_range. rewrite bind_lift_ok.
  destruct (Z.to_nat N) as [|n] eqn:En; [lia|].
  erewrite (bind_raise (Array_parse_loop _ _ _ _ _ _)); [done|].
  cbn [Array_parse_loop].
  rewrite (bind_ok _ _ _ _ _ (py_getattr_ok _ _ (VClass c) _ _ H1 Hfc)).
  unfold call0. rewrite (bind_ok _ _ _ _ _ (construct_no_args _ _ _ _ _ Hc)).
  set (st2 := mkState _ _).
  assert (H2 : heap st2 !! a = Some o1).
  { unfold st2. simpl. by apply lookup_app_l_Some. }
  rewrite (bind_pure _ _ _ _ (py_getattr_attr_value _ "_pfp__name" _ _ H2)).
  unfold attr_value, attr_of. simpl o_dict. simpl o_cls. by rewrite Hname, Hcls.
Qed.

(** X23: an array that was given no name cannot parse even one item:
    with a positive count, [_pfp__parse] makes the first item, fails
    with [AttributeError] on the array's own [_pfp__name] before it
    reads any byte, and leaves the array without items. *)
Theorem Array_parse_without_name_raises (fuel : nat) (a : loc) (o : obj)
    (N : Z) (c : Cls) (sid : nat) (st : state) :
  heap st !! a = Some o → o_cls o = C_Array →
  attr_of o "width" = Some (VInt N) → (0 < N)%Z →
  attr_of o "field_cls" = Some (VClass c) → c ≠ C_Array →
  o_dict o !! "_pfp__name" = None →
  ∃ st', _pfp__parse (S (S fuel)) a (VStream sid) st =
           (Raise AttributeError, st') ∧
         streams st' = streams st ∧
         (o_items <$> heap st' !! a) = Some [].
Proof.
  intros H Hcls Hw HN Hfc Hc Hname. eexists.
  split; [by eapply Array_parse_unnamed|]. split; [done|].
  simpl.
  rewrite (lookup_app_l_Some _ _ _ (set_items [] o)); [done|].
  apply list_lookup_insert_eq. by eapply lookup_lt_Some.
Qed.

Lemma Array_parse_without_name_raises_witness :
  let o := with_attr "field_cls" (VClass C_Int)
             (with_attr "width" (VInt 2) (new_obj C_Array)) in
  let st := mkState [o] [mkStream "abcdefgh" ""] in
  ∃ st', _pfp__parse 2 0 (VStream 0) st = (Raise AttributeError, st') ∧
         streams st' = streams st ∧
         (o_items <$> heap st' !! 0) = Some [].
Proof.
  intros o st.
  apply (Array_parse_without_name_raises 0 0 o 2 C_Int 0 st);
    [reflexivity | reflexivity | reflexivity | lia | reflexivity
    | discriminate | reflexivity].
Defined.

Lemma Array_parse_empty f parse a o N stream st :
  heap st !! a = Some o → attr_of o "width" = Some (VInt N) → (N ≤ 0)%Z →
  Array__pfp__parse f parse a stream st =
    (Ok VNone, upd_heap a (set_items [] o) st).
Proof.
  intros H Hw HN. unfold Array__pfp__parse.
  rewrite (bind_ok _ _ _ _ _ (modify_obj_ok _ _ _ _ H)).
  set (o1 := set_items [] o). set (st1 := upd_heap a o1 st).
  assert (H1 : heap st1 !! a = Some o1) by (by eapply heap_upd_same).
  rewrite (bind_ok _ _ _ _ _ (py_getattr_ok _ _ (VInt N) _ _ H1 Hw)).
  unfold PYVAL, get_value. rewrite bind_ret. simpl py_range. rewrite bind_lift_ok.
  by replace (Z.to_nat N) with 0 by lia.
Qed.

Lemma Array_init_run parse h ss width field_cls stream :
  Array___init__ parse (length h) width field_cls stream
    (mkState (h ++ [new_obj C_Array]) ss) =
  (match stream with
   | VNone => ret tt
   | _ => parse (length h) stream ;; ret tt
   end)
    (mkState (h ++ [with_attr "field_cls" field_cls
                      (with_attr "width" width (new_obj C_Array))]) ss).
Proof.
  unfold Array___init__.
  erewrite (bind_ok (object___setattr__ _ _ _));
    [|apply object_setattr_ok; [apply lookup_new|name_solver]].
  rewrite upd_new.
  erewrite (bind_ok (object___setattr__ _ _ _));
    [|apply object_setattr_ok; [apply lookup_new|name_solver]].
  rewrite upd_new.
  erewrite (bind_ok (modify_obj _ _)); [|apply modify_obj_ok, lookup_new].
  by rewrite upd_new.
Qed.

(** An array of arrays fails on the first item it makes, named or
    not. *)
Lemma Array_parse_items_of_Array f a o N sid st :
  heap st !! a = Some o → o_cls o = C_Array →
  attr_of o "width" = Some (VInt N) → (0 < N)%Z →
  attr_of o "field_cls" = Some (VClass C_Array) →
  _pfp__parse (S f) a (VStream sid) st =
    (Raise TypeError,
     mkState (heap (upd_heap a (set_items [] o) st) ++ [new_obj C_Array])
             (streams st)).
Proof.
  intros H Hcls Hw HN Hfc.
  rewrite _pfp__parse_S, (bind_ok _ _ _ _ _ (get_obj_ok _ _ _ H)), Hcls.
  change (defining_class C_Array "_pfp__parse") with (Some C_Array).
  cbv beta iota. unfold Array__pfp__parse.
  rewrite (bind_ok _ _ _ _ _ (modify_obj_ok _ _ _ _ H)).
  set (o1 := set_items [] o). set (st1 := upd_heap a o1 st).
  assert (H1 : heap st1 !! a = Some o1) by (by eapply heap_upd_same).
  rewrite (bind_ok _ _ _ _ _ (py_getattr_ok _ _ (VInt N) _ _ H1 Hw)).
  unfold PYVAL, get_value. rewrite bind_ret. simpl py_range. rewrite bind_lift_ok.
  destruct (Z.to_nat N) as [|n] eqn:En; [lia|].
  erewrite (bind_raise (Array_parse_loop _ _ _ _ _ _)); [done|].
  cbn [Array_parse_loop].
  rewrite (bind_ok _ _ _ _ _ (py_getattr_ok _ _ (VClass C_Array) _ _ H1 Hfc)).
  unfold call0.
  by rewrite (bind_raise _ _ _ _ _ (construct_Array_no_args _ _ _ _)).
Qed.

(** X24: [Array(n, cls, stream)] parses while it constructs, before
    the array can be given a name.  With a positive count the call
    raises and no byte is read: [AttributeError], from the array's
    missing [_pfp__name], when the item class [cls] is any class but
    [Array], and [TypeError], from [Array()] itself, when the item
    class is [Array].  With a count of zero or less it returns an
    array without items, for every item class. *)
Theorem Array_constructed_with_stream (fuel : nat) (N : Z) (c : Cls)
    (sid : nat) (st : state) :
  ((0 < N)%Z → c ≠ C_Array →
   ∃ st', new (S (S fuel)) C_Array [VInt N; VClass c; VStream sid] st =
            (Raise AttributeError, st') ∧
          streams st' = streams st) ∧
  ((0 < N)%Z → c = C_Array →
   ∃ st', new (S (S fuel)) C_Array [VInt N; VClass c; VStream sid] st =
            (Raise TypeError, st') ∧
          streams st' = streams st) ∧
  ((N ≤ 0)%Z →
   new (S (S fuel)) C_Array [VInt N; VClass c; VStream sid] st =
     (Ok (length (heap st)),
      mkState (heap st ++ [with_attr "field_cls" (VClass c)
                             (with_attr "width" (VInt N) (new_obj C_Array))])
              (streams st))).
Proof.
  unfold new, construct.
  rewrite (bind_ok _ _ _ _ _ (alloc_ok _ _)).
  change (defining_class C_Array "__init__") with (Some C_Array).
  cbv beta iota.
  set (A := with_attr "field_cls" (VClass c)
              (with_attr "width" (VInt N) (new_obj C_Array))).
  set (st1 := mkState (heap st ++ [A]) (streams st)).
  assert (H1 : heap st1 !! length (heap st) = Some A) by apply lookup_new.
  split; [|split].
  - intros HN Hc.
    pose proof (Array_parse_unnamed fuel _ A N c sid st1 H1 eq_refl eq_refl HN
                  eq_refl Hc eq_refl) as Hp.
    eexists. split.
    + erewrite (bind_raise (Array___init__ _ _ _ _ _)); [reflexivity|].
      rewrite Array_init_run. fold A st1.
      by rewrite (bind_raise _ _ _ _ _ Hp).
    + done.
  - intros HN Hc.
    assert (Hfc : attr_of A "field_cls" = Some (VClass C_Array))
      by (by rewrite <- Hc).
    pose proof (Array_parse_items_of_Array (S fuel) _ A N sid st1 H1 eq_refl
                  eq_refl HN Hfc) as Hp.
    eexists. split.
    + erewrite (bind_raise (Array___init__ _ _ _ _ _)); [reflexivity|].
      rewrite Array_init_run. fold A st1.
      by rewrite (bind_raise _ _ _ _ _ Hp).
    + done.
  - intros HN.
    erewrite (bind_ok (Array___init__ _ _ _ _ _)); [reflexivity|].
    rewrite Array_init_run. fold A st1.
    erewrite (bind_ok (_pfp__parse _ _ _)); [reflexivity|].
    rewrite _pfp__parse_S, (bind_ok _ _ _ _ _ (get_obj_ok _ _ _ H1)).
    change (defining_class (o_cls A) "_pfp__parse") with (Some C_Array).
    cbv beta iota.
    rewrite (Array_parse_empty _ _ _ A N) by done.
    unfold st1. by rewrite upd_new.
Qed.

Lemma Array_constructed_with_stream_witness :
  let st := initial ["abcdefgh"] in
  (∃ st', new 2 C_Array [VInt 2; VClass C_Int; VStream 0] st =
            (Raise AttributeError, st') ∧ streams st' = streams st) ∧
  (∃ st', new 2 C_Array [VInt 2; VClass C_Array; VStream 0] st =
            (Raise TypeError, st') ∧ streams st' = streams st) ∧
  new 2 C_Array [VInt 0; VClass C_Int; VStream 0] st =
    (Ok 0,
     mkState [with_attr "field_cls" (VClass C_Int)
                (with_attr "width" (VInt 0) (new_obj C_Array))]
             (streams st)).
Proof.
  intros st. split; [|split].
  - apply (Array_constructed_with_stream 0 2 C_Int 0 st); [lia|discriminate].
  - apply (Array_constructed_with_stream 0 2 C_Array 0 st); [lia|reflexivity].
  - apply (Array_constructed_with_stream 0 0 C_Int 0 st). lia.
Defined.

(** ** An array with a name, from bytes and back *)

Lemma integer_parse_exact f l o e signed size sid t st :
  heap st !! l = Some o → is_number (o_cls o) = true → plain o →
  endian_of o e →
  codec_of (o_cls o) = Some (struct.IntCode signed size) →
  streams st !! sid = Some t → size ≤ String.length (s_unread t) →
  ∃ z a,
    attr_of o "format" = Some (VStr (String a "")) ∧
    attr_of o "endian" = Some (VStr e) ∧
    struct.pack (e +:+ String a "") (VInt z) = Ok (str_take size (s_unread t)) ∧
    _pfp__parse (S f) l (VStream sid) st =
      (Ok (VInt (Z.of_nat size)),
       upd_heap l
         (with_attr "_pfp__value" (VInt z)
            (with_attr "_pfp__data" (VStr (str_take size (s_unread t))) o))
         (upd_stream sid
            (mkStream (str_drop size (s_unread t)) (s_written t)) st)).
Proof.
  intros H Hn Hp He Hk Hs Hlen.
  destruct (integer_format _ _ _ _ Hn Hp He Hk) as (a & ord & Hf & Hw & Hend & Hpf).
  pose proof (integer_code_size _ _ _ Hn Hk) as Hsize.
  set (data := str_take size (s_unread t)).
  assert (Hdl : String.length data = size)
    by (unfold data; rewrite str_take_length; lia).
  exists (struct.unpack_int ord signed size data), a.
  split; [done|]. split; [done|]. split.
  { unfold struct.pack. rewrite Hpf. by apply pack_unpack_int. }
  rewrite _pfp__parse_S, (bind_ok _ _ _ _ _ (get_obj_ok _ _ _ H)).
  rewrite number_parse_method by done.
  pose proof (NumberBase_parse_ok l o e (String a "") (Z.of_nat size)
                (VInt (struct.unpack_int ord signed size data)) sid t st
                H Hw Hend Hf Hs) as Hparse.
  rewrite Nat2Z.id in Hparse. apply Hparse; [lia|].
  fold data. unfold struct.unpack. rewrite Hpf.
  simpl struct.calcsize. by rewrite Hdl, Nat.eqb_refl.
Qed.

Lemma str_concat_pieces n k :
  ∀ s, n * k ≤ String.length s → str_concat (pieces n k s) = str_take (n * k) s.
Proof.
  induction n as [|n IH]; intros s Hs; [done|].
  cbn [pieces str_concat]. rewrite IH by (rewrite str_drop_length; lia).
  clear IH. simpl. revert s Hs. generalize (n * k) as m. intros m.
  induction k as [|k IHk]; intros s Hs.
  - simpl. by rewrite str_app_nil_l.
  - destruct s as [|b r]; [simpl in Hs; lia|]. simpl.
    rewrite str_app_cons. f_equal. apply IHk. simpl in Hs. lia.
Qed.

Lemma Array_parse_loop_integers f g c signed size a sid pre nm :
  is_number c = true → codec_of c = Some (struct.IntCode signed size) →
  py_str nm = Ok pre →
  ∀ count x st o t,
    heap st !! a = Some o →
    attr_of o "field_cls" = Some (VClass c) →
    attr_of o "_pfp__name" = Some nm →
    streams st !! sid = Some t →
    count * size ≤ String.length (s_unread t) →
    ∃ st',
      Array_parse_loop (S f) (_pfp__parse (S f)) count x a (VStream sid) st =
        (Ok tt, st') ∧
      length (heap st') = length (heap st) + count ∧
      heap st' !! a =
        Some (set_items (o_items o ++ seq (length (heap st)) count) o) ∧
      streams st' !! sid =
        Some (mkStream (str_drop (count * size) (s_unread t)) (s_written t)) ∧
      (∀ l, l < length (heap st) → l ≠ a → heap st' !! l = heap st !! l) ∧
      Forall2 (λ item d, _pfp__build (S g) item VNone st' = (Ok (VStr d), st'))
              (seq (length (heap st)) count) (pieces count size (s_unread t)).
Proof.
  intros Hnum Hk Hnm.
  induction count as [|n IH]; intros x st o t H Hfc Hname Hs Hlen.
  - exists st. simpl. rewrite Nat.add_0_r, app_nil_r, set_items_same.
    destruct t. repeat split; try done; constructor.
  - cbn [Array_parse_loop].
    pose proof (lookup_lt_Some _ _ _ H) as Ha.
    set (L := length (heap st)) in *.
    rewrite (bind_ok _ _ _ _ _ (py_getattr_ok _ _ _ _ _ H Hfc)).
    unfold call0.
    rewrite (bind_ok _ _ _ _ _ (construct_leaf _ _ _ _ _ (number_is_leaf _ Hnum))).
    fold L.
    set (e0 := with_attr "_pfp__name" VNone (new_obj c)).
    set (st1 := mkState (heap st ++ [e0]) (streams st)).
    assert (H1a : heap st1 !! a = Some o) by (simpl; by rewrite lookup_app_l).
    assert (H1L : heap st1 !! L = Some e0) by apply lookup_new.
    rewrite (bind_ok _ _ _ _ _ (py_getattr_ok _ _ _ _ _ H1a Hname)).
    unfold format_index. rewrite Hnm. cbn [py_str]. rewrite bind_lift_ok.
    set (s := pre +:+ "[" +:+ pretty x +:+ "]").
    erewrite (bind_ok (py_setattr _ _ _ _));
      [|by eapply py_setattr_object; [done|by destruct c|name_solver]].
    set (e1 := with_attr "_pfp__name" (VStr s) e0).
    set (st2 := upd_heap L e1 st1).
    assert (H2L : heap st2 !! L = Some e1) by (by eapply heap_upd_same).
    assert (H2s : streams st2 !! sid = Some t) by done.
    assert (He1 : endian_of e1 BIG_ENDIAN).
    { split; [|by left]. unfold attr_of. simpl. by apply number_class_endian. }
    destruct (integer_parse_exact f L e1 BIG_ENDIAN signed size sid t st2 H2L)
      as (z & b & Hfmt & Hend & Hpack & Hparse); [done|done|done|done|done|lia|].
    rewrite (bind_ok _ _ _ _ _ Hparse).
    set (e2 := with_attr "_pfp__value" (VInt z) _).
    set (t' := mkStream _ _).
    set (st3 := upd_heap L e2 (upd_stream sid t' st2)).
    assert (H3a : heap st3 !! a = Some o).
    { unfold st3, st2. simpl. rewrite !list_lookup_insert_ne by lia.
      by rewrite lookup_app_l. }
    rewrite (bind_ok _ _ _ _ _ (modify_obj_ok _ _ _ _ H3a)).
    set (o4 := set_items (o_items o ++ [L]) o).
    set (st4 := upd_heap a o4 st3).
    assert (Hlen4 : length (heap st4) = S L).
    { unfold st4, st3, st2, st1. simpl.
      rewrite !length_insert, length_app. simpl. lia. }
    assert (H4s : streams st4 !! sid = Some t').
    { unfold st4, st3. simpl. apply list_lookup_insert_eq.
      by eapply lookup_lt_Some. }
    assert (H4L : heap st4 !! L = Some e2).
    { unfold st4. rewrite heap_upd_other by lia. by eapply heap_upd_same. }
    destruct (IH (x + 1)%Z st4 o4 t')
      as (st' & Hloop & Hl & Hitems & Hstr & Hframe & Hbuilt).
    + by eapply heap_upd_same.
    + done.
    + done.
    + done.
    + unfold t'. simpl. rewrite str_drop_length. simpl in Hlen. lia.
    + exists st'. split; [done|]. rewrite Hlen4 in *.
      split; [lia|]. split; [|split; [|split]].
      * rewrite Hitems. unfold o4. simpl. by rewrite <- app_assoc.
      * rewrite Hstr. unfold t'. simpl. by rewrite str_drop_drop.
      * intros l Hl' Hne. rewrite Hframe by lia.
        unfold st4, st3, st2, st1. simpl.
        rewrite !list_lookup_insert_ne by lia. by rewrite lookup_app_l.
      * cbn [seq pieces]. constructor; [|done].
        assert (HL' : heap st' !! L = Some e2) by (rewrite Hframe by lia; done).
        rewrite _pfp__build_S, (bind_ok _ _ _ _ _ (get_obj_ok _ _ _ HL')).
        change (o_cls e2) with c. rewrite number_build_method by done.
        eapply NumberBase_build_ok; [done| | | |done]; unfold e2.
        -- by rewrite !attr_of_with_attr_other.
        -- by rewrite !attr_of_with_attr_other.
        -- by rewrite attr_of_with_attr_same.
Qed.

(** X25: an array that has a name, with an integer count [N] and an
    integer element class of [size] bytes, parsed from a stream that
    holds enough bytes: it makes [N] new items in order, consumes
    [N * size] bytes, and builds to exactly the bytes it consumed. *)
Theorem Array_parse_then_build (fuel : nat) (a : loc) (o : obj) (N : Z)
    (c : Cls) (signed : bool) (size : nat) (nm : PyVal) (pre : string)
    (sid : nat) (t : stream) (st : state) :
  heap st !! a = Some o → o_cls o = C_Array →
  attr_of o "width" = Some (VInt N) →
  attr_of o "field_cls" = Some (VClass c) →
  is_number c = true → codec_of c = Some (struct.IntCode signed size) →
  attr_of o "_pfp__name" = Some nm → py_str nm = Ok pre →
  streams st !! sid = Some t →
  Z.to_nat N * size ≤ String.length (s_unread t) →
  ∃ st',
    _pfp__parse (S (S fuel)) a (VStream sid) st = (Ok VNone, st') ∧
    (o_items <$> heap st' !! a) = Some (seq (length (heap st)) (Z.to_nat N)) ∧
    streams st' !! sid =
      Some (mkStream (str_drop (Z.to_nat N * size) (s_unread t)) (s_written t)) ∧
    _pfp__build (S (S fuel)) a VNone st' =
      (Ok (VStr (str_take (Z.to_nat N * size) (s_unread t))), st').
Proof.
  intros H Hcls Hwidth Hfc Hnum Hk Hname Hnm Hs Hlen.
  rewrite _pfp__parse_S, (bind_ok _ _ _ _ _ (get_obj_ok _ _ _ H)), Hcls.
  change (defining_class C_Array "_pfp__parse") with (Some C_Array).
  cbv beta iota. unfold Array__pfp__parse.
  rewrite (bind_ok _ _ _ _ _ (modify_obj_ok _ _ _ _ H)).
  set (o1 := set_items [] o). set (st1 := upd_heap a o1 st).
  assert (H1 : heap st1 !! a = Some o1) by (by eapply heap_upd_same).
  rewrite (bind_ok _ _ _ _ _ (py_getattr_ok _ _ (VInt N) _ _ H1 Hwidth)).
  unfold PYVAL, get_value. rewrite bind_ret. cbn [py_range]. rewrite bind_lift_ok.
  destruct (Array_parse_loop_integers fuel fuel c signed size a sid pre nm Hnum Hk Hnm
              (Z.to_nat N) 0%Z st1 o1 t)
    as (st' & Hloop & Hl & Hitems & Hstr & _ & Hbuilt); [done..|].
  rewrite (bind_ok _ _ _ _ _ Hloop).
  assert (length (heap st1) = length (heap st)) as Hl1
    by (unfold st1; simpl; by rewrite length_insert).
  rewrite Hl1 in *. exists st'. split; [done|].
  split; [by rewrite Hitems|]. split; [done|].
  rewrite _pfp__build_S, (bind_ok _ _ _ _ _ (get_obj_ok _ _ _ Hitems)).
  change (o_cls (set_items _ o1)) with (o_cls o). rewrite Hcls.
  change (defining_class C_Array "_pfp__build") with (Some C_Array).
  cbv beta iota. unfold Array__pfp__build.
  rewrite (bind_ok _ _ _ _ _ (get_obj_ok _ _ _ Hitems)).
  simpl o_items.
  rewrite (accumulate_strings _ _ _ _ Hbuilt), str_app_nil_l.
  by rewrite str_concat_pieces.
Qed.

Lemma Array_parse_then_build_witness :
  ∃ st',
    _pfp__parse 2 0 (VStream 0) named_array_state = (Ok VNone, st') ∧
    (o_items <$> heap st' !! 0) =
      Some (seq (length (heap named_array_state)) (Z.to_nat 2)) ∧
    streams st' !! 0 =
      Some (mkStream (str_drop (Z.to_nat 2 * 2) "abcde") "") ∧
    _pfp__build 2 0 VNone st' =
      (Ok (VStr (str_take (Z.to_nat 2 * 2) "abcde")), st').
Proof.
  apply (Array_parse_then_build 0 0
           (with_attr "_pfp__name" (VStr "a")
              (with_attr "field_cls" (VClass C_Short)
                 (with_attr "width" (VInt 2) (new_obj C_Array))))
           2 C_Short true 2 (VStr "a") "a" 0 (mkStream "abcde" "")
           named_array_state);
    [reflexivity | reflexivity | reflexivity | reflexivity | reflexivity
    | reflexivity | reflexivity | reflexivity | reflexivity | simpl; lia].
Defined.

(** ** A struct of integers, from bytes and back *)

Lemma str_concat_slices sizes :
  ∀ s, sum_list sizes ≤ String.length s →
    str_concat (slices sizes s) = str_take (sum_list sizes) s.
Proof.
  induction sizes as [|k r IH]; intros s Hs; [done|].
  change (sum_list (k :: r)) with (k + sum_list r) in *.
  cbn [slices str_concat].
  rewrite IH by (rewrite str_drop_length; lia).
  clear IH. revert s Hs. generalize (sum_list r) as m. intros m.
  induction k as [|k IHk]; intros s Hs.
  - simpl. by rewrite str_app_nil_l.
  - destruct s as [|b t]; [simpl in Hs; lia|]. simpl.
    rewrite str_app_cons. f_equal. apply IHk. simpl in Hs. lia.
Qed.

Lemma integer_field_kept st l size l' o' v d :
  integer_field st l size → heap st !! l' = Some o' →
  ∀ st0, heap st0 = <[l' := with_attr "_pfp__value" v
                              (with_attr "_pfp__data" d o')]> (heap st) →
    integer_field st0 l size.
Proof.
  intros (o & e & sg & H & Hn & Hp & He & Hk) H' st0 Hst0.
  destruct (decide (l = l')) as [<-|Hne].
  - simplify_eq. eexists _, e, sg. rewrite Hst0.
    split; [apply list_lookup_insert_eq; by eapply lookup_lt_Some|].
    split; [done|]. split; [|split; [|done]].
    + destruct Hp as (? & ? & ? & ?). unfold plain, with_attr. simpl.
      by rewrite !lookup_insert_ne.
    + destruct He as [He ?]. split; [|done].
      by rewrite !attr_of_with_attr_other.
  - exists o, e, sg. rewrite Hst0, list_lookup_insert_ne by done. done.
Qed.

Lemma accumulate_integers f sid :
  ∀ cs sizes acc st t,
    NoDup cs → Forall2 (integer_field st) cs sizes →
    streams st !! sid = Some t →
    sum_list sizes ≤ String.length (s_unread t) →
    ∃ st',
      accumulate (_pfp__parse (S f)) cs (VStream sid) (VInt acc) st =
        (Ok (VInt (acc + Z.of_nat (sum_list sizes))), st') ∧
      streams st' !! sid =
        Some (mkStream (str_drop (sum_list sizes) (s_unread t)) (s_written t)) ∧
      (∀ l, l ∉ cs → heap st' !! l = heap st !! l) ∧
      Forall2 (λ c d, ∀ g, _pfp__build (S g) c VNone st' = (Ok (VStr d), st'))
              cs (slices sizes (s_unread t)).
Proof.
  induction cs as [|c cs IH]; intros sizes acc st t Hnd Hall Hs Hlen.
  - apply Forall2_nil_inv_l in Hall as ->. exists st. simpl.
    rewrite Z.add_0_r. destruct t. repeat split; try done; constructor.
  - apply Forall2_cons_inv_l in Hall as (size & sizes' & Hc & Hcs & ->).
    apply NoDup_cons in Hnd as [Hnotin Hnd].
    change (sum_list (size :: sizes')) with (size + sum_list sizes') in *.
    pose proof Hc as (o & e & sg & H & Hn & Hp & He & Hk).
    destruct (integer_parse_exact f c o e sg size sid t st H Hn Hp He Hk Hs)
      as (z & a & Hfmt & Hend & Hpack & Hparse); [lia|].
    set (e2 := with_attr "_pfp__value" (VInt z) _) in Hparse.
    set (t1 := mkStream _ _) in Hparse.
    set (st1 := upd_heap c e2 (upd_stream sid t1 st)) in Hparse.
    assert (Hcs1 : Forall2 (integer_field st1) cs sizes').
    { eapply Forall2_impl; [done|]. intros l k Hl.
      by eapply integer_field_kept. }
    assert (Hs1 : streams st1 !! sid = Some t1).
    { simpl. apply list_lookup_insert_eq. by eapply lookup_lt_Some. }
    destruct (IH sizes' (acc + Z.of_nat size)%Z st1 t1 Hnd Hcs1 Hs1)
      as (st' & Hacc & Hs' & Hframe & Hbuilt).
    { unfold t1. simpl. rewrite str_drop_length. lia. }
    exists st'. cbn [accumulate]. rewrite (bind_ok _ _ _ _ _ Hparse).
    cbn [py_binop int_binop]. rewrite bind_lift_ok, Hacc.
    split; [do 3 f_equal; lia|]. split; [|split].
    + rewrite Hs'. unfold t1. simpl. by rewrite str_drop_drop.
    + intros l [Hne Hl]%not_elem_of_cons. rewrite Hframe by done.
      unfold st1. by rewrite heap_upd_other.
    + cbn [slices]. constructor; [|done]. intros g.
      assert (Hc' : heap st' !! c = Some e2).
      { rewrite Hframe by done. unfold st1. by eapply heap_upd_same. }
      rewrite _pfp__build_S, (bind_ok _ _ _ _ _ (get_obj_ok _ _ _ Hc')).
      change (o_cls e2) with (o_cls o). rewrite number_build_method by done.
      eapply NumberBase_build_ok; [done| | | |done]; unfold e2.
      * by rewrite !attr_of_with_attr_other.
      * by rewrite !attr_of_with_attr_other.
      * by rewrite attr_of_with_attr_same.
Qed.

(** X26: a struct whose children are distinct fields of integer
    classes, parsed from a stream that holds enough bytes, returns
    the number of bytes it consumed and builds to exactly those
    bytes, the children in the order of the child sequence. *)
Theorem Struct_parse_then_build (fuel : nat) (s : loc) (o : obj)
    (sizes : list nat) (sid : nat) (t : stream) (st : state) :
  heap st !! s = Some o → is_struct (o_cls o) = true →
  NoDup (o_children o) →
  Forall2 (integer_field st) (o_children o) sizes →
  streams st !! sid = Some t →
  sum_list sizes ≤ String.length (s_unread t) →
  ∃ st',
    _pfp__parse (S (S fuel)) s (VStream sid) st =
      (Ok (VInt (Z.of_nat (sum_list sizes))), st') ∧
    streams st' !! sid =
      Some (mkStream (str_drop (sum_list sizes) (s_unread t)) (s_written t)) ∧
    _pfp__build (S (S fuel)) s VNone st' =
      (Ok (VStr (str_take (sum_list sizes) (s_unread t))), st').
Proof.
  intros H Hs Hnd Hall Hst Hlen.
  destruct (accumulate_integers fuel sid _ _ 0%Z st t Hnd Hall Hst Hlen)
    as (st' & Hacc & Hs' & Hframe & Hbuilt).
  assert (Hnotin : s ∉ o_children o).
  { intros Hin. apply list_elem_of_lookup in Hin as [i Hi].
    destruct (Forall2_lookup_l _ _ _ _ _ Hall Hi)
      as (k & _ & (o' & e & sg & H' & Hn & _)).
    simplify_eq. apply number_not_struct in Hn. congruence. }
  exists st'. split; [|split; [done|]].
  - rewrite _pfp__parse_S, (bind_ok _ _ _ _ _ (get_obj_ok _ _ _ H)).
    rewrite (struct_parse_method _ Hs). unfold Struct__pfp__parse.
    by rewrite (bind_ok _ _ _ _ _ (get_obj_ok _ _ _ H)), Hacc.
  - assert (H' : heap st' !! s = Some o) by (by rewrite Hframe).
    rewrite _pfp__build_S, (bind_ok _ _ _ _ _ (get_obj_ok _ _ _ H')).
    rewrite (struct_build_method _ Hs). unfold Struct__pfp__build.
    rewrite (bind_ok _ _ _ _ _ (get_obj_ok _ _ _ H')).
    rewrite (accumulate_strings _ _ (slices sizes (s_unread t))).
    + by rewrite str_app_nil_l, str_concat_slices.
    + eapply Forall2_impl; [done|]. intros c d Hd. apply Hd.
Qed.

Lemma Struct_parse_then_build_witness :
  ∃ st',
    _pfp__parse 2 0 (VStream 0) record_state =
      (Ok (VInt (Z.of_nat (sum_list [1; 2]))), st') ∧
    streams st' !! 0 =
      Some (mkStream (str_drop (sum_list [1; 2]) "abcde") "") ∧
    _pfp__build 2 0 VNone st' =
      (Ok (VStr (str_take (sum_list [1; 2]) "abcde")), st').
Proof.
  apply (Struct_parse_then_build 0 0 record_struct [1; 2] 0
           (mkStream "abcde" "") record_state);
    [reflexivity | reflexivity
    | name_solver | | reflexivity | simpl; lia].
  constructor;
    [exists (new_obj C_UChar), BIG_ENDIAN, false
    |constructor;
      [exists (new_obj C_Short), BIG_ENDIAN, true|constructor]];
    (split; [reflexivity|]; split; [reflexivity|]; split; [by repeat split|];
     split; [split; [reflexivity|by left]|reflexivity]).
Defined.

(** ** In-place arithmetic and the range of a field *)




(** ** Construction from a stream *)

(** X28: a numeric class called with a stream makes the field and
    parses it at once: with enough bytes the call returns the new
    field, which holds the bytes it consumed; with fewer the call
    raises [PrematureEOF] and the stream is consumed to its end. *)
Theorem number_constructed_with_stream (fuel : nat) (c : Cls) (w : Z)
    (sid : nat) (t : stream) (st : state) :
  number_width c = Some w → streams st !! sid = Some t →
  ((w ≤ Z.of_nat (String.length (s_unread t)))%Z →
   ∃ st', new (S fuel) c [VStream sid] st = (Ok (length (heap st)), st') ∧
          (heap st' !! length (heap st) ≫= λ o, o_dict o !! "_pfp__data") =
            Some (VStr (str_take (Z.to_nat w) (s_unread t))) ∧
          streams st' !! sid =
            Some (mkStream (str_drop (Z.to_nat w) (s_unread t)) (s_written t))) ∧
  ((Z.of_nat (String.length (s_unread t)) < w)%Z →
   ∃ st', new (S fuel) c [VStream sid] st = (Raise PrematureEOF, st') ∧
          streams st' !! sid = Some (mkStream "" (s_written t))).
Proof.
  intros Hw Hs.
  assert (Hnum : is_number c = true)
    by (unfold number_width in Hw; by destruct (is_number _)).
  set (e0 := with_attr "_pfp__name" VNone (new_obj c)).
  set (st1 := mkState (heap st ++ [e0]) (streams st)).
  assert (H1 : heap st1 !! length (heap st) = Some e0) by apply lookup_new.
  assert (Hinit : ∀ r st2,
    _pfp__parse (S fuel) (length (heap st)) (VStream sid) st1 = (r, st2) →
    new (S fuel) c [VStream sid] st =
      (match r with
       | Ok _ => Ok (length (heap st))
       | Raise x => Raise x
       | Stuck x => Stuck x
       end, st2)).
  { intros r st2 Hparse. unfold new, construct.
    rewrite (bind_ok _ _ _ _ _ (alloc_ok _ _)).
    assert (defining_class c "__init__" = Some C_Field) as -> by (by destruct c).
    cbv beta iota. unfold Field___init__.
    unfold bind at 1. unfold bind at 1.
    erewrite py_setattr_object; [|apply lookup_new|by destruct c|name_solver].
    rewrite upd_new. fold e0 st1. unfold bind. rewrite Hparse.
    by destruct r. }
  split; intros Hlen.
  - destruct (number_parse_general fuel _ e0 w sid t st1 H1) as [v Hparse];
      [done|done|done|done|done|].
    eexists. split; [exact (Hinit _ _ Hparse)|]. split.
    + erewrite heap_upd_same by done. simpl.
      rewrite lookup_insert_ne by done. by rewrite lookup_insert_eq.
    + simpl. apply list_lookup_insert_eq. by eapply lookup_lt_Some.
  - assert (Hparse : _pfp__parse (S fuel) (length (heap st)) (VStream sid) st1 =
              (Raise PrematureEOF, upd_stream sid (mkStream "" (s_written t)) st1)).
    { apply (number_parse_short fuel _ w sid t st1); [by exists e0|done|done]. }
    eexists. split; [exact (Hinit _ _ Hparse)|].
    simpl. apply list_lookup_insert_eq. by eapply lookup_lt_Some.
Qed.

Lemma number_constructed_with_stream_witness :
  ((4 ≤ Z.of_nat (String.length "abcde"))%Z →
   ∃ st', new 1 C_Int [VStream 0] (initial ["abcde"]) =
            (Ok (length (heap (initial ["abcde"]))), st') ∧
          (heap st' !! length (heap (initial ["abcde"]))
             ≫= λ o, o_dict o !! "_pfp__data") =
            Some (VStr (str_take (Z.to_nat 4) "abcde")) ∧
          streams st' !! 0 =
            Some (mkStream (str_drop (Z.to_nat 4) "abcde") "")) ∧
  ((Z.of_nat (String.length "abcde") < 4)%Z →
   ∃ st', new 1 C_Int [VStream 0] (initial ["abcde"]) =
            (Raise PrematureEOF, st') ∧
          streams st' !! 0 = Some (mkStream "" "")).
Proof.
  apply (number_constructed_with_stream 0 C_Int 4 0 (mkStream "abcde" "")
           (initial ["abcde"])); reflexivity.
Defined.

(** ** The base class *)

(** X29: the base class [Field] gives its subclasses no parse and no
    build of their own: on a [Field] or a [Void], [_pfp__parse] and
    [_pfp__build] raise [TypeError] (the call of [NotImplemented])
    and touch neither the store nor the stream, and making one from
    a stream raises it too, with no byte read. *)
Theorem base_field_cannot_parse_or_build (fuel : nat) (l : loc) (o : obj)
    (stream : PyVal) (sid : nat) (st : state) :
  heap st !! l = Some o → o_cls o = C_Field ∨ o_cls o = C_Void →
  _pfp__parse (S fuel) l stream st = (Raise TypeError, st) ∧
  _pfp__build (S fuel) l stream st = (Raise TypeError, st) ∧
  ∃ st', new (S fuel) (o_cls o) [VStream sid] st = (Raise TypeError, st') ∧
         streams st' = streams st.
Proof.
  intros H Hc. split; [|split].
  - rewrite _pfp__parse_S, (bind_ok _ _ _ _ _ (get_obj_ok _ _ _ H)).
    by destruct Hc as [-> | ->].
  - rewrite _pfp__build_S, (bind_ok _ _ _ _ _ (get_obj_ok _ _ _ H)).
    by destruct Hc as [-> | ->].
  - set (e0 := with_attr "_pfp__name" VNone (new_obj (o_cls o))).
    set (st1 := mkState (heap st ++ [e0]) (streams st)).
    assert (H1 : heap st1 !! length (heap st) = Some e0) by apply lookup_new.
    assert (Hparse : _pfp__parse (S fuel) (length (heap st)) (VStream sid) st1 =
              (Raise TypeError, st1)).
    { rewrite _pfp__parse_S, (bind_ok _ _ _ _ _ (get_obj_ok _ _ _ H1)).
      change (o_cls e0) with (o_cls o). by destruct Hc as [-> | ->]. }
    unfold new, construct. rewrite (bind_ok _ _ _ _ _ (alloc_ok _ _)).
    assert (defining_class (o_cls o) "__init__" = Some C_Field) as ->
      by (by destruct Hc as [-> | ->]).
    cbv beta iota. unfold Field___init__.
    unfold bind at 1. unfold bind at 1.
    erewrite py_setattr_object;
      [|apply lookup_new|by destruct Hc as [-> | ->]|name_solver].
    rewrite upd_new. fold e0 st1. unfold bind. rewrite Hparse.
    by exists st1.
Qed.

Lemma base_field_cannot_parse_or_build_witness :
  let st := mkState [new_obj C_Void] [mkStream "ab" ""] in
  _pfp__parse 1 0 (VStream 0) st = (Raise TypeError, st) ∧
  _pfp__build 1 0 (VStream 0) st = (Raise TypeError, st) ∧
  ∃ st', new 1 C_Void [VStream 0] st = (Raise TypeError, st') ∧
         streams st' = streams st.
Proof.
  intros st.
  apply (base_field_cannot_parse_or_build 0 0 (new_obj C_Void) (VStream 0) 0 st);
    [reflexivity | by right].
Defined.

(** ** What parsing leaves alone *)

Global Instance layout_frame_preorder : PreOrder layout_frame.
Proof.
  split.
  - intros st. split; [done|]. intros l o H. by exists o.
  - intros st1 st2 st3 [Hl1 H1] [Hl2 H2]. split; [lia|].
    intros l o H. destruct (H1 _ _ H) as (o' & H' & Hc & Hch & Hm).
    destruct (H2 _ _ H') as (o'' & H'' & Hc' & Hch' & Hm').
    exists o''. split; [done|]. split; [congruence|]. split; congruence.
Qed.

Lemma layout_upd_heap l (f : obj → obj) o st :
  heap st !! l = Some o →
  o_cls (f o) = o_cls o → o_children (f o) = o_children o →
  o_children_map (f o) = o_children_map o →
  layout_frame st (upd_heap l (f o) st).
Proof.
  intros H Hc Hch Hm. split; [by simpl; rewrite length_insert|].
  intros l' o' H'. destruct (decide (l = l')) as [<-|Hne].
  - simplify_eq. exists (f o). split; [by eapply heap_upd_same|done].
  - exists o'. by rewrite heap_upd_other.
Qed.

Lemma layout_upd_stream sid t st : layout_frame st (upd_stream sid t st).
Proof. split; [done|]. intros l o H. by exists o. Qed.

Lemma layout_alloc o st :
  layout_frame st (mkState (heap st ++ [o]) (streams st)).
Proof.
  split; [simpl; rewrite length_app; lia|].
  intros l o' H. exists o'. simpl. by rewrite (lookup_app_l_Some _ _ _ _ H).
Qed.

Lemma keeps_modify_obj l (f : obj → obj) :
  (∀ o, o_cls (f o) = o_cls o ∧ o_children (f o) = o_children o ∧
        o_children_map (f o) = o_children_map o) →
  keeps layout_frame (modify_obj l f).
Proof.
  intros Hf st. unfold modify_obj, bind, get_obj.
  destruct (heap st !! l) as [o|] eqn:E; [|done].
  destruct (Hf o) as (? & ? & ?). by apply layout_upd_heap.
Qed.

Lemma keeps_object_setattr l n v : keeps layout_frame (object___setattr__ l n v).
Proof.
  unfold object___setattr__. destruct (bool_decide _); [by intros st|].
  by apply keeps_modify_obj.
Qed.

Lemma keeps_stream_read sid n : keeps layout_frame (stream_read sid n).
Proof.
  intros st. unfold stream_read. destruct n; try done.
  destruct (streams st !! sid); [|done]. apply layout_upd_stream.
Qed.

Lemma keeps_unread_length s : keeps layout_frame (unread_length s).
Proof.
  apply keeps_pure; [apply _|]. intros st. unfold unread_length.
  destruct s; try done. by destruct (streams st !! sid).
Qed.

(** An assignment of a value that is not a field rebinds no name. *)
Lemma keeps_py_setattr fuel :
  ∀ l n v, isinstance_Field v = false →
    keeps layout_frame (py_setattr fuel l n v).
Proof.
  induction fuel as [|f IH]; intros l n v Hv; [by intros st|].
  rewrite py_setattr_S. keeps_chain.
  destruct (defining_class (o_cls a) "__setattr__") as [[]|];
    try apply keeps_object_setattr.
  keeps_chain. unfold Struct___setattr__. keeps_chain.
  destruct (o_children_map a0 !! n).
  - destruct v; try done; keeps_chain; by apply IH.
  - keeps_chain. apply keeps_object_setattr.
Qed.

Ltac layout_chain :=
  repeat first [ solve [keeps_leaf]
               | apply keeps_object_setattr | apply keeps_stream_read
               | apply keeps_unread_length
               | lazymatch goal with
                 | |- keeps _ (bind _ _) =>
                     apply keeps_bind; [apply _| |intros ?]
                 | |- keeps _ (if ?b then _ else _) => destruct b
                 end ].

Lemma keeps_NumberBase_parse l stream :
  keeps layout_frame (NumberBase__pfp__parse l stream).
Proof.
  unfold NumberBase__pfp__parse. layout_chain.
Qed.

Lemma keeps_String_read_loop fuel l stream :
  ∀ acc, keeps layout_frame (String_read_loop fuel l stream acc).
Proof.
  induction fuel as [|f IH]; intros acc; [by intros st|].
  cbn [String_read_loop]. layout_chain. apply IH.
Qed.

Lemma keeps_String_parse l stream :
  keeps layout_frame (String__pfp__parse l stream).
Proof.
  unfold String__pfp__parse. layout_chain. apply keeps_String_read_loop.
Qed.

Lemma keeps_WString_parse l stream :
  keeps layout_frame (WString__pfp__parse l stream).
Proof.
  unfold WString__pfp__parse. layout_chain. apply keeps_String_parse.
Qed.

Section LayoutWithParse.
Variable parse : loc → PyVal → M PyVal.
Hypothesis keeps_parse : ∀ l stream, keeps layout_frame (parse l stream).

Lemma keeps_Field_init fuel l stream :
  keeps layout_frame (Field___init__ fuel parse l stream).
Proof.
  unfold Field___init__. layout_chain; [by apply keeps_py_setattr|].
  destruct stream; layout_chain; apply keeps_parse.
Qed.

Lemma Struct_init_new fuel h ss c arg :
  Struct___init__ fuel parse (length h) arg (mkState (h ++ [new_obj c]) ss) =
  Field___init__ fuel parse (length h) arg (mkState (h ++ [new_obj c]) ss).
Proof.
  unfold Struct___init__.
  erewrite (bind_ok (modify_obj _ _)); [|apply modify_obj_ok, lookup_new].
  rewrite upd_new.
  erewrite (bind_ok (modify_obj _ _)); [|apply modify_obj_ok, lookup_new].
  by rewrite upd_new.
Qed.

(** A call of a class without arguments: what runs after the new
    object is in the store changes that object only. *)
Lemma keeps_construct fuel init_array c :
  keeps layout_frame (construct fuel parse init_array c []).
Proof.
  intros st. unfold construct.
  rewrite (bind_ok _ _ _ _ _ (alloc_ok _ _)).
  set (st0 := mkState (heap st ++ [new_obj c]) (streams st)).
  etrans; [apply (layout_alloc (new_obj c))|]. fold st0.
  assert (Hinit : keeps layout_frame
            (Field___init__ fuel parse (length (heap st)) VNone ;;
             ret (length (heap st)))).
  { layout_chain. apply keeps_Field_init. }
  destruct (defining_class c "__init__") as [[]|] eqn:E;
    try apply (Hinit st0); try done.
  unfold bind, st0. rewrite Struct_init_new. apply (Hinit st0).
Qed.

Lemma keeps_Array_parse_loop fuel a stream count :
  ∀ x, keeps layout_frame
         (Array_parse_loop fuel parse count x a stream).
Proof.
  induction count as [|n IH]; intros x; [by apply keeps_ret; apply _|].
  cbn [Array_parse_loop]. layout_chain.
  - unfold call0. destruct a0; layout_chain. apply keeps_construct.
  - apply keeps_py_setattr. done.
  - apply keeps_parse.
  - by apply keeps_modify_obj.
  - apply IH.
Qed.

Lemma keeps_Array_parse fuel a stream :
  keeps layout_frame (Array__pfp__parse fuel parse a stream).
Proof.
  unfold Array__pfp__parse. layout_chain.
  - by apply keeps_modify_obj.
  - unfold PYVAL, get_value. destruct a1; layout_chain.
  - apply keeps_Array_parse_loop.
Qed.
End LayoutWithParse.

Lemma parse_keeps fuel :
  ∀ l stream, keeps layout_frame (_pfp__parse fuel l stream).
Proof.
  induction fuel as [|f IH]; intros l stream; [by intros st|].
  rewrite _pfp__parse_S. layout_chain.
  destruct (defining_class (o_cls a) "_pfp__parse") as [[]|];
    try (by apply keeps_raise; apply _).
  - unfold Struct__pfp__parse. layout_chain.
    apply keeps_accumulate; [apply _|]. intros c. apply IH.
  - apply keeps_NumberBase_parse.
  - by apply keeps_Array_parse.
  - apply keeps_String_parse.
  - apply keeps_WString_parse.
Qed.

(** X30: parsing leaves the shape of what exists alone: however
    [_pfp__parse] ends (with a result, an exception or out of fuel),
    no object has gone from the store, and every object that was in
    it has the class, the child sequence and the name index it had
    before.  Nothing is stated here about the other attributes. *)
Theorem parse_keeps_the_layout (fuel : nat) (l : loc) (stream : PyVal)
    (st : state) :
  length (heap st) ≤ length (heap (_pfp__parse fuel l stream st).2) ∧
  ∀ l' o, heap st !! l' = Some o →
    ∃ o', heap (_pfp__parse fuel l stream st).2 !! l' = Some o' ∧
          o_cls o' = o_cls o ∧ o_children o' = o_children o ∧
          o_children_map o' = o_children_map o.
Proof. apply parse_keeps. Qed.
